(** * VisionAnnotate: oriented bounding-box labels and their edit state machine

    A shallow embedding of [yolo_label_tool.py] (class [YOLOLabelTool]) and of
    the geometry helpers of [labelling_tool.py] (class [RotatedYOLOLabelTool]).

    Conventions of the embedding.
    - Python floats are idealised as real numbers ([R]); Python ints are [Z].
      Rounding error, infinities and NaN are outside the model.
    - A Python exception is a [Raise] result; handlers thread the widget's
      fields through a [State] record.
    - Text is [list ascii]; the file system is a map from paths to entries.
    - Pointer events arrive in scene coordinates with the left button, as
      [eventFilter] passes them after [mapToScene].
    - The handlers end with redraws of the canvas and of the labels list
      ([update_display], [update_display_with_temp], [update_labels_list]).
      A redraw changes no field of the state; it looks up the class name of
      every label and raises [IndexError] when a class id is below
      [-len(classes)]. [update_labels_list] is part of the definitions
      where it decides the result ([load_yolo_labels],
      [check_near_existing_points]). In the pointer and button handlers the
      redraws are left out: a [Raise] of such a handler is an exception
      raised before its redraws, and the properties that state that such a
      handler returns assume [names_ok], under which every redraw returns,
      and show that it holds again afterwards.
    - [int] and [float] are modelled on plain decimal literals; the
      properties that depend on a token being rejected assume
      [plain_token], under which the model agrees with Python. *)

From Stdlib Require Import Reals Lra Lia ZArith Bool Ascii String List.
Import ListNotations.
Open Scope R_scope.

(** ** Python values and exceptions *)

Inductive exn : Type :=
| IndexError
| ZeroDivisionError
| AttributeError
| ValueError
| OverflowError.

Inductive result (A : Type) : Type :=
| Ok (a : A)
| Raise (e : exn).

Arguments Ok {A} a.
Arguments Raise {A} e.

Definition bind {A B : Type} (m : result A) (k : A -> result B) : result B :=
  match m with
  | Ok a => k a
  | Raise e => Raise e
  end.

Notation "x <- m ;; k" := (bind m (fun x => k))
  (at level 61, m at next level, right associativity).

(** [a / b]: true division raises on a zero divisor. *)
Definition py_truediv (a b : R) : result R :=
  if Req_dec_T b 0 then Raise ZeroDivisionError else Ok (a / b).

(** [min(a, b)] and [max(a, b)] keep the first argument unless the second
    is strictly smaller (strictly larger). *)
Definition py_min (a b : R) : R := if Rlt_dec b a then b else a.
Definition py_max (a b : R) : R := if Rlt_dec a b then b else a.

(** [min(xs)] and [max(xs)] of a list; the empty list raises [ValueError]. *)
Definition py_min_list (xs : list R) : result R :=
  match xs with
  | [] => Raise ValueError
  | x :: rest => Ok (fold_left py_min rest x)
  end.

Definition py_max_list (xs : list R) : result R :=
  match xs with
  | [] => Raise ValueError
  | x :: rest => Ok (fold_left py_max rest x)
  end.

(** [int(x)] of a float truncates toward zero. *)
Definition py_int_of_float (x : R) : Z :=
  if Rle_dec 0 x then Int_part x else (- Int_part (- x))%Z.

(** Index normalisation of Python sequences: [-len <= i < len]. *)
Definition py_norm_index (len : nat) (i : Z) : option nat :=
  let n := Z.of_nat len in
  if (0 <=? i)%Z then
    if (i <? n)%Z then Some (Z.to_nat i) else None
  else if (0 <=? n + i)%Z then Some (Z.to_nat (n + i)) else None.

Definition py_getitem {A : Type} (l : list A) (i : Z) : result A :=
  match py_norm_index (length l) i with
  | Some k =>
      match nth_error l k with
      | Some a => Ok a
      | None => Raise IndexError
      end
  | None => Raise IndexError
  end.

Fixpoint list_set {A : Type} (l : list A) (k : nat) (a : A) : list A :=
  match l, k with
  | [], _ => []
  | _ :: t, O => a :: t
  | h :: t, S k' => h :: list_set t k' a
  end.

(** [l[i] = a]: assignment outside the list raises [IndexError]. *)
Definition py_setitem {A : Type} (l : list A) (i : Z) (a : A)
  : result (list A) :=
  match py_norm_index (length l) i with
  | Some k => Ok (list_set l k a)
  | None => Raise IndexError
  end.

(** [l.pop(i)], keeping only the remaining list. *)
Definition py_pop {A : Type} (l : list A) (i : Z) : result (list A) :=
  match py_norm_index (length l) i with
  | Some k => Ok (firstn k l ++ skipn (S k) l)
  | None => Raise IndexError
  end.

(** ** Labels *)

(** One label dictionary: [class_id] is an int, the other keys are numbers. *)
Record Label : Type := mkLabel {
  class_id : Z;
  x_center : R;
  y_center : R;
  width : R;
  height : R;
  angle : R
}.

Definition set_x_center (v : R) (l : Label) : Label :=
  mkLabel (class_id l) v (y_center l) (width l) (height l) (angle l).
Definition set_y_center (v : R) (l : Label) : Label :=
  mkLabel (class_id l) (x_center l) v (width l) (height l) (angle l).
Definition set_width (v : R) (l : Label) : Label :=
  mkLabel (class_id l) (x_center l) (y_center l) v (height l) (angle l).
Definition set_height (v : R) (l : Label) : Label :=
  mkLabel (class_id l) (x_center l) (y_center l) (width l) v (angle l).
Definition set_angle (v : R) (l : Label) : Label :=
  mkLabel (class_id l) (x_center l) (y_center l) (width l) (height l) v.

(** The clamps written inline at every store:
    [max(0.0, min(1.0, v))] and [max(0.001, min(1.0, v))]. *)
Definition clamp01 (v : R) : R := py_max 0 (py_min 1 v).
Definition clamp_size (v : R) : R := py_max (1 / 1000) (py_min 1 v).

(** The ranges of the data model. *)
Definition label_in_range (l : Label) : Prop :=
  0 <= x_center l <= 1 /\ 0 <= y_center l <= 1 /\
  1 / 1000 <= width l <= 1 /\ 1 / 1000 <= height l <= 1.

(** ** Geometry *)

Definition Point : Type := (R * R)%type.

(** [np.radians] / [math.radians] and [np.degrees]. *)
Definition radians (deg : R) : R := deg * PI / 180.
Definition degrees (rad : R) : R := rad * 180 / PI.

(** [np.arctan2(dy, dx)]. *)
Definition arctan2 (dy dx : R) : R :=
  if Rlt_dec 0 dx then atan (dy / dx)
  else if Rlt_dec dx 0 then
    if Rle_dec 0 dy then atan (dy / dx) + PI else atan (dy / dx) - PI
  else if Rlt_dec 0 dy then PI / 2
  else if Rlt_dec dy 0 then - (PI / 2)
  else 0.

(** [YOLOLabelTool.calculate_handles]: four rotated corners (top-left,
    top-right, bottom-right, bottom-left) followed by the four rotated edge
    centres (top, right, bottom, left), in image pixels. *)
Definition calculate_handles (image_width image_height : R) (label : Label)
  : list Point :=
  let xc := x_center label * image_width in
  let yc := y_center label * image_height in
  let w := width label * image_width in
  let h := height label * image_height in
  let angle_rad := radians (angle label) in
  let corners_rel :=
    [(- w / 2, - h / 2); (w / 2, - h / 2); (w / 2, h / 2); (- w / 2, h / 2)] in
  let cos_a := cos angle_rad in
  let sin_a := sin angle_rad in
  let rot (d : Point) : Point :=
    (fst d * cos_a - snd d * sin_a + xc, fst d * sin_a + snd d * cos_a + yc) in
  let edge_centers :=
    [(0, - h / 2); (w / 2, 0); (0, h / 2); (- w / 2, 0)] in
  map rot corners_rel ++ map rot edge_centers.

(** [RotatedYOLOLabelTool.calculate_rotated_corners]; [angle] is in radians,
    its caller passes [math.radians(label['angle'])]. *)
Definition calculate_rotated_corners (cx cy w h angle : R) : list Point :=
  let half_w := w / 2 in
  let half_h := h / 2 in
  let relative_corners :=
    [(- half_w, - half_h); (half_w, - half_h);
     (half_w, half_h); (- half_w, half_h)] in
  let cos_a := cos angle in
  let sin_a := sin angle in
  map (fun d : Point =>
         let x_rot := fst d * cos_a - snd d * sin_a in
         let y_rot := fst d * sin_a + snd d * cos_a in
         (cx + x_rot, cy + y_rot))
      relative_corners.

(** Arithmetic mean of a list of points. *)
Definition centroid (pts : list Point) : Point :=
  (fold_right Rplus 0 (map fst pts) / INR (length pts),
   fold_right Rplus 0 (map snd pts) / INR (length pts)).

(** ** Text: the builtins used to read and write label files

    A text is the sequence of its code points (below 256). *)

Definition text : Type := list ascii.

(** A string literal as a text. *)
Definition txt (s : string) : text := list_ascii_of_string s.

(** [str.isspace] on code points below 256. *)
Definition is_space (c : ascii) : bool :=
  let n := nat_of_ascii c in
  ((9 <=? n) && (n <=? 13) || (28 <=? n) && (n <=? 32)
   || (n =? 133) || (n =? 160))%nat.

Definition LF : ascii := ascii_of_nat 10.
Definition is_newline (c : ascii) : bool := (nat_of_ascii c =? 10)%nat.

(** Iterating over a text file: each line keeps its terminating newline,
    the last line may lack one. *)
Fixpoint py_lines (s : text) : list text :=
  match s with
  | [] => []
  | c :: t =>
      if is_newline c then [c] :: py_lines t
      else match py_lines t with
           | [] => [[c]]
           | l :: ls => (c :: l) :: ls
           end
  end.

Fixpoint drop_space (s : text) : text :=
  match s with
  | [] => []
  | c :: t => if is_space c then drop_space t else s
  end.

(** [s.strip()]. *)
Definition py_strip (s : text) : text := rev (drop_space (rev (drop_space s))).

(** [s.split()]: maximal runs of non-whitespace characters. *)
Fixpoint py_split (s : text) : list text :=
  match s with
  | [] => []
  | c :: t =>
      if is_space c then py_split t
      else match t with
           | [] => [[c]]
           | c' :: _ =>
               if is_space c' then [c] :: py_split t
               else match py_split t with
                    | tok :: toks => (c :: tok) :: toks
                    | [] => [[c]]
                    end
           end
  end.

Definition digit_of (c : ascii) : option Z :=
  let n := nat_of_ascii c in
  if ((48 <=? n) && (n <=? 57))%nat then Some (Z.of_nat (n - 48)) else None.

Definition digit_char (d : Z) : ascii := ascii_of_nat (48 + Z.to_nat d).

Definition is_digit (c : ascii) : bool :=
  match digit_of c with Some _ => true | None => false end.

(** Value of a run of decimal digits read left to right; [None] when a
    character is not a digit. *)
Fixpoint parse_digits (acc : Z) (s : text) : option Z :=
  match s with
  | [] => Some acc
  | c :: t =>
      match digit_of c with
      | Some d => parse_digits (10 * acc + d) t
      | None => None
      end
  end.

(** A leading ['+'] or ['-']: whether the number is negated, and the rest. *)
Definition split_sign (s : text) : bool * text :=
  match s with
  | c :: t =>
      if (nat_of_ascii c =? 45)%nat then (true, t)
      else if (nat_of_ascii c =? 43)%nat then (false, t)
      else (false, s)
  | [] => (false, [])
  end.

(** The text before the first ['.'] and, when there is one, the text after. *)
Fixpoint split_dot (s : text) : text * option text :=
  match s with
  | [] => ([], None)
  | c :: t =>
      if (nat_of_ascii c =? 46)%nat then ([], Some t)
      else let '(a, b) := split_dot t in (c :: a, b)
  end.

(** [int(s)] on a token: an optional sign and at least one decimal digit.
    Other spellings that Python accepts (digit-group underscores) are not
    modelled and count as [ValueError]. *)
Definition py_int (s : text) : result Z :=
  let '(neg, body) := split_sign s in
  match body with
  | [] => Raise ValueError
  | _ =>
      match parse_digits 0 body with
      | Some n => Ok (if neg then (- n)%Z else n)
      | None => Raise ValueError
      end
  end.

(** Mantissa and number of fraction digits of an unsigned decimal literal
    [digits[.digits]] with at least one digit; [neg] negates the mantissa. *)
Definition decimal_body (neg : bool) (body : text) : option (Z * nat) :=
  let '(ip, fp) := split_dot body in
  let frac := match fp with Some f => f | None => [] end in
  match ip ++ frac with
  | [] => None
  | ds =>
      match parse_digits 0 ds with
      | Some n => Some (if neg then (- n)%Z else n, length frac)
      | None => None
      end
  end.

(** The same for a literal with an optional sign. *)
Definition decimal_of (s : text) : option (Z * nat) :=
  let '(neg, body) := split_sign s in decimal_body neg body.

(** [float(s)] on a token, for plain decimal literals. Exponents,
    underscores, [inf] and [nan] are not modelled and count as
    [ValueError]. *)
Definition py_float (s : text) : result R :=
  match decimal_of s with
  | Some (m, k) => Ok (IZR m / IZR (10 ^ Z.of_nat k))
  | None => Raise ValueError
  end.

(** The characters of a plain decimal literal, and the characters that
    occur in some literal that Python's [float] accepts (digits, signs, the
    point, exponent marks, digit-group underscores and the letters of [inf],
    [infinity] and [nan]). *)
Definition decimal_char (c : ascii) : bool :=
  existsb (Ascii.eqb c) (txt "0123456789+-.").
Definition float_char (c : ascii) : bool :=
  existsb (Ascii.eqb c) (txt "0123456789+-.eE_infatyINFATY").

(** The tokens on which [py_int] and [py_float] are Python's [int] and
    [float]: written with the characters of a plain decimal literal only,
    or containing a character that no accepted literal contains. *)
Definition plain_token (t : text) : bool :=
  forallb decimal_char t || negb (forallb float_char t).

(** The [k] low decimal digits of [n], most significant first. *)
Fixpoint digits_fixed (k : nat) (n : Z) : text :=
  match k with
  | O => []
  | S k' => digits_fixed k' (n / 10) ++ [digit_char (n mod 10)]
  end.

Fixpoint num_digits_aux (fuel : nat) (n : Z) : nat :=
  match fuel with
  | O => 1
  | S f => if (n <? 10)%Z then 1%nat else S (num_digits_aux f (n / 10))
  end.

(** Number of decimal digits of a natural number (1 for 0). *)
Definition num_digits (n : Z) : nat :=
  num_digits_aux (Z.to_nat (Z.log2 n + 1)) n.

Definition str_nat (n : Z) : text := digits_fixed (num_digits n) n.

(** [str(n)] of an int, as an f-string field prints it. *)
Definition py_str_int (n : Z) : text :=
  if (n <? 0)%Z then ascii_of_nat 45 :: str_nat (- n) else str_nat n.

(** Nearest integer, ties to the even one. *)
Definition round_half_even (y : R) : Z :=
  let f := Int_part y in
  let d := y - IZR f in
  if Rlt_dec d (1 / 2) then f
  else if Rlt_dec (1 / 2) d then (f + 1)%Z
  else if Z.even f then f else (f + 1)%Z.

(** The number of millionths printed for [x] by the format [.6f]. *)
Definition micro (x : R) : Z := round_half_even (x * 1000000).

(** [x] rounded to 6 decimal places. *)
Definition round6 (x : R) : R := IZR (micro x) / 1000000.

(** [f"{x:.6f}"]: sign, integer digits, a point and exactly six digits. *)
Definition format_6f (x : R) : text :=
  let m := Z.abs (micro x) in
  (if Rlt_dec x 0 then [ascii_of_nat 45] else [])
  ++ str_nat (m / 1000000) ++ [ascii_of_nat 46]
  ++ digits_fixed 6 (m mod 1000000).

(** ** Qt values *)

Record QRectF : Type := mkQRectF { rx : R; ry : R; rw : R; rh : R }.

(** [QRectF(topLeft, bottomRight)]. *)
Definition QRectF_of_points (p q : Point) : QRectF :=
  mkQRectF (fst p) (snd p) (fst q - fst p) (snd q - snd p).

(** [QRectF.normalized()]: a negative extent is flipped. *)
Definition QRectF_normalized (r : QRectF) : QRectF :=
  let '(x, w) := if Rlt_dec (rw r) 0 then (rx r + rw r, - rw r)
                 else (rx r, rw r) in
  let '(y, h) := if Rlt_dec (rh r) 0 then (ry r + rh r, - rh r)
                 else (ry r, rh r) in
  mkQRectF x y w h.

(** [QRectF.isValid()]. PyQt5 uses it as the truth value of a [QRectF]
    ([__bool__]), so an empty rectangle is falsy. *)
Definition QRectF_isValid (r : QRectF) : bool :=
  if Rlt_dec 0 (rw r) then if Rlt_dec 0 (rh r) then true else false
  else false.

(** [QRectF.contains(x, y)]: edges included, a rectangle of zero width or
    height contains nothing. *)
Definition QRectF_contains (r : QRectF) (x y : R) : bool :=
  let l := if Rlt_dec (rw r) 0 then rx r + rw r else rx r in
  let rr := if Rlt_dec (rw r) 0 then rx r else rx r + rw r in
  if Req_dec_T l rr then false
  else if Rlt_dec x l then false
  else if Rlt_dec rr x then false
  else
    let t := if Rlt_dec (rh r) 0 then ry r + rh r else ry r in
    let b := if Rlt_dec (rh r) 0 then ry r else ry r + rh r in
    if Req_dec_T t b then false
    else if Rlt_dec y t then false
    else if Rlt_dec b y then false
    else true.

(** ** The widget state

    The fields of [YOLOLabelTool] that its handlers read. [current_image] is
    whether a pixmap is loaded; [class_combo] and [angle_slider] are the
    current index of the class combo box (-1 when it is empty) and the value
    of the angle slider; [original_label] is [None] until a drag or resize
    assigns the attribute. Fields that are written but never read
    ([drag_start], [rotation_start]) and pure display state are left out. *)
Record State : Type := mkState {
  labels : list Label;
  classes : list text;
  drawing : bool;
  start_point : Point;
  temp_rect : option QRectF;
  selected_label : Z;
  drawing_mode : bool;
  edit_mode : bool;
  orientation_mode : bool;
  dragging : bool;
  rotating : bool;
  resizing : bool;
  resize_handle : Z;
  drag_offset : Point;
  original_label : option Label;
  image_width : Z;
  image_height : Z;
  current_image : bool;
  class_combo : Z;
  angle_slider : Z;
  image_dir : text;
  image_files : list text;
  current_index : Z
}.

Definition with_labels (v : list Label) (s : State) : State :=
  mkState v (classes s) (drawing s) (start_point s) (temp_rect s)
    (selected_label s) (drawing_mode s) (edit_mode s) (orientation_mode s)
    (dragging s) (rotating s) (resizing s) (resize_handle s) (drag_offset s)
    (original_label s) (image_width s) (image_height s) (current_image s)
    (class_combo s) (angle_slider s) (image_dir s) (image_files s)
    (current_index s).
Definition with_classes (v : list text) (s : State) : State :=
  mkState (labels s) v (drawing s) (start_point s) (temp_rect s)
    (selected_label s) (drawing_mode s) (edit_mode s) (orientation_mode s)
    (dragging s) (rotating s) (resizing s) (resize_handle s) (drag_offset s)
    (original_label s) (image_width s) (image_height s) (current_image s)
    (class_combo s) (angle_slider s) (image_dir s) (image_files s)
    (current_index s).
Definition with_drawing (v : bool) (s : State) : State :=
  mkState (labels s) (classes s) v (start_point s) (temp_rect s)
    (selected_label s) (drawing_mode s) (edit_mode s) (orientation_mode s)
    (dragging s) (rotating s) (resizing s) (resize_handle s) (drag_offset s)
    (original_label s) (image_width s) (image_height s) (current_image s)
    (class_combo s) (angle_slider s) (image_dir s) (image_files s)
    (current_index s).
Definition with_start_point (v : Point) (s : State) : State :=
  mkState (labels s) (classes s) (drawing s) v (temp_rect s)
    (selected_label s) (drawing_mode s) (edit_mode s) (orientation_mode s)
    (dragging s) (rotating s) (resizing s) (resize_handle s) (drag_offset s)
    (original_label s) (image_width s) (image_height s) (current_image s)
    (class_combo s) (angle_slider s) (image_dir s) (image_files s)
    (current_index s).
Definition with_temp_rect (v : option QRectF) (s : State) : State :=
  mkState (labels s) (classes s) (drawing s) (start_point s) v
    (selected_label s) (drawing_mode s) (edit_mode s) (orientation_mode s)
    (dragging s) (rotating s) (resizing s) (resize_handle s) (drag_offset s)
    (original_label s) (image_width s) (image_height s) (current_image s)
    (class_combo s) (angle_slider s) (image_dir s) (image_files s)
    (current_index s).
Definition with_selected_label (v : Z) (s : State) : State :=
  mkState (labels s) (classes s) (drawing s) (start_point s) (temp_rect s)
    v (drawing_mode s) (edit_mode s) (orientation_mode s) (dragging s)
    (rotating s) (resizing s) (resize_handle s) (drag_offset s)
    (original_label s) (image_width s) (image_height s) (current_image s)
    (class_combo s) (angle_slider s) (image_dir s) (image_files s)
    (current_index s).
Definition with_drawing_mode (v : bool) (s : State) : State :=
  mkState (labels s) (classes s) (drawing s) (start_point s) (temp_rect s)
    (selected_label s) v (edit_mode s) (orientation_mode s) (dragging s)
    (rotating s) (resizing s) (resize_handle s) (drag_offset s)
    (original_label s) (image_width s) (image_height s) (current_image s)
    (class_combo s) (angle_slider s) (image_dir s) (image_files s)
    (current_index s).
Definition with_edit_mode (v : bool) (s : State) : State :=
  mkState (labels s) (classes s) (drawing s) (start_point s) (temp_rect s)
    (selected_label s) (drawing_mode s) v (orientation_mode s) (dragging s)
    (rotating s) (resizing s) (resize_handle s) (drag_offset s)
    (original_label s) (image_width s) (image_height s) (current_image s)
    (class_combo s) (angle_slider s) (image_dir s) (image_files s)
    (current_index s).
Definition with_orientation_mode (v : bool) (s : State) : State :=
  mkState (labels s) (classes s) (drawing s) (start_point s) (temp_rect s)
    (selected_label s) (drawing_mode s) (edit_mode s) v (dragging s)
    (rotating s) (resizing s) (resize_handle s) (drag_offset s)
    (original_label s) (image_width s) (image_height s) (current_image s)
    (class_combo s) (angle_slider s) (image_dir s) (image_files s)
    (current_index s).
Definition with_dragging (v : bool) (s : State) : State :=
  mkState (labels s) (classes s) (drawing s) (start_point s) (temp_rect s)
    (selected_label s) (drawing_mode s) (edit_mode s) (orientation_mode s) v
    (rotating s) (resizing s) (resize_handle s) (drag_offset s)
    (original_label s) (image_width s) (image_height s) (current_image s)
    (class_combo s) (angle_slider s) (image_dir s) (image_files s)
    (current_index s).
Definition with_rotating (v : bool) (s : State) : State :=
  mkState (labels s) (classes s) (drawing s) (start_point s) (temp_rect s)
    (selected_label s) (drawing_mode s) (edit_mode s) (orientation_mode s)
    (dragging s) v (resizing s) (resize_handle s) (drag_offset s)
    (original_label s) (image_width s) (image_height s) (current_image s)
    (class_combo s) (angle_slider s) (image_dir s) (image_files s)
    (current_index s).
Definition with_resizing (v : bool) (s : State) : State :=
  mkState (labels s) (classes s) (drawing s) (start_point s) (temp_rect s)
    (selected_label s) (drawing_mode s) (edit_mode s) (orientation_mode s)
    (dragging s) (rotating s) v (resize_handle s) (drag_offset s)
    (original_label s) (image_width s) (image_height s) (current_image s)
    (class_combo s) (angle_slider s) (image_dir s) (image_files s)
    (current_index s).
Definition with_resize_handle (v : Z) (s : State) : State :=
  mkState (labels s) (classes s) (drawing s) (start_point s) (temp_rect s)
    (selected_label s) (drawing_mode s) (edit_mode s) (orientation_mode s)
    (dragging s) (rotating s) (resizing s) v (drag_offset s) (original_label
    s) (image_width s) (image_height s) (current_image s) (class_combo s)
    (angle_slider s) (image_dir s) (image_files s) (current_index s).
Definition with_drag_offset (v : Point) (s : State) : State :=
  mkState (labels s) (classes s) (drawing s) (start_point s) (temp_rect s)
    (selected_label s) (drawing_mode s) (edit_mode s) (orientation_mode s)
    (dragging s) (rotating s) (resizing s) (resize_handle s) v
    (original_label s) (image_width s) (image_height s) (current_image s)
    (class_combo s) (angle_slider s) (image_dir s) (image_files s)
    (current_index s).
Definition with_original_label (v : option Label) (s : State) : State :=
  mkState (labels s) (classes s) (drawing s) (start_point s) (temp_rect s)
    (selected_label s) (drawing_mode s) (edit_mode s) (orientation_mode s)
    (dragging s) (rotating s) (resizing s) (resize_handle s) (drag_offset s)
    v (image_width s) (image_height s) (current_image s) (class_combo s)
    (angle_slider s) (image_dir s) (image_files s) (current_index s).
Definition with_class_combo (v : Z) (s : State) : State :=
  mkState (labels s) (classes s) (drawing s) (start_point s) (temp_rect s)
    (selected_label s) (drawing_mode s) (edit_mode s) (orientation_mode s)
    (dragging s) (rotating s) (resizing s) (resize_handle s) (drag_offset s)
    (original_label s) (image_width s) (image_height s) (current_image s) v
    (angle_slider s) (image_dir s) (image_files s) (current_index s).
Definition with_angle_slider (v : Z) (s : State) : State :=
  mkState (labels s) (classes s) (drawing s) (start_point s) (temp_rect s)
    (selected_label s) (drawing_mode s) (edit_mode s) (orientation_mode s)
    (dragging s) (rotating s) (resizing s) (resize_handle s) (drag_offset s)
    (original_label s) (image_width s) (image_height s) (current_image s)
    (class_combo s) v (image_dir s) (image_files s) (current_index s).

(** The state after [__init__] and [load_config]: Draw mode, no gesture, no
    selection, slider at 0. [update_class_list] fills the combo box, whose
    current index becomes 0 unless the class list is empty. *)
Definition init_state (cls : list text) : State :=
  mkState [] cls false (0, 0) None (-1) true false false false false false
    (-1) (0, 0) None 0 0 false
    (match cls with [] => (-1)%Z | _ => 0%Z end) 0 [] [] (-1).

(** The part of [load_image] the handlers depend on: a pixmap of the given
    size is current. *)
Definition with_image (w h : Z) (s : State) : State :=
  mkState (labels s) (classes s) (drawing s) (start_point s) (temp_rect s)
    (selected_label s) (drawing_mode s) (edit_mode s) (orientation_mode s)
    (dragging s) (rotating s) (resizing s) (resize_handle s) (drag_offset s)
    (original_label s) w h true (class_combo s) (angle_slider s)
    (image_dir s) (image_files s) (current_index s).

(** ** Slider and label-info feedback *)

(** [update_angle_from_slider], the slot of the slider's [valueChanged],
    up to its closing redraws. *)
Definition update_angle_from_slider (st : State) : result State :=
  if (0 <=? selected_label st)%Z then
    label <- py_getitem (labels st) (selected_label st) ;;
    ls <- py_setitem (labels st) (selected_label st)
            (set_angle (IZR (angle_slider st)) label) ;;
    Ok (with_labels ls st)
  else Ok st.

(** The values of a C [int], the argument type of [QSlider.setValue]. *)
Definition c_int (v : Z) : bool :=
  ((-2147483648 <=? v) && (v <=? 2147483647))%Z.

(** [angle_slider.setValue(v)]: a Python int outside the C [int] range
    raises [OverflowError]; otherwise the value is bounded to the slider's
    range -180..180 and [valueChanged] fires only when it changes. *)
Definition slider_setValue (v : Z) (st : State) : result State :=
  if c_int v then
    let v' := Z.max (-180) (Z.min 180 v) in
    if (v' =? angle_slider st)%Z then Ok st
    else update_angle_from_slider (with_angle_slider v' st)
  else Raise OverflowError.

(** [update_label_info]: refreshes the edit fields, the slider and the combo
    box from the selected label. *)
Definition update_label_info (st : State) : result State :=
  if ((0 <=? selected_label st)
      && (selected_label st <? Z.of_nat (length (labels st))))%Z then
    label <- py_getitem (labels st) (selected_label st) ;;
    st1 <- slider_setValue (py_int_of_float (angle label)) st ;;
    if (class_id label <? Z.of_nat (length (classes st1)))%Z then
      Ok (with_class_combo
            (if (0 <=? class_id label)%Z then class_id label else (-1)%Z) st1)
    else Ok st1
  else Ok st.

(** Replaces the selected label dictionary by its mutated version. *)
Definition store_selected (l : Label) (st : State) : result State :=
  ls <- py_setitem (labels st) (selected_label st) l ;;
  Ok (with_labels ls st).

(** ** Pointer handlers

    Each handler is modelled up to its closing redraws
    ([update_display], [update_display_with_temp], [update_labels_list]),
    which return whenever [names_ok] holds. *)

(** The handle test of the press handler:
    [abs(x - hx) < 10 and abs(y - hy) < 10]. *)
Definition near_handle (x y : R) (h : Point) : bool :=
  if Rlt_dec (Rabs (x - fst h)) 10 then
    if Rlt_dec (Rabs (y - snd h)) 10 then true else false
  else false.

(** [for i, a in enumerate(l): if f(a): return i], counting from [i]. *)
Fixpoint find_first {A : Type} (f : A -> bool) (l : list A) (i : Z)
  : option Z :=
  match l with
  | [] => None
  | a :: t => if f a then Some i else find_first f t (i + 1)
  end.

(** The unrotated box of a label in image pixels. *)
Definition label_rect (iw ih : R) (label : Label) : QRectF :=
  let xc := x_center label * iw in
  let yc := y_center label * ih in
  let w := width label * iw in
  let h := height label * ih in
  mkQRectF (xc - w / 2) (yc - h / 2) w h.

(** [handle_mouse_press] for a left-button press at scene position [p]. *)
Definition handle_mouse_press (p : Point) (st : State) : result State :=
  let x := fst p in
  let y := snd p in
  let iw := IZR (image_width st) in
  let ih := IZR (image_height st) in
  if current_image st then
    if drawing_mode st then
      Ok (with_temp_rect (Some (mkQRectF x y 0 0))
            (with_start_point (x, y) (with_drawing true st)))
    else if edit_mode st && (0 <=? selected_label st)%Z then
      label <- py_getitem (labels st) (selected_label st) ;;
      match find_first (near_handle x y) (calculate_handles iw ih label) 0 with
      | Some i =>
          Ok (with_original_label (Some label)
                (with_resize_handle i (with_resizing true st)))
      | None =>
          if QRectF_contains (label_rect iw ih label) x y then
            Ok (with_original_label (Some label)
                  (with_drag_offset
                     (x - x_center label * iw, y - y_center label * ih)
                     (with_dragging true st)))
          else
            match find_first
                    (fun l => QRectF_contains (label_rect iw ih l) x y)
                    (labels st) 0 with
            | Some i => update_label_info (with_selected_label i st)
            | None => Ok st
            end
      end
    else if orientation_mode st && (0 <=? selected_label st)%Z then
      Ok (with_rotating true st)
    else Ok st
  else Ok st.

(** Reading [self.original_label], an attribute that exists only after a
    press has assigned it. *)
Definition get_original_label (st : State) : result Label :=
  match original_label st with
  | Some l => Ok l
  | None => Raise AttributeError
  end.

(** The four "keep within bounds" assignments that end a resize move. *)
Definition clamp_label (l : Label) : Label :=
  mkLabel (class_id l) (clamp01 (x_center l)) (clamp01 (y_center l))
    (clamp_size (width l)) (clamp_size (height l)) (angle l).

(** The resize branch of [handle_mouse_move] up to the final clamps: the
    dragged corner is written into the list of the four original corners
    before the handle kind is looked at. *)
Definition resize_label (x y iw ih : R) (handle : Z) (original label : Label)
  : result Label :=
  let orig_corners := firstn 4 (calculate_handles iw ih original) in
  modified_corners <- py_setitem orig_corners handle (x, y) ;;
  if (handle <? 4)%Z then
    let xs := map fst modified_corners in
    let ys := map snd modified_corners in
    min_x <- py_min_list xs ;;
    new_x_min <- py_truediv min_x iw ;;
    min_y <- py_min_list ys ;;
    new_y_min <- py_truediv min_y ih ;;
    max_x <- py_max_list xs ;;
    new_x_max <- py_truediv max_x iw ;;
    max_y <- py_max_list ys ;;
    new_y_max <- py_truediv max_y ih ;;
    Ok (mkLabel (class_id label)
          ((new_x_min + new_x_max) / 2) ((new_y_min + new_y_max) / 2)
          (new_x_max - new_x_min) (new_y_max - new_y_min) (angle label))
  else
    let edge_idx := (handle - 4)%Z in
    if ((edge_idx =? 0) || (edge_idx =? 2))%Z then
      scale <- py_truediv (y - y_center original * ih)
                 (ih * height original / 2) ;;
      Ok (set_height (height original * (1 + scale)) label)
    else
      scale <- py_truediv (x - x_center original * iw)
                 (iw * width original / 2) ;;
      Ok (set_width (width original * (1 + scale)) label).

(** [handle_mouse_move] for a pointer at scene position [p]. The closing
    hover test only changes the cursor. *)
Definition handle_mouse_move (p : Point) (st : State) : result State :=
  let x := fst p in
  let y := snd p in
  let iw := IZR (image_width st) in
  let ih := IZR (image_height st) in
  if drawing st && drawing_mode st then
    Ok (with_temp_rect
          (Some (QRectF_normalized (QRectF_of_points (start_point st) p))) st)
  else if dragging st && edit_mode st && (0 <=? selected_label st)%Z then
    label <- py_getitem (labels st) (selected_label st) ;;
    _ <- get_original_label st ;;
    new_x_center <- py_truediv (x - fst (drag_offset st)) iw ;;
    new_y_center <- py_truediv (y - snd (drag_offset st)) ih ;;
    st1 <- store_selected
             (set_y_center (clamp01 new_y_center)
                (set_x_center (clamp01 new_x_center) label)) st ;;
    update_label_info st1
  else if resizing st && edit_mode st && (0 <=? selected_label st)%Z then
    label <- py_getitem (labels st) (selected_label st) ;;
    original <- get_original_label st ;;
    resized <- resize_label x y iw ih (resize_handle st) original label ;;
    st1 <- store_selected (clamp_label resized) st ;;
    update_label_info st1
  else if rotating st && orientation_mode st && (0 <=? selected_label st)%Z
  then
    label <- py_getitem (labels st) (selected_label st) ;;
    let dx := x - x_center label * iw in
    let dy := y - y_center label * ih in
    let a := degrees (arctan2 dy dx) in
    st1 <- store_selected (set_angle a label) st ;;
    slider_setValue (py_int_of_float a) st1
  else Ok st.

(** Truth value of [self.temp_rect]: [None] and an invalid rectangle are
    falsy. *)
Definition temp_rect_truthy (st : State) : bool :=
  match temp_rect st with
  | Some r => QRectF_isValid r
  | None => false
  end.

(** [handle_mouse_release] for a left-button release. The progress file
    written by [update_progress] is not part of the state. *)
Definition handle_mouse_release (st : State) : result State :=
  let iw := IZR (image_width st) in
  let ih := IZR (image_height st) in
  if drawing st && temp_rect_truthy st && drawing_mode st then
    match temp_rect st with
    | Some rect =>
        xc <- py_truediv (rx rect + rw rect / 2) iw ;;
        yc <- py_truediv (ry rect + rh rect / 2) ih ;;
        w <- py_truediv (rw rect) iw ;;
        h <- py_truediv (rh rect) ih ;;
        let cid := if (class_combo st <? 0)%Z then 0%Z else class_combo st in
        Ok (with_temp_rect None
              (with_drawing false
                 (with_labels
                    (labels st ++
                     [mkLabel cid (clamp01 xc) (clamp01 yc)
                        (clamp_size w) (clamp_size h)
                        (IZR (angle_slider st))])
                    st)))
    | None => Ok st
    end
  else
    Ok (with_resize_handle (-1)
          (with_rotating false (with_resizing false (with_dragging false st)))).

Inductive event : Type :=
| PointerDown (p : Point)
| PointerMove (p : Point)
| PointerUp (p : Point).

(** [eventFilter] dispatch; the release handler does not read the position. *)
Definition step (e : event) (st : State) : result State :=
  match e with
  | PointerDown p => handle_mouse_press p st
  | PointerMove p => handle_mouse_move p st
  | PointerUp _ => handle_mouse_release st
  end.

Fixpoint run (es : list event) (st : State) : result State :=
  match es with
  | [] => Ok st
  | e :: rest => st' <- step e st ;; run rest st'
  end.

(** ** Buttons and lists

    As for the pointer handlers, the closing redraws of [update_label],
    [delete_label], [clear_all_labels] and [select_label] are left out. *)

(** [update_label], with the contents of the four edit fields. [float]
    ignores surrounding whitespace; a [ValueError] ends in a warning box. *)
Definition update_label (x_text y_text w_text h_text : text) (st : State)
  : result State :=
  if (0 <=? selected_label st)%Z then
    match
      (xc <- py_float (py_strip x_text) ;;
       yc <- py_float (py_strip y_text) ;;
       w <- py_float (py_strip w_text) ;;
       h <- py_float (py_strip h_text) ;;
       label <- py_getitem (labels st) (selected_label st) ;;
       store_selected
         (mkLabel (class_combo st) (clamp01 xc) (clamp01 yc)
            (clamp_size w) (clamp_size h) (IZR (angle_slider st))) st)
    with
    | Raise ValueError => Ok st
    | r => r
    end
  else Ok st.

(** [clear_label_info]: the slider goes back to 0. *)
Definition clear_label_info (st : State) : result State :=
  slider_setValue 0 st.

Definition delete_label (st : State) : result State :=
  if (0 <=? selected_label st)%Z then
    ls <- py_pop (labels st) (selected_label st) ;;
    clear_label_info (with_selected_label (-1) (with_labels ls st))
  else Ok st.

(** [clear_all_labels]; [reply] is the answer to the confirmation box. *)
Definition clear_all_labels (reply : bool) (st : State) : result State :=
  match labels st with
  | [] => Ok st
  | _ =>
      if reply then
        clear_label_info (with_selected_label (-1) (with_labels [] st))
      else Ok st
  end.

(** [select_label] for the clicked row of the labels list. *)
Definition select_label (index : Z) (st : State) : result State :=
  if ((0 <=? index) && (index <? Z.of_nat (length (labels st))))%Z then
    update_label_info (with_selected_label index st)
  else Ok st.

(** [update_class_list]: both class widgets are refilled, which resets the
    combo box to its first entry. *)
Definition update_class_list (st : State) : State :=
  with_class_combo (match classes st with [] => (-1)%Z | _ => 0%Z end) st.

(** [remove_class] for the current row of the class list; [reply] is the
    answer to the confirmation box. *)
Definition remove_class (current_row : Z) (reply : bool) (st : State)
  : result State :=
  if (0 <=? current_row)%Z then
    _ <- py_getitem (classes st) current_row ;;
    if reply then
      cls <- py_pop (classes st) current_row ;;
      Ok (update_class_list (with_classes cls st))
    else Ok st
  else Ok st.

(** [add_class] with the text of the input dialog, [None] when cancelled. *)
Definition add_class (name : option text) (st : State) : State :=
  match name with
  | Some (c :: n) => update_class_list (with_classes (classes st ++ [c :: n]) st)
  | _ => st
  end.

Definition set_draw_mode (st : State) : State :=
  with_orientation_mode false (with_edit_mode false (with_drawing_mode true st)).
Definition set_edit_mode (st : State) : State :=
  with_orientation_mode false (with_edit_mode true (with_drawing_mode false st)).
Definition set_orientation_mode (st : State) : State :=
  with_orientation_mode true (with_edit_mode false (with_drawing_mode false st)).

(** ** Class names on the labels *)

(** The class name that [update_labels_list] and [update_display] put on a
    label: the guard only bounds the class id from above. *)
Definition class_name (cls : list text) (cid : Z) : result text :=
  if (cid <? Z.of_nat (length cls))%Z then py_getitem cls cid
  else Ok (txt "Class " ++ py_str_int cid).

(** The loop of [update_labels_list], reduced to the class name of each
    row; the numbers that follow the name in a row are formatted from the
    label. The loop ends at the first exception. *)
Fixpoint label_names (cls : list text) (ls : list Label)
  : result (list text) :=
  match ls with
  | [] => Ok []
  | l :: rest =>
      name <- class_name cls (class_id l) ;;
      names <- label_names cls rest ;;
      Ok (name :: names)
  end.

Definition update_labels_list (st : State) : result (list text) :=
  label_names (classes st) (labels st).

(** The class ids that the lookup accepts: none is below [-len(classes)]. *)
Definition class_ids_ok (cls : list text) (ls : list Label) : Prop :=
  Forall (fun l => (- Z.of_nat (length cls) <= class_id l)%Z) ls.

(** The state in which the refresh of the labels list, and the loop of
    [update_display] with the same lookup, return. *)
Definition names_ok (st : State) : Prop :=
  class_ids_ok (classes st) (labels st).

(** [RotatedYOLOLabelTool.check_near_existing_points]: the first label with
    a corner or its centre closer than 10 pixels to the press is selected,
    the labels list is refreshed and the tool switches to Edit mode. *)
Definition near_point (x y : R) (q : Point) : bool :=
  if Rlt_dec (sqrt ((x - fst q) ^ 2 + (y - snd q) ^ 2)) 10 then true
  else false.

Definition label_points (iw ih : R) (label : Label) : list Point :=
  let xc := x_center label * iw in
  let yc := y_center label * ih in
  calculate_rotated_corners xc yc (width label * iw) (height label * ih)
    (radians (angle label))
  ++ [(xc, yc)].

Definition check_near_existing_points (pos : Point) (st : State)
  : result State :=
  let iw := IZR (image_width st) in
  let ih := IZR (image_height st) in
  match find_first
          (fun l => existsb (near_point (fst pos) (snd pos))
                      (label_points iw ih l))
          (labels st) 0 with
  | Some i =>
      let st1 := with_selected_label i st in
      _ <- update_labels_list st1 ;;
      Ok (set_edit_mode st1)
  | None => Ok st
  end.

(** ** Label files *)

(** What a path leads to: nothing, something that exists but cannot be
    opened, or a text file. A file's content is its decoded text, newlines
    already translated to LF; a file whose bytes do not decode is outside
    the model. *)
Inductive file_entry : Type :=
| Absent
| Unreadable
| Regular (content : text).

Definition file_system : Type := text -> file_entry.

Definition text_eq_dec : forall a b : text, {a = b} + {a <> b} :=
  list_eq_dec ascii_dec.

(** [open(path, 'w')] followed by the writes: the file is replaced. *)
Definition fs_write (fs : file_system) (path content : text) : file_system :=
  fun p => if text_eq_dec p path then Regular content else fs p.

Definition SP : ascii := ascii_of_nat 32.

(** The body of the inner [try] of [load_yolo_labels]. *)
Definition parse_fields (parts : list text) : result Label :=
  t0 <- py_getitem parts 0 ;;
  cid <- py_int t0 ;;
  t1 <- py_getitem parts 1 ;;
  xc <- py_float t1 ;;
  t2 <- py_getitem parts 2 ;;
  yc <- py_float t2 ;;
  t3 <- py_getitem parts 3 ;;
  w <- py_float t3 ;;
  t4 <- py_getitem parts 4 ;;
  h <- py_float t4 ;;
  a <- (if (5 <? length parts)%nat then
          t5 <- py_getitem parts 5 ;; py_float t5
        else Ok 0) ;;
  Ok (mkLabel cid xc yc w h a).

(** The loop over the lines of the file: a [ValueError] skips the line, any
    other exception ends the loop at the outer handler with the labels
    appended so far. *)
Fixpoint read_lines (lines : list text) (acc : list Label) : list Label :=
  match lines with
  | [] => acc
  | line :: rest =>
      let parts := py_split (py_strip line) in
      if (5 <=? length parts)%nat then
        match parse_fields parts with
        | Ok l => read_lines rest (acc ++ [l])
        | Raise ValueError => read_lines rest acc
        | Raise _ => acc
        end
      else read_lines rest acc
  end.

(** One line of [save_labels]. *)
Definition format_label (l : Label) : text :=
  py_str_int (class_id l) ++ [SP] ++ format_6f (x_center l) ++ [SP]
  ++ format_6f (y_center l) ++ [SP] ++ format_6f (width l) ++ [SP]
  ++ format_6f (height l) ++ [SP] ++ format_6f (angle l) ++ [LF].

(** A token: a non-empty run without whitespace. *)
Definition token (t : text) : Prop :=
  t <> [] /\ Forall (fun c => is_space c = false) t.

(** The six tokens of a saved line. *)
Definition label_tokens (l : Label) : list text :=
  [py_str_int (class_id l); format_6f (x_center l); format_6f (y_center l);
   format_6f (width l); format_6f (height l); format_6f (angle l)].

(** A saved line without its newline. *)
Definition line_body (l : Label) : text :=
  py_str_int (class_id l) ++ [SP] ++ format_6f (x_center l) ++ [SP]
  ++ format_6f (y_center l) ++ [SP] ++ format_6f (width l) ++ [SP]
  ++ format_6f (height l) ++ [SP] ++ format_6f (angle l).

(** What one line of a label file contributes to the loaded sequence. *)
Definition line_label (line : text) : option Label :=
  let parts := py_split (py_strip line) in
  if (5 <=? length parts)%nat then
    match parse_fields parts with
    | Ok l => Some l
    | Raise _ => None
    end
  else None.

Definition labels_of_lines (lines : list text) : list Label :=
  flat_map (fun line => match line_label line with
                        | Some l => [l]
                        | None => []
                        end) lines.

(** A label file all of whose tokens are plain: on such a file the
    numbers that [int] and [float] accept are those of the model. *)
Definition plain_file (content : text) : Prop :=
  Forall (fun line => forallb plain_token (py_split (py_strip line)) = true)
    (py_lines content).

(** A label with every float field rounded to 6 decimal places. *)
Definition round6_label (l : Label) : Label :=
  mkLabel (class_id l) (round6 (x_center l)) (round6 (y_center l))
    (round6 (width l)) (round6 (height l)) (round6 (angle l)).

Section LabelFiles.

(** [os.path.join(image_dir, os.path.splitext(name)[0] + '.txt')]: the
    label file beside the image; its spelling depends on the platform. *)
Variable label_path : text -> text -> text.

(** The block [if os.path.exists(label_path): try: ... except ...] of
    [load_yolo_labels] for the image [name]: a file that is missing or
    cannot be opened leaves the labels as they are. *)
Definition read_label_file (fs : file_system) (name : text) (st0 : State)
  : State :=
  match fs (label_path (image_dir st0) name) with
  | Absent => st0
  | Unreadable => st0
  | Regular content => with_labels (read_lines (py_lines content) []) st0
  end.

(** [load_yolo_labels]: the labels are reset, the file is read, and the
    labels list is refreshed outside both [try] blocks. *)
Definition load_yolo_labels (fs : file_system) (st : State) : result State :=
  let st0 := with_labels [] st in
  match image_files st0 with
  | [] => Ok st0
  | _ =>
      if (current_index st0 <? 0)%Z then Ok st0
      else
        name <- py_getitem (image_files st0) (current_index st0) ;;
        let st1 := read_label_file fs name st0 in
        _ <- update_labels_list st1 ;;
        Ok st1
  end.

(** [save_labels]; the progress bookkeeping that follows the write only
    touches the JSON files in the home directory. A failure to open the
    file ends in an error box. *)
Definition save_labels (fs : file_system) (st : State)
  : result (file_system * State) :=
  match image_files st with
  | [] => Ok (fs, st)
  | _ =>
      if (current_index st <? 0)%Z then Ok (fs, st)
      else
        name <- py_getitem (image_files st) (current_index st) ;;
        let path := label_path (image_dir st) name in
        match fs path with
        | Unreadable => Ok (fs, st)
        | _ =>
            Ok (fs_write fs path (concat (map format_label (labels st))), st)
        end
  end.

End LabelFiles.

(** ** Commands of a session *)

Inductive command : Type :=
| Pointer (e : event)
| UpdateLabel (x_text y_text w_text h_text : text)
| DeleteLabel
| ClearAllLabels (reply : bool)
| SelectLabel (index : Z)
| MoveSlider (v : Z)
| RemoveClass (current_row : Z) (reply : bool)
| AddClass (name : option text)
| DrawMode
| EditMode
| OrientationMode.

Definition execute (c : command) (st : State) : result State :=
  match c with
  | Pointer e => step e st
  | UpdateLabel xt yt wt ht => update_label xt yt wt ht st
  | DeleteLabel => delete_label st
  | ClearAllLabels reply => clear_all_labels reply st
  | SelectLabel index => select_label index st
  | MoveSlider v => slider_setValue v st
  | RemoveClass row reply => remove_class row reply st
  | AddClass name => Ok (add_class name st)
  | DrawMode => Ok (set_draw_mode st)
  | EditMode => Ok (set_edit_mode st)
  | OrientationMode => Ok (set_orientation_mode st)
  end.

(** Gesture fields that neither the slider nor the label-info refresh
    touches. *)
Definition same_gesture (a b : State) : Prop :=
  resizing a = resizing b /\ resize_handle a = resize_handle b
  /\ dragging a = dragging b /\ length (labels a) = length (labels b).


(** ** Example sessions *)

(** A label path of the usual shape, for the examples: the image name up
    to its last dot, with [.txt], inside the directory. *)
Definition example_label_path (dir name : text) : text :=
  let stem := match split_dot (rev name) with
              | (_, Some r) => rev r
              | (_, None) => name
              end in
  dir ++ txt "/" ++ stem ++ txt ".txt".

(** A fresh session showing a 200x100 image. *)
Definition draw_session : State :=
  with_image 200 100 (init_state [txt "object"]).

(** A centred box covering half of each side. *)
Definition example_label : Label :=
  mkLabel 0 (1 / 2) (1 / 2) (1 / 2) (1 / 2) 0.

(** Edit mode on a 200x200 image whose only label is selected. *)
Definition edit_session : State :=
  with_selected_label 0
    (with_labels [example_label]
       (set_edit_mode (with_image 200 200 (init_state [txt "object"])))).

(** The same session in the middle of a resize by the top edge handle. *)
Definition top_edge_resize_session : State :=
  with_original_label (Some example_label)
    (with_resize_handle 4 (with_resizing true edit_session)).

(** A session on image [a.jpg] of directory [d] holding one label. *)
Definition file_session : State :=
  mkState [example_label] [txt "object"] false (0, 0) None (-1) true false
    false false false false (-1) (0, 0) None 200 200 true 0 0
    (txt "d") [txt "a.jpg"] 0.


(** A file system whose only entry is the label file of [file_session],
    which cannot be opened. *)
Definition locked_fs : file_system :=
  fun p =>
    if text_eq_dec p (example_label_path (txt "d") (txt "a.jpg"))
    then Unreadable else Absent.

(** A file system without any label file. *)
Definition empty_fs : file_system := fun _ => Absent.

(** A file system whose only entry is the label file of [file_session],
    with the given text. *)
Definition fs_with_label_file (content : text) : file_system :=
  fun p =>
    if text_eq_dec p (example_label_path (txt "d") (txt "a.jpg"))
    then Regular content else Absent.

(** A label file with one well-formed line and one line whose second token
    is not a number. *)
Definition good_line : text := txt "0 0.5 0.5 0.2 0.2" ++ [LF].
Definition bad_line : text := txt "1 abc 0.5 0.2 0.2" ++ [LF].
Definition mixed_file : text := good_line ++ bad_line.




(** Two classes and labels of both. *)
Definition two_class_session : State :=
  with_labels [example_label; mkLabel 1 (1 / 4) (1 / 4) (1 / 10) (1 / 10) 0]
    (init_state [txt "cat"; txt "dog"]).

(** The point halfway between two points. *)
Definition midpoint (a b : Point) : Point :=
  ((fst a + fst b) / 2, (snd a + snd b) / 2).

(** Squared Euclidean distance. *)
Definition dist2 (a b : Point) : R :=
  (fst a - fst b) ^ 2 + (snd a - snd b) ^ 2.

(** The session with its labels and the two bound widgets erased: what the
    slider and label-info feedback leaves alone. *)
Definition erase_feedback (st : State) : State :=
  with_labels [] (with_class_combo 0 (with_angle_slider 0 st)).

(** [ls'] is [ls], possibly with the angle of the label at [k] replaced. *)
Definition angle_update_at (k : nat) (ls ls' : list Label) : Prop :=
  ls' = ls
  \/ exists l v, nth_error ls k = Some l /\ ls' = list_set ls k (set_angle v l).

(** The box fields of a label: everything but the angle. *)
Definition same_box (a b : Label) : Prop :=
  class_id a = class_id b /\ x_center a = x_center b
  /\ y_center a = y_center b /\ width a = width b /\ height a = height b.

(** The edit session with its label tilted by 12.5 degrees and nothing
    selected. *)
Definition tilted_session : State :=
  with_selected_label (-1)
    (with_labels [set_angle (25 / 2) example_label] edit_session).

(** The file session with its label selected. *)
Definition selected_file_session : State :=
  with_selected_label 0 file_session.

(** ** Sessions and their invariants *)

(** A session: the commands run in order and stop at the first exception. *)
Fixpoint run_commands (cs : list command) (st : State) : result State :=
  match cs with
  | [] => Ok st
  | c :: rest => st' <- execute c st ;; run_commands rest st'
  end.

(** Exactly one of the three mode flags is set. *)
Definition exactly_one_mode (st : State) : bool :=
  match drawing_mode st, edit_mode st, orientation_mode st with
  | true, false, false => true
  | false, true, false => true
  | false, false, true => true
  | _, _, _ => false
  end.

(** [b] has the mode flags of [a]. *)
Definition same_modes (a b : State) : Prop :=
  drawing_mode b = drawing_mode a /\ edit_mode b = edit_mode a
  /\ orientation_mode b = orientation_mode a.

(** A drag or a resize in progress has its snapshot: [self.original_label]
    has been assigned. *)
Definition gesture_snapshot_ok (st : State) : bool :=
  negb (dragging st || resizing st)
  || match original_label st with Some _ => true | None => false end.

(** What every command keeps: the mode flags, unless it is a mode button,
    and the snapshot of a gesture in progress. *)
Definition kept (a b : State) : Prop :=
  same_modes a b
  /\ (gesture_snapshot_ok a = true -> gesture_snapshot_ok b = true).

(** How a class id reads in a class list: an index from the front, a
    negative index from the back, or a number without a name. *)
Definition shown_as (cls : list text) (l : Label) (name : text) : Prop :=
  let n := Z.of_nat (length cls) in
  let cid := class_id l in
  ((0 <= cid < n)%Z /\ nth_error cls (Z.to_nat cid) = Some name)
  \/ ((- n <= cid < 0)%Z /\ nth_error cls (Z.to_nat (n + cid)) = Some name)
  \/ ((n <= cid)%Z /\ name = txt "Class " ++ py_str_int cid).

(** Labels of class 0, of class -1 and of class 5, with two classes. *)
Definition named_session : State :=
  with_labels [example_label; mkLabel (-1) (1 / 4) (1 / 4) (1 / 10) (1 / 10) 0;
               mkLabel 5 (1 / 4) (1 / 4) (1 / 10) (1 / 10) 0]
    (init_state [txt "cat"; txt "dog"]).

(** ** Class files *)

(** Truth value of a string: non-empty. *)
Definition py_nonempty (s : text) : bool :=
  match s with
  | [] => false
  | _ :: _ => true
  end.

Definition CR : ascii := ascii_of_nat 13.

(** [load_classes_file] for the path the dialog returns, empty when it is
    cancelled: [[line.strip() for line in f if line.strip()]]. A file that
    cannot be opened ends in an error box. *)
Definition load_classes_file (file_path : text) (fs : file_system)
  (st : State) : State :=
  match file_path with
  | [] => st
  | _ :: _ =>
      match fs file_path with
      | Regular content =>
          update_class_list
            (with_classes
               (map py_strip
                  (filter (fun line => py_nonempty (py_strip line))
                     (py_lines content)))
               st)
      | _ => st
      end
  end.

(** [save_classes_file]: one class name per line. *)
Definition save_classes_file (file_path : text) (fs : file_system)
  (st : State) : file_system :=
  match file_path with
  | [] => fs
  | _ :: _ =>
      match fs file_path with
      | Unreadable => fs
      | _ =>
          fs_write fs file_path
            (concat (map (fun class_name => class_name ++ [LF]) (classes st)))
      end
  end.

(** A class list with a blank name and a name with spaces around it. *)
Definition untidy_classes : list text := [txt "cat"; txt " "; txt " dog "].

(** ** Navigation between images *)

Definition with_current_index (v : Z) (s : State) : State :=
  mkState (labels s) (classes s) (drawing s) (start_point s) (temp_rect s)
    (selected_label s) (drawing_mode s) (edit_mode s) (orientation_mode s)
    (dragging s) (rotating s) (resizing s) (resize_handle s) (drag_offset s)
    (original_label s) (image_width s) (image_height s) (current_image s)
    (class_combo s) (angle_slider s) (image_dir s) (image_files s) v.

Section Navigation.

Variable label_path : text -> text -> text.

(** [os.path.join(image_dir, name)]. *)
Variable image_path : text -> text -> text.

(** What [cv2.imread], or else [PIL.Image.open], makes of the file at a
    path: the width and height of the decoded image, [None] when the [try]
    of [load_image] is left before the pixmap is assigned. *)
Variable decode : text -> option (Z * Z).

(** [load_image]: every exception ends in an error box, with the state
    as it was when the exception was raised. [load_yolo_labels] can only
    raise from its closing refresh here, with the labels of the file
    stored. *)
Definition load_image (fs : file_system) (st : State) : State :=
  if ((0 <=? current_index st)
      && (current_index st <? Z.of_nat (length (image_files st))))%Z then
    match py_getitem (image_files st) (current_index st) with
    | Ok name =>
        match decode (image_path (image_dir st) name) with
        | Some (w, h) =>
            let st1 := with_image w h st in
            match load_yolo_labels label_path fs st1 with
            | Ok st2 => st2
            | Raise _ => read_label_file label_path fs name (with_labels [] st1)
            end
        | None => st
        end
    | Raise _ => st
    end
  else st.

Definition prev_image (fs : file_system) (st : State)
  : result (file_system * State) :=
  if (0 <? current_index st)%Z then
    saved <- save_labels label_path fs st ;;
    Ok (fst saved,
        load_image (fst saved)
          (with_current_index (current_index st - 1) (snd saved)))
  else Ok (fs, st).

Definition next_image (fs : file_system) (st : State)
  : result (file_system * State) :=
  if (current_index st <? Z.of_nat (length (image_files st)) - 1)%Z then
    saved <- save_labels label_path fs st ;;
    Ok (fst saved,
        load_image (fst saved)
          (with_current_index (current_index st + 1) (snd saved)))
  else Ok (fs, st).

End Navigation.

(** The image file beside its directory, for the examples. *)
Definition example_image_path (dir name : text) : text :=
  dir ++ txt "/" ++ name.

(** Every image decodes to 200 by 200 pixels; no image decodes. *)
Definition decode_200 (path : text) : option (Z * Z) := Some (200, 200)%Z.
Definition decode_none (path : text) : option (Z * Z) := None.

(** A session on the first of two images of directory [d], with one label. *)
Definition two_image_session : State :=
  mkState [example_label] [txt "object"] false (0, 0) None (-1) true false
    false false false false (-1) (0, 0) None 200 200 true 0 0
    (txt "d") [txt "a.jpg"; txt "b.jpg"] 0.

(** The same with two images that differ in their extension only. *)
Definition same_stem_session : State :=
  mkState [example_label] [txt "object"] false (0, 0) None (-1) true false
    false false false false (-1) (0, 0) None 200 200 true 0 0
    (txt "d") [txt "a.jpg"; txt "a.png"] 0.

(** ** Export and skipping *)

(** [range(lo, lo + n)]. *)
Fixpoint range_from (lo : Z) (n : nat) : list Z :=
  match n with
  | O => []
  | S n' => lo :: range_from (lo + 1) n'
  end.

(** [range(lo, hi)], empty when [hi <= lo]. *)
Definition py_range (lo hi : Z) : list Z := range_from lo (Z.to_nat (hi - lo)).

(** The labels that [load_yolo_labels] reads from a directory entry. *)
Definition loaded_labels (e : file_entry) : list Label :=
  match e with
  | Regular content => labels_of_lines (py_lines content)
  | _ => []
  end.

Section Batch.

Variable label_path : text -> text -> text.

Variable image_path : text -> text -> text.

Variable decode : text -> option (Z * Z).

(** The loop of [export_all_labels]: every image in turn becomes the
    current one, its label file is loaded and saved again. *)
Fixpoint export_loop (indices : list Z) (fs : file_system) (st : State)
  : result (file_system * State) :=
  match indices with
  | [] => Ok (fs, st)
  | i :: rest =>
      st1 <- load_yolo_labels label_path fs (with_current_index i st) ;;
      saved <- save_labels label_path fs st1 ;;
      export_loop rest (fst saved) (snd saved)
  end.

(** [export_all_labels] for the directory the dialog returns, empty when it
    is cancelled. *)
Definition export_all_labels (export_dir : text) (fs : file_system)
  (st : State) : result (file_system * State) :=
  match image_dir st with
  | [] => Ok (fs, st)
  | _ :: _ =>
      match export_dir with
      | [] => Ok (fs, st)
      | _ :: _ =>
          after <- export_loop
                     (py_range 0 (Z.of_nat (length (image_files st)))) fs st ;;
          Ok (fst after,
              load_image label_path image_path decode (fst after) (snd after))
      end
  end.

(** [os.path.exists] of the label file of an image. *)
Definition has_label_file (fs : file_system) (st : State) (name : text)
  : bool :=
  match fs (label_path (image_dir st) name) with
  | Absent => false
  | _ => true
  end.

(** One search loop of [skip_to_next_unlabeled]: the first index whose
    image has no label file. *)
Fixpoint first_unlabeled (fs : file_system) (st : State) (indices : list Z)
  : result (option Z) :=
  match indices with
  | [] => Ok None
  | i :: rest =>
      name <- py_getitem (image_files st) i ;;
      if has_label_file fs st name then first_unlabeled fs st rest
      else Ok (Some i)
  end.

(** [skip_to_next_unlabeled]. *)
Definition skip_to_next_unlabeled (fs : file_system) (st : State)
  : result (file_system * State) :=
  match image_files st with
  | [] => Ok (fs, st)
  | _ :: _ =>
      saved <- save_labels label_path fs st ;;
      let fs1 := fst saved in
      let st1 := snd saved in
      let go (i : Z) :=
        (fs1,
         load_image label_path image_path decode fs1
           (with_current_index i st1)) in
      found <- first_unlabeled fs1 st1
                 (py_range (current_index st1 + 1)
                    (Z.of_nat (length (image_files st1)))) ;;
      match found with
      | Some i => Ok (go i)
      | None =>
          wrapped <- first_unlabeled fs1 st1
                       (py_range 0 (current_index st1)) ;;
          match wrapped with
          | Some i => Ok (go i)
          | None => Ok (fs1, st1)
          end
      end
  end.

End Batch.

(** Three images of directory [d]; the second is shown. *)
Definition three_image_session : State :=
  mkState [example_label] [txt "object"] false (0, 0) None (-1) true false
    false false false false (-1) (0, 0) None 200 200 true 0 0
    (txt "d") [txt "a.jpg"; txt "b.jpg"; txt "c.jpg"] 1.

(** A file system in which only [c.jpg] has a label file. *)
Definition fs_c_labelled : file_system :=
  fun p => if text_eq_dec p (txt "d/c.txt") then Regular [] else Absent.

(* ================================================================== *)
(** * Properties *)

(** ** Geometry *)

(** C8. For every centre, width, height and angle in degrees, the four points
    of the rotated-corner computation have the centre as their centroid:
    both for [calculate_rotated_corners] called on the angle in radians and
    for the corner handles (the first four) of [calculate_handles]. Over the
    reals the equality is exact. *)
Theorem corners_centroid_is_center :
  forall (cx cy w h angle_degrees : R),
    centroid (calculate_rotated_corners cx cy w h (radians angle_degrees))
      = (cx, cy)
    /\ forall (iw ih : R) (l : Label),
        centroid (firstn 4 (calculate_handles iw ih l))
          = (x_center l * iw, y_center l * ih).
Proof.
  intros cx cy w h a. split.
  - unfold centroid, calculate_rotated_corners. simpl. f_equal; field.
  - intros iw ih l. unfold centroid, calculate_handles. simpl. f_equal; field.
Qed.


(** ** Facts about the Python and Qt operations *)

Ltac no_dec t :=
  lazymatch t with
  | context [Rlt_dec _ _] => fail
  | context [Rle_dec _ _] => fail
  | context [Req_dec_T _ _] => fail
  | context [Rcase_abs _] => fail
  | _ => idtac
  end.

(** Case analysis on the comparisons of a goal, innermost first; linear
    arithmetic closes the impossible cases. *)
Ltac r_decide :=
  repeat match goal with
    | |- context [Rlt_dec ?a ?b] =>
        no_dec a; no_dec b; destruct (Rlt_dec a b); try lra
    | |- context [Rle_dec ?a ?b] =>
        no_dec a; no_dec b; destruct (Rle_dec a b); try lra
    | |- context [Req_dec_T ?a ?b] =>
        no_dec a; no_dec b; destruct (Req_dec_T a b); try lra
    | |- context [Rcase_abs ?a] =>
        no_dec a; destruct (Rcase_abs a); try lra
    end.

Lemma py_truediv_ok (a b : R) : b <> 0 -> py_truediv a b = Ok (a / b).
Proof.
  intros Hb. unfold py_truediv.
  destruct (Req_dec_T b 0); [contradiction | reflexivity].
Qed.

Lemma clamp01_range (v : R) : 0 <= clamp01 v <= 1.
Proof. unfold clamp01, py_max, py_min. r_decide. Qed.

Lemma clamp_size_range (v : R) : 1 / 1000 <= clamp_size v <= 1.
Proof. unfold clamp_size, py_max, py_min. r_decide. Qed.

Lemma clamp01_id (v : R) : 0 <= v <= 1 -> clamp01 v = v.
Proof. intros H. unfold clamp01, py_max, py_min. r_decide. Qed.

Lemma clamp_size_id (v : R) : 1 / 1000 <= v <= 1 -> clamp_size v = v.
Proof. intros H. unfold clamp_size, py_max, py_min. r_decide. Qed.

Lemma QRectF_normalized_id (r : QRectF) :
  0 <= rw r -> 0 <= rh r -> QRectF_normalized r = r.
Proof.
  intros Hw Hh. destruct r as [x y w h].
  unfold QRectF_normalized. simpl in *. r_decide. reflexivity.
Qed.

Lemma QRectF_isValid_true (r : QRectF) :
  0 < rw r -> 0 < rh r -> QRectF_isValid r = true.
Proof. intros. unfold QRectF_isValid. r_decide. Qed.

Lemma QRectF_isValid_zero (x y : R) : QRectF_isValid (mkQRectF x y 0 0) = false.
Proof. unfold QRectF_isValid. simpl. r_decide. Qed.

(** An index at or past the end is outside the list. *)
Lemma py_setitem_past_end {A : Type} (l : list A) (i : Z) (a : A) :
  (Z.of_nat (length l) <= i)%Z -> py_setitem l i a = Raise IndexError.
Proof.
  intros Hi. unfold py_setitem, py_norm_index.
  destruct (0 <=? i)%Z eqn:H0; [| apply Z.leb_gt in H0; lia].
  destruct (i <? Z.of_nat (length l))%Z eqn:H1; [apply Z.ltb_lt in H1; lia |].
  reflexivity.
Qed.

Lemma py_norm_index_in_range (len : nat) (i : Z) :
  (0 <= i < Z.of_nat len)%Z -> py_norm_index len i = Some (Z.to_nat i).
Proof.
  intros [H0 H1]. unfold py_norm_index.
  apply Z.leb_le in H0. apply Z.ltb_lt in H1. rewrite H0, H1. reflexivity.
Qed.

Lemma calculate_handles_length (iw ih : R) (l : Label) :
  length (calculate_handles iw ih l) = 8%nat.
Proof. reflexivity. Qed.

Lemma py_getitem_inv {A : Type} (l : list A) (i : Z) (a : A) :
  py_getitem l i = Ok a ->
  exists k, py_norm_index (length l) i = Some k /\ nth_error l k = Some a.
Proof.
  unfold py_getitem. intros H.
  destruct (py_norm_index (length l) i) as [k |]; [| discriminate].
  destruct (nth_error l k) as [b |] eqn:Hn; [| discriminate].
  exists k. split; [reflexivity | congruence].
Qed.

Lemma py_norm_index_nonneg (len : nat) (i : Z) (k : nat) :
  (0 <= i)%Z -> py_norm_index len i = Some k ->
  k = Z.to_nat i /\ (i < Z.of_nat len)%Z.
Proof.
  intros Hi. unfold py_norm_index.
  apply Z.leb_le in Hi. rewrite Hi.
  destruct (i <? Z.of_nat len)%Z eqn:Hlt; [| discriminate].
  intros H. injection H as <-. apply Z.ltb_lt in Hlt. split; [reflexivity | exact Hlt].
Qed.

Lemma py_getitem_nonneg {A : Type} (l : list A) (i : Z) (a : A) :
  (0 <= i)%Z -> py_getitem l i = Ok a ->
  nth_error l (Z.to_nat i) = Some a /\ (0 <= i < Z.of_nat (length l))%Z.
Proof.
  intros Hi Hg. apply py_getitem_inv in Hg as [k [Hk Hn]].
  apply (py_norm_index_nonneg _ _ _ Hi) in Hk as [-> Hlt].
  split; [exact Hn | lia].
Qed.

Lemma py_getitem_in_range {A : Type} (l : list A) (i : Z) :
  (0 <= i < Z.of_nat (length l))%Z ->
  exists a, py_getitem l i = Ok a /\ nth_error l (Z.to_nat i) = Some a.
Proof.
  intros Hi. unfold py_getitem. rewrite (py_norm_index_in_range _ _ Hi).
  destruct (nth_error l (Z.to_nat i)) as [a |] eqn:Hn.
  - exists a. split; reflexivity.
  - apply nth_error_None in Hn. lia.
Qed.

Lemma py_getitem_nil {A : Type} (i : Z) :
  py_getitem (@nil A) i = Raise IndexError.
Proof.
  unfold py_getitem, py_norm_index. simpl.
  destruct (0 <=? i)%Z eqn:H0.
  - destruct (i <? 0)%Z eqn:H1; [| reflexivity].
    apply Z.leb_le in H0. apply Z.ltb_lt in H1. lia.
  - destruct (0 <=? 0 + i)%Z eqn:H1; [| reflexivity].
    apply Z.leb_gt in H0. apply Z.leb_le in H1. lia.
Qed.

Lemma py_setitem_in_range {A : Type} (l : list A) (i : Z) (a : A) :
  (0 <= i < Z.of_nat (length l))%Z ->
  py_setitem l i a = Ok (list_set l (Z.to_nat i) a).
Proof.
  intros Hi. unfold py_setitem. rewrite (py_norm_index_in_range _ _ Hi).
  reflexivity.
Qed.

Lemma nth_error_list_set {A : Type} (l : list A) (k : nat) (a : A) :
  (k < length l)%nat -> nth_error (list_set l k a) k = Some a.
Proof.
  revert k. induction l as [| x t IH]; intros k Hk; [simpl in Hk; lia |].
  destruct k; [reflexivity |]. simpl. apply IH. simpl in Hk. lia.
Qed.

Lemma length_list_set {A : Type} (l : list A) (k : nat) (a : A) :
  length (list_set l k a) = length l.
Proof.
  revert k. induction l as [| x t IH]; intros k; [reflexivity |].
  destruct k; simpl; [reflexivity | rewrite IH; reflexivity].
Qed.

Lemma py_getitem_list_set {A : Type} (l : list A) (i : Z) (a : A) :
  (0 <= i < Z.of_nat (length l))%Z ->
  py_getitem (list_set l (Z.to_nat i) a) i = Ok a.
Proof.
  intros Hi. unfold py_getitem.
  rewrite length_list_set, (py_norm_index_in_range _ _ Hi).
  rewrite nth_error_list_set by lia. reflexivity.
Qed.

(** The loop [find_first] returns the least index that satisfies the test. *)
Lemma find_first_hit {A : Type} (f : A -> bool) :
  forall (l : list A) (i0 : Z) (n : nat) (a : A),
    nth_error l n = Some a -> f a = true ->
    (forall j b, (j < n)%nat -> nth_error l j = Some b -> f b = false) ->
    find_first f l i0 = Some (i0 + Z.of_nat n)%Z.
Proof.
  induction l as [| x t IH]; intros i0 n a Hn Hf Hbefore.
  - destruct n; discriminate.
  - destruct n as [| n'].
    + simpl in Hn. injection Hn as ->. simpl. rewrite Hf. f_equal. lia.
    + simpl. rewrite (Hbefore 0%nat x (Nat.lt_0_succ n') eq_refl).
      rewrite (IH (i0 + 1)%Z n' a Hn Hf).
      * f_equal. lia.
      * intros j b Hj Hb. apply (Hbefore (S j) b); [lia | exact Hb].
Qed.

Lemma find_first_miss {A : Type} (f : A -> bool) :
  forall (l : list A) (i0 : Z),
    (forall a, In a l -> f a = false) -> find_first f l i0 = None.
Proof.
  induction l as [| x t IH]; intros i0 H; [reflexivity |].
  simpl. rewrite (H x) by (left; reflexivity).
  apply IH. intros a Ha. apply H. right. exact Ha.
Qed.

Lemma near_handle_spec (x y : R) (h : Point) :
  near_handle x y h = true <-> Rabs (x - fst h) < 10 /\ Rabs (y - snd h) < 10.
Proof.
  unfold near_handle.
  destruct (Rlt_dec (Rabs (x - fst h)) 10);
    destruct (Rlt_dec (Rabs (y - snd h)) 10); split; intros H;
    try discriminate; try reflexivity; try (split; assumption);
    destruct H; contradiction.
Qed.

(** Without rotation the handles are the corners and edge centres of the
    axis-aligned box. *)
Lemma calculate_handles_unrotated (iw ih : R) (l : Label) :
  angle l = 0 ->
  let xc := x_center l * iw in
  let yc := y_center l * ih in
  let w := width l * iw in
  let h := height l * ih in
  calculate_handles iw ih l
  = [(xc - w / 2, yc - h / 2); (xc + w / 2, yc - h / 2);
     (xc + w / 2, yc + h / 2); (xc - w / 2, yc + h / 2);
     (xc, yc - h / 2); (xc + w / 2, yc); (xc, yc + h / 2); (xc - w / 2, yc)].
Proof.
  intros Ha. unfold calculate_handles. rewrite Ha.
  replace (radians 0) with 0 by (unfold radians; lra).
  rewrite cos_0, sin_0. simpl.
  repeat (f_equal; try lra).
Qed.

(** A distance below 10 has a square below 100. *)
Lemma sqrt_lt_10 (d : R) : sqrt d < 10 -> d < 100.
Proof.
  intros H. destruct (Rlt_dec d 100) as [Hd | Hd]; [exact Hd |].
  exfalso. apply Rnot_lt_le in Hd.
  apply sqrt_le_1_alt in Hd.
  replace 100 with (10 * 10) in Hd by lra.
  rewrite sqrt_square in Hd by lra. lra.
Qed.

(** ** Draw gestures *)

(** A release over a preview rectangle of positive width and height appends
    one label, clamped into the ranges of the data model. *)
Lemma release_commits (st : State) (r : QRectF) :
  drawing st = true -> drawing_mode st = true -> temp_rect st = Some r ->
  0 < rw r -> 0 < rh r ->
  image_width st <> 0%Z -> image_height st <> 0%Z ->
  exists l,
    handle_mouse_release st
      = Ok (with_temp_rect None
              (with_drawing false (with_labels (labels st ++ [l]) st)))
    /\ label_in_range l.
Proof.
  intros Hd Hm Hr Hw Hh Hiw Hih.
  unfold handle_mouse_release, temp_rect_truthy.
  rewrite Hd, Hm, Hr, (QRectF_isValid_true r Hw Hh). simpl.
  rewrite !py_truediv_ok by (apply not_0_IZR; assumption). simpl.
  eexists. split; [reflexivity |].
  unfold label_in_range. simpl.
  repeat split;
    try apply clamp01_range; try apply clamp_size_range.
Qed.

(** C7. From the initial interaction state on a 200x100 image with an empty
    Document, PointerDown(10,10), PointerMove(110,60), PointerUp(110,60)
    appends exactly one label, with x_center 0.3, y_center 0.35, width 0.5,
    height 0.5 and angle 0 (and class 0, whatever the class table). *)
Theorem draw_scenario_200x100 :
  forall cls : list text,
  exists st',
    run [PointerDown (10, 10); PointerMove (110, 60); PointerUp (110, 60)]
        (with_image 200 100 (init_state cls)) = Ok st'
    /\ labels st' = [mkLabel 0 0.3 0.35 0.5 0.5 0].
Proof.
  intros cls.
  unfold run, step, handle_mouse_press, handle_mouse_move,
    handle_mouse_release, bind, temp_rect_truthy.
  simpl.
  rewrite QRectF_normalized_id by (simpl; lra).
  rewrite QRectF_isValid_true by (simpl; lra).
  simpl.
  rewrite !py_truediv_ok by lra.
  eexists. split; [reflexivity |].
  simpl.
  rewrite !clamp01_id, !clamp_size_id by lra.
  assert (Hc : (if (match cls with [] => -1 | _ :: _ => 0 end <? 0)%Z then 0%Z
                else match cls with [] => (-1)%Z | _ :: _ => 0%Z end) = 0%Z)
    by (destruct cls; reflexivity).
  rewrite Hc. f_equal. f_equal; lra.
Qed.

(** C10, as the code has it. In Draw mode a PointerDown at p followed at once
    by PointerUp commits nothing: the preview rectangle of the press has
    zero width and height, so it is falsy and the release takes the branch
    that only clears the edit gestures. The label sequence is unchanged and
    the drawing flag stays set. *)
Theorem zero_area_click_adds_no_label :
  forall (st : State) (p : Point),
    current_image st = true -> drawing_mode st = true ->
    exists st',
      run [PointerDown p; PointerUp p] st = Ok st'
      /\ labels st' = labels st
      /\ drawing st' = true.
Proof.
  intros st [x y] Himg Hmode.
  unfold run, step, handle_mouse_press, handle_mouse_release, bind,
    temp_rect_truthy.
  rewrite Himg, Hmode. simpl.
  rewrite QRectF_isValid_zero. simpl.
  eexists. split; [reflexivity |]. split; reflexivity.
Qed.

Lemma zero_area_click_adds_no_label_witness :
  current_image draw_session = true /\ drawing_mode draw_session = true /\
  exists st',
    run [PointerDown (10, 10); PointerUp (10, 10)] draw_session = Ok st'
    /\ labels st' = labels draw_session
    /\ drawing st' = true.
Proof.
  split; [reflexivity |]. split; [reflexivity |].
  apply (zero_area_click_adds_no_label draw_session (10, 10)); reflexivity.
Defined.

(** C10, as stated, fails: on a fresh 200x100 session a press and release at
    (10,10) leave the Document empty instead of holding a minimal label. *)
Lemma zero_area_click_counterexample :
  exists st',
    run [PointerDown (10, 10); PointerUp (10, 10)] draw_session = Ok st'
    /\ labels st' = [].
Proof.
  unfold run, step, handle_mouse_press, handle_mouse_release, bind,
    temp_rect_truthy.
  simpl. rewrite QRectF_isValid_zero. simpl.
  eexists. split; reflexivity.
Qed.

(** ** Class table *)

(** C9. Removing the class at any valid row leaves the label sequence, and
    so every label's class_id, as it was; once confirmed, the class is gone
    from the table. *)
Theorem remove_class_keeps_class_ids :
  forall (st : State) (row : Z) (reply : bool),
    (0 <= row < Z.of_nat (length (classes st)))%Z ->
    exists st',
      remove_class row reply st = Ok st'
      /\ labels st' = labels st
      /\ map class_id (labels st') = map class_id (labels st)
      /\ (reply = true ->
          classes st' = firstn (Z.to_nat row) (classes st)
                        ++ skipn (S (Z.to_nat row)) (classes st)).
Proof.
  intros st row reply Hrow.
  unfold remove_class, py_getitem, py_pop.
  rewrite (py_norm_index_in_range _ _ Hrow).
  destruct (0 <=? row)%Z eqn:H0; [| apply Z.leb_gt in H0; lia].
  destruct (nth_error (classes st) (Z.to_nat row)) eqn:Hn.
  - simpl. destruct reply.
    + eexists. repeat split.
    + eexists. repeat split. discriminate.
  - apply nth_error_None in Hn. lia.
Qed.

Lemma remove_class_keeps_class_ids_witness :
  (0 <= 0 < Z.of_nat (length (classes two_class_session)))%Z /\
  exists st',
    remove_class 0 true two_class_session = Ok st'
    /\ labels st' = labels two_class_session
    /\ map class_id (labels st') = map class_id (labels two_class_session)
    /\ (true = true ->
        classes st' = firstn (Z.to_nat 0) (classes two_class_session)
                      ++ skipn (S (Z.to_nat 0)) (classes two_class_session)).
Proof.
  split; [simpl; lia |].
  apply (remove_class_keeps_class_ids two_class_session 0 true). simpl. lia.
Defined.

(** ** Edit gestures *)

Lemma slider_setValue_ok (v : Z) (st : State) :
  c_int v = true ->
  (selected_label st < Z.of_nat (length (labels st)))%Z ->
  exists st', slider_setValue v st = Ok st' /\ same_gesture st' st.
Proof.
  intros Hv Hsel. unfold slider_setValue. rewrite Hv.
  destruct (_ =? _)%Z.
  - exists st. split; [reflexivity |]. repeat split.
  - unfold update_angle_from_slider. simpl.
    destruct (0 <=? selected_label st)%Z eqn:H0.
    + apply Z.leb_le in H0.
      destruct (py_getitem_in_range (labels st) (selected_label st))
        as [a [Ha _]]; [lia |].
      rewrite Ha. simpl.
      rewrite py_setitem_in_range by lia. simpl.
      eexists. split; [reflexivity |].
      repeat split. simpl. apply length_list_set.
    + eexists. split; [reflexivity |]. repeat split.
Qed.

(** [update_label_info] returns when the angle of the selected label fits
    a C [int]. *)
Lemma update_label_info_ok (st : State) :
  (forall a, py_getitem (labels st) (selected_label st) = Ok a ->
             c_int (py_int_of_float (angle a)) = true) ->
  exists st', update_label_info st = Ok st' /\ same_gesture st' st.
Proof.
  intros Hint. unfold update_label_info.
  destruct (_ && _)%bool eqn:Hg.
  - apply andb_prop in Hg. destruct Hg as [H0 H1].
    apply Z.leb_le in H0. apply Z.ltb_lt in H1.
    destruct (py_getitem_in_range (labels st) (selected_label st))
      as [a [Ha _]]; [lia |].
    rewrite Ha. simpl.
    destruct (slider_setValue_ok (py_int_of_float (angle a)) st
                (Hint a Ha) H1)
      as [st1 [Hs Hg1]].
    rewrite Hs. simpl.
    destruct (_ <? _)%Z.
    + eexists. split; [reflexivity |]. exact Hg1.
    + eexists. split; [reflexivity |]. exact Hg1.
  - exists st. split; [reflexivity |]. repeat split.
Qed.

Lemma py_setitem_length {A : Type} (l l' : list A) (i : Z) (a : A) :
  py_setitem l i a = Ok l' -> length l' = length l.
Proof.
  unfold py_setitem. destruct (py_norm_index _ _); [| discriminate].
  intros H. injection H as <-. apply length_list_set.
Qed.

Lemma slider_setValue_gesture (v : Z) (st st' : State) :
  slider_setValue v st = Ok st' -> same_gesture st' st.
Proof.
  unfold slider_setValue. destruct (c_int v); [| discriminate].
  cbv zeta. destruct (_ =? _)%Z.
  - intros H. injection H as <-. repeat split.
  - unfold update_angle_from_slider. simpl.
    destruct (0 <=? selected_label st)%Z;
      [| intros H; injection H as <-; repeat split].
    destruct (py_getitem _ _) as [a |]; [| discriminate]. cbn [bind].
    destruct (py_setitem _ _ _) as [ls |] eqn:Hs; [| discriminate].
    cbn [bind]. intros H. injection H as <-. repeat split. simpl.
    exact (py_setitem_length _ _ _ _ Hs).
Qed.

Lemma update_label_info_gesture (st st' : State) :
  update_label_info st = Ok st' -> same_gesture st' st.
Proof.
  unfold update_label_info. destruct (_ && _)%bool;
    [| intros H; injection H as <-; repeat split].
  destruct (py_getitem _ _) as [a |]; [| discriminate]. cbn [bind].
  destruct (slider_setValue _ st) as [st1 |] eqn:Hs; [| discriminate].
  cbn [bind]. apply slider_setValue_gesture in Hs.
  destruct (_ <? _)%Z; intros H; injection H as <-; exact Hs.
Qed.

Lemma edit_press_unfold (st : State) (p : Point) (l : Label) :
  current_image st = true -> drawing_mode st = false ->
  edit_mode st = true -> (0 <= selected_label st)%Z ->
  py_getitem (labels st) (selected_label st) = Ok l ->
  let iw := IZR (image_width st) in
  let ih := IZR (image_height st) in
  handle_mouse_press p st
  = match find_first (near_handle (fst p) (snd p))
            (calculate_handles iw ih l) 0 with
    | Some i =>
        Ok (with_original_label (Some l)
              (with_resize_handle i (with_resizing true st)))
    | None =>
        if QRectF_contains (label_rect iw ih l) (fst p) (snd p) then
          Ok (with_original_label (Some l)
                (with_drag_offset
                   (fst p - x_center l * iw, snd p - y_center l * ih)
                   (with_dragging true st)))
        else
          match find_first
                  (fun l0 => QRectF_contains (label_rect iw ih l0)
                               (fst p) (snd p))
                  (labels st) 0 with
          | Some i => update_label_info (with_selected_label i st)
          | None => Ok st
          end
    end.
Proof.
  intros Himg Hdraw Hedit Hsel Hl iw ih. unfold handle_mouse_press.
  rewrite Himg, Hdraw, Hedit. apply Z.leb_le in Hsel. rewrite Hsel.
  simpl. rewrite Hl. reflexivity.
Qed.

(** C4, as the code has it. The Edit-mode press tests the eight handles of
    the selected label (corners 0-3, edge centres 4-7; the centre is not
    among them) with a square test: a handle is hit when both
    [|x - hx| < 10] and [|y - hy| < 10]. The press starts a resize on the
    first handle hit, in enumeration order, with the label as snapshot; when
    no handle is hit it starts no resize: a press inside the unrotated box
    of the label starts a drag instead, and whatever else the press returns
    has the resize flag and handle as they were. *)
Theorem edit_press_hit_test :
  forall (st : State) (p : Point) (l : Label),
    current_image st = true -> drawing_mode st = false ->
    edit_mode st = true -> (0 <= selected_label st)%Z ->
    py_getitem (labels st) (selected_label st) = Ok l ->
    let hs := calculate_handles (IZR (image_width st))
                (IZR (image_height st)) l in
    length hs = 8%nat
    /\ (forall h, near_handle (fst p) (snd p) h = true
                  <-> Rabs (fst p - fst h) < 10 /\ Rabs (snd p - snd h) < 10)
    /\ (forall (i : nat) (h : Point),
          nth_error hs i = Some h ->
          near_handle (fst p) (snd p) h = true ->
          (forall j h', (j < i)%nat -> nth_error hs j = Some h' ->
                        near_handle (fst p) (snd p) h' = false) ->
          handle_mouse_press p st
            = Ok (with_original_label (Some l)
                    (with_resize_handle (Z.of_nat i)
                       (with_resizing true st))))
    /\ ((forall h, In h hs -> near_handle (fst p) (snd p) h = false) ->
        (QRectF_contains
           (label_rect (IZR (image_width st)) (IZR (image_height st)) l)
           (fst p) (snd p) = true ->
         handle_mouse_press p st
         = Ok (with_original_label (Some l)
                 (with_drag_offset
                    (fst p - x_center l * IZR (image_width st),
                     snd p - y_center l * IZR (image_height st))
                    (with_dragging true st))))
        /\ (forall st' : State,
              handle_mouse_press p st = Ok st' ->
              resizing st' = resizing st
              /\ resize_handle st' = resize_handle st)).
Proof.
  intros st p l Himg Hdraw Hedit Hsel Hl hs.
  split; [reflexivity |].
  split; [intros h; apply near_handle_spec |].
  pose proof (edit_press_unfold st p l Himg Hdraw Hedit Hsel Hl) as Hpre.
  cbv zeta in Hpre. fold hs in Hpre.
  split.
  - intros i h Hi Hnear Hfirst. rewrite Hpre.
    rewrite (find_first_hit _ hs 0 i h Hi Hnear Hfirst). reflexivity.
  - intros Hnone. split.
    { intros Hin. rewrite Hpre, (find_first_miss _ hs 0 Hnone), Hin.
      reflexivity. }
    intros st' H. rewrite Hpre in H.
    rewrite (find_first_miss _ hs 0 Hnone) in H.
    destruct (QRectF_contains _ _ _).
    + injection H as <-. split; reflexivity.
    + destruct (find_first _ (labels st) 0) as [i |].
      * apply update_label_info_gesture in H as [Hr [Hh _]].
        split; assumption.
      * injection H as <-. split; reflexivity.
Qed.

Lemma edit_session_handles :
  calculate_handles 200 200 example_label
  = [(50, 50); (150, 50); (150, 150); (50, 150);
     (100, 50); (150, 100); (100, 150); (50, 100)].
Proof.
  rewrite calculate_handles_unrotated by reflexivity. simpl.
  repeat (f_equal; try lra).
Qed.

Lemma near_handle_true (x y : R) (h : Point) :
  Rabs (x - fst h) < 10 -> Rabs (y - snd h) < 10 -> near_handle x y h = true.
Proof. intros. apply near_handle_spec. split; assumption. Qed.

Lemma near_handle_false (x y : R) (h : Point) :
  10 <= Rabs (x - fst h) \/ 10 <= Rabs (y - snd h) ->
  near_handle x y h = false.
Proof.
  intros H. destruct (near_handle x y h) eqn:E; [| reflexivity].
  apply near_handle_spec in E. lra.
Qed.

(** A press 9 pixels left of and 9 pixels above the top-left corner grabs
    that corner. *)
Lemma press_near_corner :
  handle_mouse_press (41, 41) edit_session
  = Ok (with_original_label (Some example_label)
          (with_resize_handle 0 (with_resizing true edit_session))).
Proof.
  rewrite (edit_press_unfold edit_session (41, 41) example_label)
    by (try reflexivity; simpl; lia).
  change (IZR (image_width edit_session)) with 200.
  change (IZR (image_height edit_session)) with 200.
  rewrite edit_session_handles. simpl.
  rewrite near_handle_true; [reflexivity | |]; simpl; unfold Rabs; r_decide.
Qed.

Lemma edit_press_hit_test_witness :
  current_image edit_session = true /\ drawing_mode edit_session = false /\
  edit_mode edit_session = true /\ (0 <= selected_label edit_session)%Z /\
  py_getitem (labels edit_session) (selected_label edit_session)
    = Ok example_label /\
  handle_mouse_press (41, 41) edit_session
    = Ok (with_original_label (Some example_label)
            (with_resize_handle 0 (with_resizing true edit_session))).
Proof.
  assert (Hsel : (0 <= selected_label edit_session)%Z) by (simpl; lia).
  repeat (split; [first [reflexivity | exact Hsel] |]).
  destruct (edit_press_hit_test edit_session (41, 41) example_label
              eq_refl eq_refl eq_refl Hsel eq_refl) as [_ [_ [Hhit _]]].
  apply (Hhit 0%nat (50, 50)).
  - change (IZR (image_width edit_session)) with 200.
    change (IZR (image_height edit_session)) with 200.
    rewrite edit_session_handles. reflexivity.
  - apply near_handle_true; simpl; unfold Rabs; r_decide.
  - intros j h' Hj. lia.
Defined.

(** C4, as stated, fails: the press at (41,41) grabs corner handle 0 of the
    box with corners (50,50)..(150,150), although every handle and the
    centre are at Euclidean distance 10 or more (corner 0 is at distance
    sqrt 162). *)
Lemma hit_test_counterexample :
  handle_mouse_press (41, 41) edit_session
  = Ok (with_original_label (Some example_label)
          (with_resize_handle 0 (with_resizing true edit_session)))
  /\ forall q : Point,
      In q (calculate_handles 200 200 example_label ++ [(100, 100)]) ->
      ~ sqrt ((41 - fst q) ^ 2 + (41 - snd q) ^ 2) < 10.
Proof.
  split; [exact press_near_corner |].
  rewrite edit_session_handles. intros q Hq Hlt.
  apply sqrt_lt_10 in Hlt. simpl in Hq.
  repeat (destruct Hq as [<- | Hq]; [simpl in Hlt; lra |]).
  contradiction.
Qed.

(** A press on the top edge centre starts a resize with handle 4. *)
Lemma press_top_edge_handle :
  handle_mouse_press (100, 50) edit_session = Ok top_edge_resize_session.
Proof.
  rewrite (edit_press_unfold edit_session (100, 50) example_label)
    by (try reflexivity; simpl; lia).
  change (IZR (image_width edit_session)) with 200.
  change (IZR (image_height edit_session)) with 200.
  rewrite edit_session_handles.
  rewrite (find_first_hit _ _ 0 4 (100, 50)).
  - reflexivity.
  - reflexivity.
  - apply near_handle_true; simpl; unfold Rabs; r_decide.
  - intros j h' Hj Hh'.
    apply near_handle_false.
    destruct j as [| [| [| [| j]]]]; try lia;
      simpl in Hh'; injection Hh' as <-; simpl; unfold Rabs; r_decide.
Qed.

(** C2, what the code does. During a resize by an edge handle (index 4 to
    7) every pointer move raises [IndexError]: the move handler first writes
    the pointer position into the list of the four original corners at the
    handle index, before it looks at the handle kind, so the edge branch
    that scales height or width is never reached and the label keeps its
    fields. *)
Theorem edge_resize_raises_IndexError :
  forall (st : State) (p : Point) (l orig : Label),
    drawing st = false -> dragging st = false ->
    resizing st = true -> edit_mode st = true ->
    (0 <= selected_label st)%Z ->
    py_getitem (labels st) (selected_label st) = Ok l ->
    original_label st = Some orig ->
    (4 <= resize_handle st <= 7)%Z ->
    handle_mouse_move p st = Raise IndexError.
Proof.
  intros st p l orig Hdraw Hdrag Hres Hedit Hsel Hl Horig Hh.
  unfold handle_mouse_move, get_original_label, resize_label.
  rewrite Hdraw, Hdrag, Hres, Hedit, Hl, Horig. simpl.
  apply Z.leb_le in Hsel. rewrite Hsel. simpl.
  rewrite py_setitem_past_end; [reflexivity |]. simpl. lia.
Qed.

Lemma edge_resize_raises_IndexError_witness :
  handle_mouse_press (100, 50) edit_session = Ok top_edge_resize_session
  /\ resizing top_edge_resize_session = true
  /\ resize_handle top_edge_resize_session = 4%Z
  /\ handle_mouse_move (100, 40) top_edge_resize_session = Raise IndexError.
Proof.
  split; [exact press_top_edge_handle |].
  split; [reflexivity |]. split; [reflexivity |].
  apply (edge_resize_raises_IndexError top_edge_resize_session (100, 40)
           example_label example_label);
    try reflexivity; simpl; lia.
Defined.

(** ** Text *)

(** *** Decimal digits *)

Lemma digit_of_digit_char (d : Z) :
  (0 <= d < 10)%Z -> digit_of (digit_char d) = Some d.
Proof.
  intros Hd.
  assert (H : In d [0; 1; 2; 3; 4; 5; 6; 7; 8; 9]%Z) by (simpl; lia).
  simpl in H.
  repeat (destruct H as [<- | H]; [reflexivity |]). contradiction.
Qed.

Lemma parse_digits_app (a b : text) :
  forall acc : Z,
    parse_digits acc (a ++ b)
    = match parse_digits acc a with
      | Some v => parse_digits v b
      | None => None
      end.
Proof.
  induction a as [| c t IH]; intros acc; [reflexivity |].
  simpl. destruct (digit_of c); [apply IH | reflexivity].
Qed.

Lemma parse_digits_fixed (k : nat) :
  forall (acc n : Z),
    (0 <= n)%Z ->
    parse_digits acc (digits_fixed k n)
    = Some (acc * 10 ^ Z.of_nat k + n mod 10 ^ Z.of_nat k)%Z.
Proof.
  induction k as [| k IH]; intros acc n Hn.
  - simpl. rewrite Z.mod_1_r. f_equal. lia.
  - cbn [digits_fixed]. rewrite parse_digits_app.
    rewrite IH by (apply Z.div_pos; lia).
    cbn [parse_digits].
    rewrite digit_of_digit_char by (apply Z.mod_pos_bound; lia).
    f_equal.
    rewrite Nat2Z.inj_succ, Z.pow_succ_r by lia.
    rewrite (Z.rem_mul_r n 10 (10 ^ Z.of_nat k)) by lia.
    lia.
Qed.

Lemma num_digits_aux_bound (fuel : nat) :
  forall n : Z,
    (0 <= n < 2 ^ Z.of_nat fuel)%Z ->
    (n < 10 ^ Z.of_nat (num_digits_aux fuel n))%Z.
Proof.
  induction fuel as [| f IH]; intros n Hn.
  - simpl in *. lia.
  - cbn [num_digits_aux]. destruct (n <? 10)%Z eqn:H10.
    + apply Z.ltb_lt in H10. simpl. lia.
    + apply Z.ltb_ge in H10.
      rewrite Nat2Z.inj_succ, Z.pow_succ_r in * by lia.
      assert (Hq : (0 <= n / 10 < 2 ^ Z.of_nat f)%Z).
      { split; [apply Z.div_pos; lia |].
        apply Z.div_lt_upper_bound; lia. }
      specialize (IH (n / 10)%Z Hq).
      pose proof (Z.div_mod n 10 ltac:(lia)) as Hdm.
      pose proof (Z.mod_pos_bound n 10 ltac:(lia)) as Hm.
      lia.
Qed.

Lemma num_digits_bound (n : Z) :
  (0 <= n)%Z -> (n < 10 ^ Z.of_nat (num_digits n))%Z.
Proof.
  intros Hn. unfold num_digits. apply num_digits_aux_bound.
  split; [exact Hn |].
  destruct (Z.eq_dec n 0) as [-> | Hne]; [simpl; lia |].
  pose proof (Z.log2_spec n ltac:(lia)) as [_ Hlt].
  pose proof (Z.log2_nonneg n) as Hl.
  rewrite Z2Nat.id by lia.
  replace (Z.log2 n + 1)%Z with (Z.succ (Z.log2 n)) by lia. exact Hlt.
Qed.

Lemma parse_str_nat (n : Z) :
  (0 <= n)%Z -> parse_digits 0 (str_nat n) = Some n.
Proof.
  intros Hn. unfold str_nat. rewrite parse_digits_fixed by exact Hn.
  rewrite Z.mod_small by (split; [exact Hn | apply num_digits_bound; exact Hn]).
  f_equal.
Qed.

(** *** Character classes *)

Lemma is_digit_digit_char (d : Z) : (0 <= d < 10)%Z -> is_digit (digit_char d) = true.
Proof. intros H. unfold is_digit. rewrite digit_of_digit_char by exact H. reflexivity. Qed.

Lemma is_digit_plain (c : ascii) :
  is_digit c = true ->
  is_space c = false /\ is_newline c = false
  /\ (nat_of_ascii c =? 46)%nat = false
  /\ (nat_of_ascii c =? 45)%nat = false
  /\ (nat_of_ascii c =? 43)%nat = false.
Proof.
  destruct c as [[] [] [] [] [] [] [] []]; intros H;
    try discriminate H; repeat split; reflexivity.
Qed.

Lemma digits_fixed_digits (k : nat) :
  forall n : Z, Forall (fun c => is_digit c = true) (digits_fixed k n).
Proof.
  induction k as [| k IH]; intros n; [constructor |].
  cbn [digits_fixed]. apply Forall_app. split; [apply IH |].
  constructor; [| constructor].
  apply is_digit_digit_char. apply Z.mod_pos_bound. lia.
Qed.

Lemma digits_fixed_length (k : nat) :
  forall n : Z, length (digits_fixed k n) = k.
Proof.
  induction k as [| k IH]; intros n; [reflexivity |].
  cbn [digits_fixed]. rewrite length_app, IH. simpl. lia.
Qed.

Lemma num_digits_aux_pos (fuel : nat) (n : Z) :
  (1 <= num_digits_aux fuel n)%nat.
Proof.
  destruct fuel; simpl; [lia |]. destruct (n <? 10)%Z; lia.
Qed.

Lemma str_nat_digits (n : Z) : Forall (fun c => is_digit c = true) (str_nat n).
Proof. apply digits_fixed_digits. Qed.

Lemma str_nat_not_nil (n : Z) : str_nat n <> [].
Proof.
  intros H. apply (f_equal (@length ascii)) in H.
  unfold str_nat in H. rewrite digits_fixed_length in H. simpl in H.
  pose proof (num_digits_aux_pos (Z.to_nat (Z.log2 n + 1)) n).
  unfold num_digits in H. lia.
Qed.

Lemma split_sign_digit (c : ascii) (t : text) :
  is_digit c = true -> split_sign (c :: t) = (false, c :: t).
Proof.
  intros H. apply is_digit_plain in H as (_ & _ & _ & H45 & H43).
  unfold split_sign. rewrite H45, H43. reflexivity.
Qed.

Lemma split_dot_digits (s rest : text) :
  Forall (fun c => is_digit c = true) s ->
  split_dot (s ++ ascii_of_nat 46 :: rest) = (s, Some rest).
Proof.
  induction 1 as [| c t Hc Ht IH]; [reflexivity |].
  apply is_digit_plain in Hc as (_ & _ & H46 & _).
  simpl. simpl in IH. rewrite H46, IH. reflexivity.
Qed.



(** *** [int] and [float] read back what the f-string printed *)

Lemma py_int_str (z : Z) : py_int (py_str_int z) = Ok z.
Proof.
  unfold py_str_int. destruct (z <? 0)%Z eqn:Hz.
  - apply Z.ltb_lt in Hz. unfold py_int. cbn [split_sign].
    change (nat_of_ascii (ascii_of_nat 45) =? 45)%nat with true. cbv iota.
    pose proof (str_nat_not_nil (- z)) as Hne.
    rewrite parse_str_nat by lia.
    destruct (str_nat (- z)); [contradiction |]. f_equal. lia.
  - apply Z.ltb_ge in Hz. unfold py_int.
    pose proof (str_nat_not_nil z) as Hne.
    pose proof (str_nat_digits z) as Hd.
    pose proof (parse_str_nat z Hz) as Hp.
    destruct (str_nat z) as [| c t]; [contradiction |].
    inversion Hd as [| ? ? Hc _]; subst.
    rewrite (split_sign_digit c t Hc). rewrite Hp. reflexivity.
Qed.

Lemma round_half_even_sign (y : R) :
  (y < 0 -> (round_half_even y <= 0)%Z)
  /\ (0 <= y -> (0 <= round_half_even y)%Z).
Proof.
  pose proof (base_Int_part y) as [Hlo Hhi].
  unfold round_half_even.
  split; intros Hy.
  - assert (Hf : (Int_part y < 0)%Z) by (apply lt_IZR; lra).
    destruct (Rlt_dec _ _); [lia |].
    destruct (Rlt_dec _ _); [lia |].
    destruct (Z.even _); lia.
  - assert (Hf : (-1 < Int_part y)%Z) by (apply lt_IZR; lra).
    destruct (Rlt_dec _ _); [lia |].
    destruct (Rlt_dec _ _); [lia |].
    destruct (Z.even _); lia.
Qed.

Lemma py_float_format (x : R) : py_float (format_6f x) = Ok (round6 x).
Proof.
  unfold round6.
  pose proof (round_half_even_sign (x * 1000000)) as [Hneg Hpos].
  fold (micro x) in Hneg, Hpos.
  set (m := Z.abs (micro x)).
  assert (Hm : (0 <= m)%Z) by (unfold m; lia).
  assert (Hq : (0 <= m / 1000000)%Z) by (apply Z.div_pos; lia).
  assert (Hr : (0 <= m mod 1000000 < 1000000)%Z)
    by (apply Z.mod_pos_bound; lia).
  assert (Hbody :
    forall neg : bool,
      decimal_body neg (str_nat (m / 1000000) ++ ascii_of_nat 46
                        :: digits_fixed 6 (m mod 1000000))
      = Some (if neg then (- m)%Z else m, 6%nat)).
  { intros neg. unfold decimal_body.
    rewrite split_dot_digits by apply str_nat_digits.
    cbv beta iota zeta. rewrite digits_fixed_length.
    assert (Hp : parse_digits 0 (str_nat (m / 1000000)
                                 ++ digits_fixed 6 (m mod 1000000))
                 = Some m).
    { rewrite parse_digits_app, parse_str_nat by exact Hq.
      rewrite parse_digits_fixed by lia.
      change (10 ^ Z.of_nat 6)%Z with 1000000%Z.
      rewrite Z.mod_mod by lia.
      f_equal. pose proof (Z.div_mod m 1000000 ltac:(lia)). lia. }
    pose proof (str_nat_not_nil (m / 1000000)) as Hne.
    destruct (str_nat (m / 1000000)) as [| c t]; [contradiction |].
    cbn [app] in *. rewrite Hp. reflexivity. }
  unfold py_float, decimal_of, format_6f. fold m.
  destruct (Rlt_dec x 0) as [Hx | Hx].
  - cbn [app split_sign].
    change (nat_of_ascii (ascii_of_nat 45) =? 45)%nat with true.
    cbv beta iota zeta.
    rewrite (Hbody true).
    change (10 ^ Z.of_nat 6)%Z with 1000000%Z.
    replace (- m)%Z with (micro x) by (unfold m; specialize (Hneg ltac:(lra)); lia).
    reflexivity.
  - cbn [app].
    pose proof (str_nat_not_nil (m / 1000000)) as Hne.
    pose proof (str_nat_digits (m / 1000000)) as Hd.
    specialize (Hbody false). 
    destruct (str_nat (m / 1000000)) as [| c t] eqn:Hs; [contradiction |].
    inversion Hd as [| ? ? Hc _]; subst.
    cbn [app]. rewrite (split_sign_digit c _ Hc).
    cbn [app] in Hbody. rewrite Hbody.
    change (10 ^ Z.of_nat 6)%Z with 1000000%Z.
    replace m with (micro x) by (unfold m; specialize (Hpos ltac:(lra)); lia).
    reflexivity.
Qed.

(** *** Lines and tokens *)

Lemma is_space_newline (c : ascii) : is_space c = false -> is_newline c = false.
Proof.
  destruct c as [[] [] [] [] [] [] [] []]; intros H;
    try discriminate H; reflexivity.
Qed.

Lemma py_lines_line (body rest : text) :
  Forall (fun c => is_newline c = false) body ->
  py_lines (body ++ LF :: rest) = (body ++ [LF]) :: py_lines rest.
Proof.
  induction 1 as [| c t Hc Ht IH]; [reflexivity |].
  cbn [app py_lines]. rewrite Hc, IH. reflexivity.
Qed.

Lemma py_split_drop_space (s : text) : py_split (drop_space s) = py_split s.
Proof.
  induction s as [| c t IH]; [reflexivity |].
  cbn [drop_space]. destruct (is_space c) eqn:Hc.
  - rewrite IH. cbn [py_split]. rewrite Hc. reflexivity.
  - reflexivity.
Qed.

Lemma py_split_snoc_space (sp : ascii) :
  is_space sp = true ->
  forall s : text, py_split (s ++ [sp]) = py_split s.
Proof.
  intros Hsp. induction s as [| c t IH].
  - simpl. rewrite Hsp. reflexivity.
  - cbn [app py_split]. destruct (is_space c) eqn:Hc; [exact IH |].
    destruct t as [| c' t'].
    + cbn [app]. rewrite Hsp. simpl. rewrite Hsp. reflexivity.
    + cbn [app] in *. destruct (is_space c'); rewrite IH; reflexivity.
Qed.

Lemma py_split_rev_drop_space (r : text) :
  py_split (rev (drop_space r)) = py_split (rev r).
Proof.
  induction r as [| c t IH]; [reflexivity |].
  cbn [drop_space]. destruct (is_space c) eqn:Hc; [| reflexivity].
  cbn [rev]. rewrite (py_split_snoc_space c Hc). exact IH.
Qed.

(** Stripping a line before splitting it changes nothing. *)
Lemma py_split_strip (s : text) : py_split (py_strip s) = py_split s.
Proof.
  unfold py_strip. rewrite py_split_rev_drop_space, rev_involutive.
  apply py_split_drop_space.
Qed.

Lemma py_split_token (sp : ascii) (tok rest : text) :
  is_space sp = true -> token tok ->
  py_split (tok ++ sp :: rest) = tok :: py_split rest.
Proof.
  intros Hsp [Hne Hall]. induction Hall as [| c t Hc Ht IH]; [contradiction |].
  cbn [app py_split]. rewrite Hc.
  destruct t as [| c' t'].
  - cbn [app]. rewrite Hsp. cbn [py_split]. rewrite Hsp. reflexivity.
  - cbn [app] in *. inversion Ht as [| ? ? Hc' _]; subst. rewrite Hc'.
    rewrite IH by discriminate. reflexivity.
Qed.

Lemma token_digits (s : text) :
  s <> [] -> Forall (fun c => is_digit c = true) s -> token s.
Proof.
  intros Hne Hd. split; [exact Hne |].
  eapply Forall_impl; [| exact Hd].
  intros c Hc. apply is_digit_plain in Hc. tauto.
Qed.

Lemma token_cons (c : ascii) (t : text) :
  is_space c = false -> Forall (fun c => is_space c = false) t -> token (c :: t).
Proof. intros Hc Ht. split; [discriminate | constructor; assumption]. Qed.

Lemma token_py_str_int (z : Z) : token (py_str_int z).
Proof.
  unfold py_str_int. destruct (z <? 0)%Z.
  - apply token_cons; [reflexivity |].
    apply (token_digits _ (str_nat_not_nil _) (str_nat_digits _)).
  - apply (token_digits _ (str_nat_not_nil _) (str_nat_digits _)).
Qed.

Lemma token_format_6f (x : R) : token (format_6f x).
Proof.
  unfold format_6f.
  assert (Hrest : token (str_nat (Z.abs (micro x) / 1000000)
                         ++ [ascii_of_nat 46]
                         ++ digits_fixed 6 (Z.abs (micro x) mod 1000000))).
  { split.
    - intros H. apply app_eq_nil in H as [H _].
      exact (str_nat_not_nil _ H).
    - apply Forall_app. split.
      + apply (token_digits _ (str_nat_not_nil _) (str_nat_digits _)).
      + constructor; [reflexivity |].
        eapply Forall_impl; [| apply digits_fixed_digits].
        intros c Hc. apply is_digit_plain in Hc. tauto. }
  destruct (Rlt_dec x 0).
  - apply token_cons; [reflexivity | apply Hrest].
  - exact Hrest.
Qed.

Lemma token_no_newline (t : text) :
  token t -> Forall (fun c => is_newline c = false) t.
Proof.
  intros [_ H]. eapply Forall_impl; [| exact H].
  intros c. apply is_space_newline.
Qed.

Lemma py_split_format_label (l : Label) :
  py_split (py_strip (format_label l)) = label_tokens l.
Proof.
  rewrite py_split_strip. unfold format_label, label_tokens.
  cbn [app].
  rewrite (py_split_token SP) by (reflexivity || apply token_py_str_int).
  repeat rewrite (py_split_token SP) by (reflexivity || apply token_format_6f).
  rewrite (py_split_token LF) by (reflexivity || apply token_format_6f).
  reflexivity.
Qed.

Lemma parse_fields_six (t0 t1 t2 t3 t4 t5 : text) :
  parse_fields [t0; t1; t2; t3; t4; t5]
  = (cid <- py_int t0 ;;
     xc <- py_float t1 ;;
     yc <- py_float t2 ;;
     w <- py_float t3 ;;
     h <- py_float t4 ;;
     a <- py_float t5 ;;
     Ok (mkLabel cid xc yc w h a)).
Proof. reflexivity. Qed.

Lemma parse_fields_label_tokens (l : Label) :
  parse_fields (label_tokens l) = Ok (round6_label l).
Proof.
  unfold label_tokens. rewrite parse_fields_six.
  rewrite py_int_str. cbn [bind].
  rewrite !py_float_format. reflexivity.
Qed.

Lemma line_label_format_label (l : Label) :
  line_label (format_label l) = Some (round6_label l).
Proof.
  unfold line_label. rewrite py_split_format_label.
  rewrite parse_fields_label_tokens. reflexivity.
Qed.

(** *** The loop of [load_yolo_labels] *)

Lemma py_getitem_at {A : Type} (l : list A) (i : Z) (a : A) :
  (0 <= i)%Z -> nth_error l (Z.to_nat i) = Some a -> py_getitem l i = Ok a.
Proof.
  intros Hi Hn.
  assert (Hlt : (Z.to_nat i < length l)%nat)
    by (apply nth_error_Some; congruence).
  unfold py_getitem. rewrite py_norm_index_in_range by lia.
  rewrite Hn. reflexivity.
Qed.

(** The body of the inner [try] on a line of at least five tokens. *)
Lemma parse_fields_five (t0 t1 t2 t3 t4 : text) (rest : list text) :
  parse_fields (t0 :: t1 :: t2 :: t3 :: t4 :: rest)
  = (cid <- py_int t0 ;;
     xc <- py_float t1 ;;
     yc <- py_float t2 ;;
     w <- py_float t3 ;;
     h <- py_float t4 ;;
     a <- match rest with
          | t5 :: _ => py_float t5
          | [] => Ok 0
          end ;;
     Ok (mkLabel cid xc yc w h a)).
Proof.
  unfold parse_fields.
  rewrite (py_getitem_at _ 0 t0), (py_getitem_at _ 1 t1),
    (py_getitem_at _ 2 t2), (py_getitem_at _ 3 t3), (py_getitem_at _ 4 t4)
    by (reflexivity || lia).
  destruct rest as [| t5 rest']; [reflexivity |].
  cbn [length Nat.ltb Nat.leb].
  rewrite (py_getitem_at _ 5 t5) by (reflexivity || lia).
  reflexivity.
Qed.

Lemma py_int_cases (s : text) :
  (exists n, py_int s = Ok n) \/ py_int s = Raise ValueError.
Proof.
  unfold py_int. destruct (split_sign s) as [neg body].
  destruct body; [right; reflexivity |].
  destruct (parse_digits 0 _); [left; eexists; reflexivity | right; reflexivity].
Qed.

Lemma py_float_cases (s : text) :
  (exists r, py_float s = Ok r) \/ py_float s = Raise ValueError.
Proof.
  unfold py_float. destruct (decimal_of s) as [[m k] |];
    [left; eexists; reflexivity | right; reflexivity].
Qed.


(** With five tokens or more the body of the inner [try] either builds a
    label or raises [ValueError]. *)
Lemma parse_fields_cases (parts : list text) :
  (5 <= length parts)%nat ->
  (exists l, parse_fields parts = Ok l) \/ parse_fields parts = Raise ValueError.
Proof.
  intros Hlen.
  destruct parts as [| t0 [| t1 [| t2 [| t3 [| t4 rest]]]]];
    try (simpl in Hlen; lia).
  rewrite parse_fields_five.
  destruct (py_int_cases t0) as [[n ->] | ->]; [| right; reflexivity].
  destruct (py_float_cases t1) as [[r1 ->] | ->]; [| right; reflexivity].
  destruct (py_float_cases t2) as [[r2 ->] | ->]; [| right; reflexivity].
  destruct (py_float_cases t3) as [[r3 ->] | ->]; [| right; reflexivity].
  destruct (py_float_cases t4) as [[r4 ->] | ->]; [| right; reflexivity].
  destruct rest as [| t5 rest'].
  - left. eexists. reflexivity.
  - destruct (py_float_cases t5) as [[r5 ->] | ->];
      [left; eexists; reflexivity | right; reflexivity].
Qed.


Lemma read_lines_labels_of_lines (lines : list text) :
  forall acc : list Label,
    read_lines lines acc = acc ++ labels_of_lines lines.
Proof.
  induction lines as [| line rest IH]; intros acc.
  - simpl. rewrite app_nil_r. reflexivity.
  - cbn [read_lines]. unfold labels_of_lines. cbn [flat_map].
    fold (labels_of_lines rest). unfold line_label.
    destruct (5 <=? length (py_split (py_strip line)))%nat eqn:Hlen.
    + apply Nat.leb_le in Hlen.
      destruct (parse_fields_cases _ Hlen) as [[l ->] | ->].
      * rewrite IH, <- app_assoc. reflexivity.
      * rewrite IH. reflexivity.
    + rewrite IH. reflexivity.
Qed.



(** ** Label files

    [load_yolo_labels] ends with a refresh of the labels list, which looks
    up the class name of every loaded label. *)

Lemma py_getitem_negative {A : Type} (l : list A) (i : Z) :
  (- Z.of_nat (length l) <= i < 0)%Z ->
  exists a, py_getitem l i = Ok a
            /\ nth_error l (Z.to_nat (Z.of_nat (length l) + i)) = Some a.
Proof.
  intros Hi. unfold py_getitem, py_norm_index. cbv zeta.
  destruct (0 <=? i)%Z eqn:H0; [apply Z.leb_le in H0; lia |].
  destruct (0 <=? Z.of_nat (length l) + i)%Z eqn:H1;
    [| apply Z.leb_gt in H1; lia].
  destruct (nth_error l (Z.to_nat (Z.of_nat (length l) + i))) as [a |] eqn:Hn.
  - exists a. split; reflexivity.
  - apply nth_error_None in Hn. lia.
Qed.

Lemma py_getitem_before_start {A : Type} (l : list A) (i : Z) :
  (i < - Z.of_nat (length l))%Z -> py_getitem l i = Raise IndexError.
Proof.
  intros Hi. unfold py_getitem, py_norm_index. cbv zeta.
  destruct (0 <=? i)%Z eqn:H0; [apply Z.leb_le in H0; lia |].
  destruct (0 <=? Z.of_nat (length l) + i)%Z eqn:H1;
    [apply Z.leb_le in H1; lia | reflexivity].
Qed.

Lemma py_getitem_raises_IndexError {A : Type} (l : list A) (i : Z) (e : exn) :
  py_getitem l i = Raise e -> e = IndexError.
Proof.
  unfold py_getitem. destruct (py_norm_index _ _); [| congruence].
  destruct (nth_error _ _); [discriminate | congruence].
Qed.

Lemma class_name_shown (cls : list text) (l : Label) :
  (- Z.of_nat (length cls) <= class_id l)%Z ->
  exists name, class_name cls (class_id l) = Ok name /\ shown_as cls l name.
Proof.
  intros Hlo. unfold class_name, shown_as. cbv zeta.
  destruct (class_id l <? Z.of_nat (length cls))%Z eqn:Hlt.
  - apply Z.ltb_lt in Hlt.
    destruct (Z_lt_le_dec (class_id l) 0) as [Hneg | Hpos].
    + destruct (py_getitem_negative cls (class_id l)) as [a [Hg Hn]];
        [lia |].
      exists a. split; [exact Hg |]. right. left. split; [lia | exact Hn].
    + destruct (py_getitem_in_range cls (class_id l)) as [a [Hg Hn]];
        [lia |].
      exists a. split; [exact Hg |]. left. split; [lia | exact Hn].
  - apply Z.ltb_ge in Hlt. eexists. split; [reflexivity |].
    right. right. split; [exact Hlt | reflexivity].
Qed.

Lemma class_name_raises (cls : list text) (cid : Z) (e : exn) :
  class_name cls cid = Raise e -> e = IndexError.
Proof.
  unfold class_name. destruct (_ <? _)%Z; [| discriminate].
  apply py_getitem_raises_IndexError.
Qed.

Lemma label_names_raises (cls : list text) (ls : list Label) (e : exn) :
  label_names cls ls = Raise e -> e = IndexError.
Proof.
  induction ls as [| l rest IH]; [discriminate |]. cbn [label_names].
  destruct (class_name cls (class_id l)) as [name | e1] eqn:Hc; cbn [bind].
  - destruct (label_names cls rest) as [names | e2]; cbn [bind];
      [discriminate |].
    intros H. injection H as <-. apply IH. reflexivity.
  - intros H. injection H as <-. exact (class_name_raises _ _ _ Hc).
Qed.

Lemma label_names_ok (cls : list text) (ls : list Label) :
  class_ids_ok cls ls -> exists names, label_names cls ls = Ok names.
Proof.
  induction 1 as [| l rest Hl Hrest [names IH]]; [exists []; reflexivity |].
  destruct (class_name_shown cls l Hl) as [name [Hc _]].
  exists (name :: names). cbn [label_names]. rewrite Hc, IH. reflexivity.
Qed.

Lemma label_names_bad (cls : list text) (ls : list Label) :
  Exists (fun l => (class_id l < - Z.of_nat (length cls))%Z) ls ->
  label_names cls ls = Raise IndexError.
Proof.
  induction ls as [| l rest IH]; intros H; [inversion H |].
  cbn [label_names].
  destruct (class_name cls (class_id l)) as [name | e] eqn:Hc; cbn [bind].
  - inversion H as [? ? Hl | ? ? Hrest]; subst.
    + unfold class_name in Hc.
      destruct (_ <? _)%Z eqn:Hlt; [| apply Z.ltb_ge in Hlt; lia].
      rewrite (py_getitem_before_start _ _ Hl) in Hc. discriminate.
    + rewrite (IH Hrest). reflexivity.
  - rewrite (class_name_raises _ _ _ Hc). reflexivity.
Qed.

Lemma update_labels_list_ok (st : State) :
  names_ok st -> exists names, update_labels_list st = Ok names.
Proof. apply label_names_ok. Qed.

Lemma load_yolo_labels_run
      (label_path : text -> text -> text) (fs : file_system)
      (st : State) (name : text) :
  (0 <= current_index st)%Z ->
  py_getitem (image_files st) (current_index st) = Ok name ->
  load_yolo_labels label_path fs st
  = (_ <- update_labels_list
            (read_label_file label_path fs name (with_labels [] st)) ;;
     Ok (read_label_file label_path fs name (with_labels [] st))).
Proof.
  intros Hidx Hname. unfold load_yolo_labels. simpl.
  destruct (image_files st) as [| f fs'] eqn:Hfiles.
  - rewrite py_getitem_nil in Hname. discriminate.
  - apply Z.ltb_ge in Hidx. rewrite Hidx, Hname. reflexivity.
Qed.

Lemma load_yolo_labels_regular
      (label_path : text -> text -> text) (fs : file_system)
      (st : State) (name content : text) :
  (0 <= current_index st)%Z ->
  py_getitem (image_files st) (current_index st) = Ok name ->
  fs (label_path (image_dir st) name) = Regular content ->
  class_ids_ok (classes st) (labels_of_lines (py_lines content)) ->
  load_yolo_labels label_path fs st
  = Ok (with_labels (labels_of_lines (py_lines content)) st).
Proof.
  intros Hidx Hname Hfs Hids.
  rewrite (load_yolo_labels_run label_path fs st name Hidx Hname).
  unfold read_label_file. simpl. rewrite Hfs.
  rewrite read_lines_labels_of_lines. simpl.
  destruct (label_names_ok _ _ Hids) as [names Hn].
  unfold update_labels_list. simpl. rewrite Hn. reflexivity.
Qed.


(** An open that fails is caught inside [load_yolo_labels]. *)
Lemma load_yolo_labels_unreadable
      (label_path : text -> text -> text) (fs : file_system)
      (st : State) (name : text) :
  (0 <= current_index st)%Z ->
  py_getitem (image_files st) (current_index st) = Ok name ->
  fs (label_path (image_dir st) name) = Unreadable ->
  load_yolo_labels label_path fs st = Ok (with_labels [] st).
Proof.
  intros Hidx Hname Hfs.
  rewrite (load_yolo_labels_run label_path fs st name Hidx Hname).
  unfold read_label_file. simpl. rewrite Hfs. reflexivity.
Qed.

(** C3, as the code has it. When the label file exists but cannot be
    opened, [load_yolo_labels] returns normally (the exception ends in a
    status-bar message) and the label sequence is empty: it was reset
    before the file was opened. *)
Theorem load_unreadable_resets_labels :
  forall (label_path : text -> text -> text) (fs : file_system)
         (st : State) (name : text),
    (0 <= current_index st)%Z ->
    py_getitem (image_files st) (current_index st) = Ok name ->
    fs (label_path (image_dir st) name) = Unreadable ->
    exists st',
      load_yolo_labels label_path fs st = Ok st'
      /\ labels st' = []
      /\ st' = with_labels [] st.
Proof.
  intros lp fs st name Hidx Hname Hfs.
  exists (with_labels [] st).
  split; [apply (load_yolo_labels_unreadable lp fs st name); assumption |].
  split; reflexivity.
Qed.

Lemma locked_fs_label_file :
  locked_fs (example_label_path (image_dir file_session) (txt "a.jpg"))
  = Unreadable.
Proof.
  unfold locked_fs.
  destruct (text_eq_dec _ _) as [_ | Hne]; [reflexivity |].
  exfalso. apply Hne. reflexivity.
Qed.

Lemma load_unreadable_resets_labels_witness :
  (0 <= current_index file_session)%Z /\
  py_getitem (image_files file_session) (current_index file_session)
    = Ok (txt "a.jpg") /\
  locked_fs (example_label_path (image_dir file_session) (txt "a.jpg"))
    = Unreadable /\
  exists st',
    load_yolo_labels example_label_path locked_fs file_session = Ok st'
    /\ labels st' = []
    /\ st' = with_labels [] file_session.
Proof.
  assert (Hidx : (0 <= current_index file_session)%Z) by (simpl; lia).
  split; [exact Hidx |]. split; [reflexivity |].
  split; [exact locked_fs_label_file |].
  exact (load_unreadable_resets_labels example_label_path locked_fs
           file_session (txt "a.jpg") Hidx eq_refl locked_fs_label_file).
Defined.

(** C3, as stated, fails: loading over an unreadable label file signals
    nothing and leaves a Document that held one label empty. *)
Lemma load_unreadable_counterexample :
  exists st',
    load_yolo_labels example_label_path locked_fs file_session = Ok st'
    /\ labels st' = []
    /\ labels st' <> labels file_session.
Proof.
  exists (with_labels [] file_session). split.
  - apply (load_yolo_labels_unreadable example_label_path locked_fs
             file_session (txt "a.jpg")).
    + simpl. lia.
    + reflexivity.
    + exact locked_fs_label_file.
  - split; [reflexivity |]. simpl. discriminate.
Qed.


Lemma fs_with_label_file_path (content : text) :
  fs_with_label_file content
    (example_label_path (image_dir file_session) (txt "a.jpg"))
  = Regular content.
Proof.
  unfold fs_with_label_file.
  destruct (text_eq_dec _ _) as [_ | Hne]; [reflexivity |].
  exfalso. apply Hne. reflexivity.
Qed.





Lemma format_label_body (l : Label) : format_label l = line_body l ++ [LF].
Proof.
  unfold format_label, line_body. repeat rewrite <- app_assoc. reflexivity.
Qed.

Lemma line_body_no_newline (l : Label) :
  Forall (fun c => is_newline c = false) (line_body l).
Proof.
  unfold line_body.
  repeat first
    [ apply token_no_newline;
      first [apply token_py_str_int | apply token_format_6f]
    | apply Forall_cons; [reflexivity |]
    | apply Forall_app; split ].
Qed.

Lemma py_lines_formatted (ls : list Label) :
  py_lines (concat (map format_label ls)) = map format_label ls.
Proof.
  induction ls as [| l rest IH]; [reflexivity |].
  cbn [map concat]. rewrite format_label_body at 1.
  rewrite <- app_assoc. cbn [app].
  rewrite py_lines_line by apply line_body_no_newline.
  rewrite IH, <- format_label_body. reflexivity.
Qed.

Lemma labels_of_formatted (ls : list Label) :
  labels_of_lines (map format_label ls) = map round6_label ls.
Proof.
  induction ls as [| l rest IH]; [reflexivity |].
  unfold labels_of_lines in *. cbn [map flat_map].
  rewrite line_label_format_label, IH. reflexivity.
Qed.



Lemma save_labels_writes
      (label_path : text -> text -> text) (fs : file_system)
      (st : State) (name : text) :
  (0 <= current_index st)%Z ->
  py_getitem (image_files st) (current_index st) = Ok name ->
  fs (label_path (image_dir st) name) <> Unreadable ->
  save_labels label_path fs st
  = Ok (fs_write fs (label_path (image_dir st) name)
          (concat (map format_label (labels st))), st).
Proof.
  intros Hidx Hname Hfs.
  unfold save_labels.
  destruct (image_files st) as [| f fs'] eqn:Hfiles.
  - rewrite py_getitem_nil in Hname. discriminate.
  - apply Z.ltb_ge in Hidx. rewrite Hidx.
    rewrite Hname. cbn [bind].
    destruct (fs (label_path (image_dir st) name)); try reflexivity.
    contradiction.
Qed.


Lemma class_ids_bad (cls : list text) (ls : list Label) :
  ~ class_ids_ok cls ls ->
  Exists (fun l => (class_id l < - Z.of_nat (length cls))%Z) ls.
Proof.
  unfold class_ids_ok. intros H.
  induction ls as [| l rest IH].
  - exfalso. apply H. constructor.
  - destruct (Z_lt_dec (class_id l) (- Z.of_nat (length cls))) as [Hl | Hl].
    + apply Exists_cons_hd. exact Hl.
    + apply Exists_cons_tl. apply IH. intros Hrest. apply H.
      constructor; [lia | exact Hrest].
Qed.


Lemma fs_write_read (fs : file_system) (path content : text) :
  fs_write fs path content path = Regular content.
Proof.
  unfold fs_write. destruct (text_eq_dec path path); [reflexivity | contradiction].
Qed.




(** ** The range invariant *)

Lemma Forall_list_set {A : Type} (P : A -> Prop) (l : list A) (k : nat) (a : A) :
  Forall P l -> P a -> Forall P (list_set l k a).
Proof.
  intros Hl Ha. revert k.
  induction Hl as [| x t Hx Ht IH]; intros k; [constructor |].
  destruct k; simpl; constructor; auto.
Qed.

Lemma py_setitem_Forall {A : Type} (P : A -> Prop) (l l' : list A)
      (i : Z) (a : A) :
  Forall P l -> P a -> py_setitem l i a = Ok l' -> Forall P l'.
Proof.
  intros Hl Ha. unfold py_setitem.
  destruct (py_norm_index _ _); [| discriminate].
  intros H. injection H as <-. apply Forall_list_set; assumption.
Qed.

Lemma py_getitem_Forall {A : Type} (P : A -> Prop) (l : list A)
      (i : Z) (a : A) :
  Forall P l -> py_getitem l i = Ok a -> P a.
Proof.
  intros Hl Hg. apply py_getitem_inv in Hg as [k [_ Hk]].
  apply nth_error_In in Hk. rewrite Forall_forall in Hl. auto.
Qed.

Lemma Forall_firstn_keep {A : Type} (P : A -> Prop) (l : list A) :
  Forall P l -> forall k, Forall P (firstn k l).
Proof.
  induction 1 as [| x t Hx Ht IH]; intros k.
  - destruct k; constructor.
  - destruct k; simpl; constructor; auto.
Qed.

Lemma Forall_skipn_keep {A : Type} (P : A -> Prop) (l : list A) :
  Forall P l -> forall k, Forall P (skipn k l).
Proof.
  induction 1 as [| x t Hx Ht IH]; intros k.
  - destruct k; constructor.
  - destruct k; simpl; [constructor; assumption | apply IH].
Qed.



Lemma clamp_label_in_range (l : Label) : label_in_range (clamp_label l).
Proof.
  unfold label_in_range, clamp_label. simpl.
  repeat split; try apply clamp01_range; apply clamp_size_range.
Qed.



















(** ** More geometry *)

(** X1. For every label and image size, [calculate_handles] returns eight
    points: its first four are the corners that
    [calculate_rotated_corners] computes for the same box, and its last four
    are the midpoints of the sides top, right, bottom, left. *)
Theorem handles_are_corners_and_edge_midpoints :
  forall (iw ih : R) (l : Label),
  exists c0 c1 c2 c3 e0 e1 e2 e3 : Point,
    calculate_handles iw ih l = [c0; c1; c2; c3; e0; e1; e2; e3]
    /\ [c0; c1; c2; c3]
       = calculate_rotated_corners (x_center l * iw) (y_center l * ih)
           (width l * iw) (height l * ih) (radians (angle l))
    /\ e0 = midpoint c0 c1 /\ e1 = midpoint c1 c2
    /\ e2 = midpoint c2 c3 /\ e3 = midpoint c3 c0.
Proof.
  intros iw ih l.
  unfold calculate_handles, calculate_rotated_corners. simpl.
  do 8 eexists. split; [reflexivity |].
  split; [repeat (f_equal; try lra) |].
  unfold midpoint. simpl.
  repeat split; f_equal; lra.
Qed.

(** X2. Whatever the angle, the four points of [calculate_rotated_corners]
    form a rectangle of the given size: consecutive corners are at distance
    w and h in turn, and both diagonals have squared length w^2 + h^2. *)
Theorem rotated_corners_keep_side_lengths :
  forall (cx cy w h a : R),
  exists c0 c1 c2 c3 : Point,
    calculate_rotated_corners cx cy w h a = [c0; c1; c2; c3]
    /\ dist2 c0 c1 = w ^ 2 /\ dist2 c1 c2 = h ^ 2
    /\ dist2 c2 c3 = w ^ 2 /\ dist2 c3 c0 = h ^ 2
    /\ dist2 c0 c2 = w ^ 2 + h ^ 2 /\ dist2 c1 c3 = w ^ 2 + h ^ 2.
Proof.
  intros cx cy w h a.
  unfold calculate_rotated_corners. simpl.
  do 4 eexists. split; [reflexivity |].
  pose proof (sin2_cos2 a) as Hsc. unfold Rsqr in Hsc.
  set (c := cos a) in *. set (s := sin a) in *.
  unfold dist2. simpl.
  repeat split; nra.
Qed.

(** ** More gestures *)

Lemma nth_error_list_set_same {A : Type} (l : list A) (k : nat) (a : A) :
  (k < length l)%nat -> nth_error (list_set l k a) k = Some a.
Proof.
  revert k. induction l as [| x t IH]; intros k Hk; [simpl in Hk; lia |].
  destruct k; simpl; [reflexivity | apply IH; simpl in Hk; lia].
Qed.

Lemma nth_error_list_set_other {A : Type} (l : list A) (k j : nat) (a : A) :
  j <> k -> nth_error (list_set l k a) j = nth_error l j.
Proof.
  revert k j. induction l as [| x t IH]; intros k j Hjk; [reflexivity |].
  destruct k, j; simpl; try reflexivity; try lia.
  apply IH. lia.
Qed.

Lemma store_selected_spec (l : Label) (st st' : State) :
  (0 <= selected_label st)%Z ->
  store_selected l st = Ok st' ->
  st' = with_labels (list_set (labels st) (Z.to_nat (selected_label st)) l) st
  /\ (selected_label st < Z.of_nat (length (labels st)))%Z.
Proof.
  intros Hsel. unfold store_selected, py_setitem.
  destruct (py_norm_index _ _) as [k |] eqn:Hk; [| discriminate].
  apply (py_norm_index_nonneg _ _ _ Hsel) in Hk as [-> Hlt].
  simpl. intros H. injection H as <-. split; [reflexivity | exact Hlt].
Qed.

Lemma update_angle_from_slider_spec (st st' : State) :
  update_angle_from_slider st = Ok st' ->
  erase_feedback st' = erase_feedback st
  /\ angle_slider st' = angle_slider st /\ class_combo st' = class_combo st
  /\ angle_update_at (Z.to_nat (selected_label st)) (labels st) (labels st').
Proof.
  unfold update_angle_from_slider.
  destruct (0 <=? selected_label st)%Z eqn:Hsel.
  - apply Z.leb_le in Hsel.
    destruct (py_getitem _ _) as [l |] eqn:Hg; [| discriminate].
    cbn [bind]. intros H.
    apply (py_getitem_nonneg _ _ _ Hsel) in Hg as [Hn Hr].
    fold (store_selected (set_angle (IZR (angle_slider st)) l) st) in H.
    apply (store_selected_spec _ _ _ Hsel) in H as [-> _].
    repeat split. right. exists l, (IZR (angle_slider st)). split; [exact Hn | reflexivity].
  - intros H. injection H as <-. repeat split. left. reflexivity.
Qed.

Lemma slider_setValue_spec (v : Z) (st st' : State) :
  slider_setValue v st = Ok st' ->
  erase_feedback st' = erase_feedback st
  /\ class_combo st' = class_combo st
  /\ angle_slider st' = Z.max (-180) (Z.min 180 v)
  /\ angle_update_at (Z.to_nat (selected_label st)) (labels st) (labels st').
Proof.
  unfold slider_setValue.
  destruct (c_int v); [| discriminate].
  destruct (_ =? _)%Z eqn:Heq.
  - apply Z.eqb_eq in Heq. intros H. injection H as <-.
    repeat split; [symmetry; exact Heq | left; reflexivity].
  - intros H. apply update_angle_from_slider_spec in H as (He & Hs & Hc & Ha).
    repeat split; assumption.
Qed.

Lemma update_label_info_spec (st st' : State) :
  update_label_info st = Ok st' ->
  erase_feedback st' = erase_feedback st
  /\ angle_update_at (Z.to_nat (selected_label st)) (labels st) (labels st').
Proof.
  unfold update_label_info.
  destruct (_ && _)%bool.
  - destruct (py_getitem _ _) as [l |]; [| discriminate]. cbn [bind].
    destruct (slider_setValue _ st) as [st1 |] eqn:Hs; [| discriminate].
    cbn [bind].
    apply slider_setValue_spec in Hs as (He & _ & _ & Ha).
    destruct (_ <? _)%Z; intros H; injection H as <-; split; assumption.
  - intros H. injection H as <-. split; [reflexivity | left; reflexivity].
Qed.

Lemma angle_update_at_nth (k : nat) (ls ls' : list Label) :
  angle_update_at k ls ls' ->
  length ls' = length ls
  /\ (forall j, j <> k -> nth_error ls' j = nth_error ls j)
  /\ (forall l, nth_error ls k = Some l ->
        exists l', nth_error ls' k = Some l' /\ same_box l' l).
Proof.
  intros [-> | [l [v [Hl ->]]]].
  - split; [reflexivity |]. split; [reflexivity |].
    intros l Hl. exists l. split; [exact Hl | repeat split].
  - split; [apply length_list_set |].
    split; [intros j Hj; apply nth_error_list_set_other; exact Hj |].
    intros l0 Hl0. exists (set_angle v l).
    split.
    + apply nth_error_list_set_same. apply nth_error_Some. congruence.
    + assert (l0 = l) by congruence. subst. repeat split.
Qed.

Lemma py_int_of_float_IZR (z : Z) : py_int_of_float (IZR z) = z.
Proof.
  unfold py_int_of_float. destruct (Rle_dec 0 (IZR z)).
  - symmetry. apply Int_part_spec. lra.
  - rewrite <- opp_IZR.
    rewrite <- (Int_part_spec (IZR (- z)) (- z)) by lra. lia.
Qed.

Lemma edit_session_names_ok : names_ok edit_session.
Proof. constructor; [simpl; lia | constructor]. Qed.

Lemma example_label_angle_c_int :
  c_int (py_int_of_float (angle example_label)) = true.
Proof.
  change (angle example_label) with (IZR 0).
  rewrite py_int_of_float_IZR. reflexivity.
Qed.

(** ** Class names across the pointer handlers

    The handlers end with a refresh of the canvas and of the labels list,
    which looks every class id up in the class table. The refresh returns
    exactly when [names_ok] holds, and the pointer handlers keep it: they
    never write a class id other than 0 or one that is already there. *)

Lemma store_selected_names_ok (l : Label) (st st' : State) :
  names_ok st ->
  (- Z.of_nat (length (classes st)) <= class_id l)%Z ->
  store_selected l st = Ok st' -> names_ok st'.
Proof.
  unfold names_ok, class_ids_ok, store_selected. intros Hst Hl H.
  destruct (py_setitem _ _ _) as [ls |] eqn:Hs; [| discriminate].
  simpl in H. injection H as <-. simpl.
  exact (py_setitem_Forall _ _ _ _ _ Hst Hl Hs).
Qed.

Lemma update_angle_from_slider_names_ok (st st' : State) :
  names_ok st -> update_angle_from_slider st = Ok st' -> names_ok st'.
Proof.
  unfold update_angle_from_slider. intros Hst H.
  destruct (0 <=? selected_label st)%Z;
    [| injection H as <-; exact Hst].
  destruct (py_getitem _ _) as [l |] eqn:Hg; [| discriminate].
  cbn [bind] in H.
  eapply store_selected_names_ok; [exact Hst | | exact H].
  exact (py_getitem_Forall _ _ _ _ Hst Hg).
Qed.

Lemma slider_setValue_names_ok (v : Z) (st st' : State) :
  names_ok st -> slider_setValue v st = Ok st' -> names_ok st'.
Proof.
  unfold slider_setValue. intros Hst H.
  destruct (c_int v); [| discriminate].
  destruct (_ =? _)%Z; [injection H as <-; exact Hst |].
  eapply update_angle_from_slider_names_ok; [| exact H]. exact Hst.
Qed.

Lemma update_label_info_names_ok (st st' : State) :
  names_ok st -> update_label_info st = Ok st' -> names_ok st'.
Proof.
  unfold update_label_info. intros Hst H.
  destruct (_ && _)%bool; [| injection H as <-; exact Hst].
  destruct (py_getitem _ _) as [l |]; [| discriminate].
  cbn [bind] in H.
  destruct (slider_setValue _ st) as [st1 |] eqn:Hs; [| discriminate].
  cbn [bind] in H.
  pose proof (slider_setValue_names_ok _ _ _ Hst Hs) as H1.
  destruct (_ <? _)%Z; injection H as <-; exact H1.
Qed.

Lemma handle_mouse_press_names_ok (p : Point) (st st' : State) :
  names_ok st -> handle_mouse_press p st = Ok st' -> names_ok st'.
Proof.
  unfold handle_mouse_press. intros Hst H.
  destruct (current_image st); [| injection H as <-; exact Hst].
  destruct (drawing_mode st); [injection H as <-; exact Hst |].
  destruct (edit_mode st && _)%bool.
  - destruct (py_getitem _ _) as [l |]; [| discriminate].
    cbn [bind] in H.
    destruct (find_first _ (calculate_handles _ _ _) _);
      [injection H as <-; exact Hst |].
    destruct (QRectF_contains _ _ _); [injection H as <-; exact Hst |].
    destruct (find_first _ (labels st) _);
      [| injection H as <-; exact Hst].
    eapply update_label_info_names_ok; [| exact H]. exact Hst.
  - destruct (orientation_mode st && _)%bool; injection H as <-; exact Hst.
Qed.

Lemma resize_label_class_id (x y iw ih : R) (handle : Z)
      (original label resized : Label) :
  resize_label x y iw ih handle original label = Ok resized ->
  class_id resized = class_id label.
Proof.
  unfold resize_label. intros H.
  destruct (py_setitem _ _ _) as [mc |]; [| discriminate]. cbn [bind] in H.
  destruct (handle <? 4)%Z.
  - repeat (match type of H with
            | bind ?m _ = _ =>
                destruct m; [cbn [bind] in H | discriminate]
            end).
    injection H as <-. reflexivity.
  - destruct (_ || _)%bool;
      (destruct (py_truediv _ _); [cbn [bind] in H | discriminate]);
      injection H as <-; reflexivity.
Qed.

Lemma handle_mouse_move_names_ok (p : Point) (st st' : State) :
  names_ok st -> handle_mouse_move p st = Ok st' -> names_ok st'.
Proof.
  unfold handle_mouse_move. intros Hst H.
  destruct (drawing st && drawing_mode st)%bool;
    [injection H as <-; exact Hst |].
  destruct (dragging st && edit_mode st && _)%bool.
  { destruct (py_getitem _ _) as [l |] eqn:Hg; [| discriminate].
    cbn [bind] in H.
    destruct (get_original_label st); [| discriminate]. cbn [bind] in H.
    destruct (py_truediv _ _) as [nx |]; [| discriminate]. cbn [bind] in H.
    destruct (py_truediv _ _) as [ny |]; [| discriminate]. cbn [bind] in H.
    destruct (store_selected _ st) as [st1 |] eqn:Hs; [| discriminate].
    cbn [bind] in H.
    eapply update_label_info_names_ok; [| exact H].
    eapply store_selected_names_ok; [exact Hst | | exact Hs].
    exact (py_getitem_Forall _ _ _ _ Hst Hg). }
  destruct (resizing st && edit_mode st && _)%bool.
  { destruct (py_getitem _ _) as [l |] eqn:Hg; [| discriminate].
    cbn [bind] in H.
    destruct (get_original_label st) as [orig |]; [| discriminate].
    cbn [bind] in H.
    destruct (resize_label _ _ _ _ _ _ _) as [resized |] eqn:Hr;
      [| discriminate].
    cbn [bind] in H.
    destruct (store_selected _ st) as [st1 |] eqn:Hs; [| discriminate].
    cbn [bind] in H.
    eapply update_label_info_names_ok; [| exact H].
    eapply store_selected_names_ok; [exact Hst | | exact Hs].
    simpl. rewrite (resize_label_class_id _ _ _ _ _ _ _ _ Hr).
    exact (py_getitem_Forall _ _ _ _ Hst Hg). }
  destruct (rotating st && orientation_mode st && _)%bool;
    [| injection H as <-; exact Hst].
  destruct (py_getitem _ _) as [l |] eqn:Hg; [| discriminate].
  cbn [bind] in H.
  destruct (store_selected _ st) as [st1 |] eqn:Hs; [| discriminate].
  cbn [bind] in H.
  eapply slider_setValue_names_ok; [| exact H].
  eapply store_selected_names_ok; [exact Hst | | exact Hs].
  exact (py_getitem_Forall _ _ _ _ Hst Hg).
Qed.

Lemma handle_mouse_release_names_ok (st st' : State) :
  names_ok st -> handle_mouse_release st = Ok st' -> names_ok st'.
Proof.
  unfold handle_mouse_release. intros Hst H.
  destruct (drawing st && temp_rect_truthy st && drawing_mode st)%bool;
    [| injection H as <-; exact Hst].
  destruct (temp_rect st) as [r |]; [| injection H as <-; exact Hst].
  destruct (py_truediv _ _) as [xc |]; [| discriminate]. cbn [bind] in H.
  destruct (py_truediv _ _) as [yc |]; [| discriminate]. cbn [bind] in H.
  destruct (py_truediv _ _) as [w |]; [| discriminate]. cbn [bind] in H.
  destruct (py_truediv _ _) as [h |]; [| discriminate]. cbn [bind] in H.
  injection H as <-. unfold names_ok, class_ids_ok. simpl.
  apply Forall_app. split; [exact Hst |].
  constructor; [| constructor]. simpl.
  destruct (class_combo st <? 0)%Z eqn:Hc; [lia |].
  apply Z.ltb_ge in Hc. lia.
Qed.

Lemma step_names_ok (e : event) (st st' : State) :
  names_ok st -> step e st = Ok st' -> names_ok st'.
Proof.
  intros Hst H. destruct e as [p | p | p]; simpl in H.
  - exact (handle_mouse_press_names_ok p st st' Hst H).
  - exact (handle_mouse_move_names_ok p st st' Hst H).
  - exact (handle_mouse_release_names_ok st st' Hst H).
Qed.

(** Every refresh of a run of pointer events returns. *)
Lemma run_names_ok (es : list event) (st st' : State) :
  names_ok st -> run es st = Ok st' -> names_ok st'.
Proof.
  revert st. induction es as [| e rest IH]; intros st Hst H; simpl in H.
  - injection H as <-. exact Hst.
  - destruct (step e st) as [st1 |] eqn:Hs; [| discriminate].
    cbn [bind] in H.
    exact (IH st1 (step_names_ok e st st1 Hst Hs) H).
Qed.

Lemma draw_gesture_run (st : State) (p q : Point) :
  current_image st = true -> drawing_mode st = true ->
  image_width st <> 0%Z -> image_height st <> 0%Z ->
  fst p <> fst q -> snd p <> snd q ->
  exists st',
    run [PointerDown p; PointerMove q; PointerUp q] st = Ok st'
    /\ labels st'
       = labels st ++
         [mkLabel (Z.max 0 (class_combo st))
            (clamp01 ((fst p + fst q) / 2 / IZR (image_width st)))
            (clamp01 ((snd p + snd q) / 2 / IZR (image_height st)))
            (clamp_size (Rabs (fst q - fst p) / IZR (image_width st)))
            (clamp_size (Rabs (snd q - snd p) / IZR (image_height st)))
            (IZR (angle_slider st))]
    /\ drawing st' = false.
Proof.
  intros Himg Hmode Hw Hh Hx Hy. destruct p as [px py], q as [qx qy].
  simpl in Hx, Hy.
  unfold run, step, handle_mouse_press, handle_mouse_move,
    handle_mouse_release, temp_rect_truthy.
  rewrite Himg, Hmode. cbn [bind]. simpl.
  rewrite Hmode. simpl.
  set (r := QRectF_normalized (QRectF_of_points (px, py) (qx, qy))).
  assert (Hr : r = mkQRectF (if Rlt_dec (qx - px) 0 then qx else px)
                     (if Rlt_dec (qy - py) 0 then qy else py)
                     (Rabs (qx - px)) (Rabs (qy - py))).
  { unfold r, QRectF_normalized, QRectF_of_points, Rabs. simpl.
    destruct (Rlt_dec (qx - px) 0), (Rlt_dec (qy - py) 0);
      destruct (Rcase_abs (qx - px)), (Rcase_abs (qy - py));
      try lra; f_equal; lra. }
  assert (Hvalid : QRectF_isValid r = true).
  { rewrite Hr. apply QRectF_isValid_true; simpl;
      apply Rabs_pos_lt; lra. }
  rewrite Hvalid. simpl.
  rewrite !py_truediv_ok by (apply not_0_IZR; assumption). simpl.
  rewrite Hmode.
  eexists. split; [reflexivity |]. split; [| reflexivity].
  simpl. f_equal. f_equal.
  rewrite Hr. simpl.
  assert (Hcid : (if (class_combo st <? 0)%Z then 0%Z else class_combo st)
                 = Z.max 0 (class_combo st)).
  { destruct (class_combo st <? 0)%Z eqn:E;
      [apply Z.ltb_lt in E | apply Z.ltb_ge in E]; lia. }
  rewrite Hcid.
  f_equal; f_equal; unfold Rabs;
    destruct (Rlt_dec (qx - px) 0), (Rlt_dec (qy - py) 0);
    destruct (Rcase_abs (qx - px)), (Rcase_abs (qy - py));
    try lra; unfold Rdiv; f_equal; lra.
Qed.

(** X3. In Draw mode on a loaded image, a press at p, a move to q and a
    release commit one label when p and q differ in both coordinates: its
    centre is the midpoint of p and q and its size is |dx| and |dy|, each
    divided by the image size and clamped; its class is the combo index (0
    when there is none) and its angle the slider value. Drawing the same
    box from q to p gives the same labels. The Document is one whose class
    ids all have a name ([names_ok]), so that the canvas and list
    refreshes of the three handlers return; it is so again afterwards. *)
Theorem draw_gesture_commits_spanned_box :
  forall (st : State) (p q : Point),
    current_image st = true -> drawing_mode st = true ->
    image_width st <> 0%Z -> image_height st <> 0%Z ->
    fst p <> fst q -> snd p <> snd q ->
    names_ok st ->
    exists st' st'',
      run [PointerDown p; PointerMove q; PointerUp q] st = Ok st'
      /\ labels st'
         = labels st ++
           [mkLabel (Z.max 0 (class_combo st))
              (clamp01 ((fst p + fst q) / 2 / IZR (image_width st)))
              (clamp01 ((snd p + snd q) / 2 / IZR (image_height st)))
              (clamp_size (Rabs (fst q - fst p) / IZR (image_width st)))
              (clamp_size (Rabs (snd q - snd p) / IZR (image_height st)))
              (IZR (angle_slider st))]
      /\ drawing st' = false
      /\ run [PointerDown q; PointerMove p; PointerUp p] st = Ok st''
      /\ labels st'' = labels st'
      /\ names_ok st' /\ names_ok st''.
Proof.
  intros st p q Himg Hmode Hw Hh Hx Hy Hok.
  destruct (draw_gesture_run st p q Himg Hmode Hw Hh Hx Hy)
    as [st' [Hrun [Hl Hd]]].
  destruct (draw_gesture_run st q p Himg Hmode Hw Hh
              (not_eq_sym Hx) (not_eq_sym Hy))
    as [st'' [Hrun' [Hl' _]]].
  exists st', st''.
  split; [exact Hrun |]. split; [exact Hl |]. split; [exact Hd |].
  split; [exact Hrun' |].
  split; [| split; [exact (run_names_ok _ _ _ Hok Hrun)
                   | exact (run_names_ok _ _ _ Hok Hrun')]].
  rewrite Hl, Hl'. f_equal. f_equal.
  f_equal; f_equal; try (f_equal; lra);
    rewrite <- Rabs_Ropp; f_equal; f_equal; lra.
Qed.

Lemma draw_gesture_commits_spanned_box_witness :
  current_image draw_session = true /\ drawing_mode draw_session = true /\
  image_width draw_session <> 0%Z /\ image_height draw_session <> 0%Z /\
  names_ok draw_session /\
  exists st' st'',
    run [PointerDown (110, 60); PointerMove (10, 10); PointerUp (10, 10)]
        draw_session = Ok st'
    /\ run [PointerDown (10, 10); PointerMove (110, 60); PointerUp (110, 60)]
         draw_session = Ok st''
    /\ labels st'' = labels st'.
Proof.
  assert (Hw : image_width draw_session <> 0%Z) by (simpl; lia).
  assert (Hh : image_height draw_session <> 0%Z) by (simpl; lia).
  assert (Hok : names_ok draw_session) by constructor.
  repeat (split; [first [reflexivity | assumption] |]).
  assert (Hx : fst (110, 60) <> fst (10, 10)) by (simpl; lra).
  assert (Hy : snd (110, 60) <> snd (10, 10)) by (simpl; lra).
  destruct (draw_gesture_commits_spanned_box draw_session (110, 60) (10, 10)
              eq_refl eq_refl Hw Hh Hx Hy Hok)
    as [st' [st'' [H1 [_ [_ [H2 [H3 _]]]]]]].
  exists st', st''. repeat split; assumption.
Defined.

(** X4. In Draw mode a drag whose end point has the same x or the same y
    as its start commits nothing: the preview rectangle has zero width or
    height, the label sequence is unchanged and the drawing flag stays
    set. The Document is one whose class ids all have a name
    ([names_ok]), so that the canvas refresh of the move returns. *)
Theorem thin_drag_commits_nothing :
  forall (st : State) (p q : Point),
    current_image st = true -> drawing_mode st = true ->
    fst p = fst q \/ snd p = snd q ->
    names_ok st ->
    exists st',
      run [PointerDown p; PointerMove q; PointerUp q] st = Ok st'
      /\ labels st' = labels st
      /\ classes st' = classes st
      /\ drawing st' = true.
Proof.
  intros st [px py] [qx qy] Himg Hmode Hthin _. simpl in Hthin.
  unfold run, step, handle_mouse_press, handle_mouse_move,
    handle_mouse_release, temp_rect_truthy.
  rewrite Himg, Hmode. cbn [bind]. simpl.
  rewrite Hmode. simpl.
  assert (Hinv : QRectF_isValid
                   (QRectF_normalized (QRectF_of_points (px, py) (qx, qy)))
                 = false).
  { unfold QRectF_isValid, QRectF_normalized, QRectF_of_points. simpl.
    destruct (Rlt_dec (qx - px) 0), (Rlt_dec (qy - py) 0); simpl;
      r_decide. }
  rewrite Hinv. simpl.
  eexists. split; [reflexivity |]. repeat split.
Qed.

Lemma thin_drag_commits_nothing_witness :
  current_image draw_session = true /\ drawing_mode draw_session = true /\
  names_ok draw_session /\
  exists st',
    run [PointerDown (10, 10); PointerMove (110, 10); PointerUp (110, 10)]
        draw_session = Ok st'
    /\ labels st' = labels draw_session
    /\ classes st' = classes draw_session
    /\ drawing st' = true.
Proof.
  split; [reflexivity |]. split; [reflexivity |].
  split; [constructor |].
  apply (thin_drag_commits_nothing draw_session (10, 10) (110, 10));
    try reflexivity; [right; reflexivity | constructor].
Defined.

(** X5. In Edit mode, a press inside the unrotated box of the selected
    label (and on none of its handles) followed by a move to q shifts the
    label's centre by the pointer displacement divided by the image size,
    clamped to [0,1]; its width, height and class, the number of labels and
    every other label are unchanged. The Document is one whose class ids
    all have a name ([names_ok]), so that the refreshes of the two handlers
    return, and the truncated angle of the label fits a C [int], so that
    the slider takes it. *)
Theorem drag_translates_center :
  forall (st : State) (p q : Point) (l : Label),
    current_image st = true -> drawing_mode st = false ->
    edit_mode st = true -> (0 <= selected_label st)%Z ->
    py_getitem (labels st) (selected_label st) = Ok l ->
    image_width st <> 0%Z -> image_height st <> 0%Z ->
    (forall h,
        In h (calculate_handles (IZR (image_width st))
                (IZR (image_height st)) l) ->
        near_handle (fst p) (snd p) h = false) ->
    QRectF_contains
      (label_rect (IZR (image_width st)) (IZR (image_height st)) l)
      (fst p) (snd p) = true ->
    names_ok st ->
    c_int (py_int_of_float (angle l)) = true ->
    exists st' l',
      run [PointerDown p; PointerMove q] st = Ok st'
      /\ nth_error (labels st') (Z.to_nat (selected_label st)) = Some l'
      /\ x_center l'
         = clamp01 (x_center l + (fst q - fst p) / IZR (image_width st))
      /\ y_center l'
         = clamp01 (y_center l + (snd q - snd p) / IZR (image_height st))
      /\ width l' = width l /\ height l' = height l
      /\ class_id l' = class_id l
      /\ length (labels st') = length (labels st)
      /\ (forall j, j <> Z.to_nat (selected_label st) ->
            nth_error (labels st') j = nth_error (labels st) j)
      /\ names_ok st'.
Proof.
  intros st p q l Himg Hdraw Hedit Hsel Hl Hw Hh Hnone Hin Hok Hint.
  pose proof (not_0_IZR _ Hw) as HW. pose proof (not_0_IZR _ Hh) as HH.
  destruct (py_getitem_nonneg _ _ _ Hsel Hl) as [Hnth Hrange].
  cbn [run]. unfold step at 1.
  rewrite (edit_press_unfold st p l Himg Hdraw Hedit Hsel Hl).
  cbv zeta. rewrite (find_first_miss _ _ 0 Hnone), Hin. cbn [bind].
  unfold step, handle_mouse_move. simpl.
  rewrite Hdraw, Hedit, Hl, andb_false_r. 
  apply Z.leb_le in Hsel. rewrite Hsel. apply Z.leb_le in Hsel.
  simpl.
  rewrite !py_truediv_ok by assumption. cbn [bind].
  set (moved := set_y_center _ (set_x_center _ l)).
  unfold store_selected. simpl.
  rewrite py_setitem_in_range by exact Hrange. cbn [bind].
  set (st1 := with_labels _ _).
  destruct (update_label_info_ok st1) as [st' [Hu _]].
  { intros a Ha.
    change (py_getitem
              (list_set (labels st) (Z.to_nat (selected_label st)) moved)
              (selected_label st) = Ok a) in Ha.
    rewrite py_getitem_list_set in Ha by exact Hrange.
    injection Ha as <-. exact Hint. }
  rewrite Hu. cbn [bind].
  assert (Hok1 : names_ok st1).
  { apply Forall_list_set; [exact Hok |].
    exact (py_getitem_Forall _ _ _ _ Hok Hl). }
  pose proof (update_label_info_names_ok _ _ Hok1 Hu) as Hok'.
  apply update_label_info_spec in Hu as [_ Ha].
  apply angle_update_at_nth in Ha as (Hlen & Hother & Hsame).
  assert (Hk : (Z.to_nat (selected_label st) < length (labels st))%nat) by lia.
  destruct (Hsame moved) as [l' [Hl' (Hc & Hx & Hy & Hwd & Hht)]].
  { unfold st1. simpl. apply nth_error_list_set_same. exact Hk. }
  exists st', l'. split; [reflexivity |].
  split; [exact Hl' |].
  split.
  { rewrite Hx. unfold moved. simpl. f_equal. field. exact HW. }
  split.
  { rewrite Hy. unfold moved. simpl. f_equal. field. exact HH. }
  split; [rewrite Hwd; reflexivity |].
  split; [rewrite Hht; reflexivity |].
  split; [rewrite Hc; reflexivity |].
  split.
  { rewrite Hlen. unfold st1. simpl. apply length_list_set. }
  split; [| exact Hok'].
  intros j Hj. rewrite (Hother j Hj). unfold st1. simpl.
  apply nth_error_list_set_other. exact Hj.
Qed.

Lemma drag_translates_center_witness :
  exists st' l',
    run [PointerDown (100, 100); PointerMove (120, 90)] edit_session = Ok st'
    /\ nth_error (labels st') 0 = Some l'
    /\ x_center l' = clamp01 (1 / 2 + (120 - 100) / 200)
    /\ y_center l' = clamp01 (1 / 2 + (90 - 100) / 200)
    /\ width l' = 1 / 2 /\ height l' = 1 / 2.
Proof.
  assert (Hsel : (0 <= selected_label edit_session)%Z) by (simpl; lia).
  assert (Hw : image_width edit_session <> 0%Z) by (simpl; lia).
  assert (Hh : image_height edit_session <> 0%Z) by (simpl; lia).
  destruct (drag_translates_center edit_session (100, 100) (120, 90)
              example_label eq_refl eq_refl eq_refl Hsel eq_refl Hw Hh)
    as [st' [l' (Hrun & Hn & Hx & Hy & Hwd & Hht & _)]];
    [| | exact edit_session_names_ok | exact example_label_angle_c_int |].
  - change (IZR (image_width edit_session)) with 200.
    change (IZR (image_height edit_session)) with 200.
    rewrite edit_session_handles. intros h Hin.
    apply near_handle_false. simpl in Hin.
    repeat (destruct Hin as [<- | Hin];
            [simpl; unfold Rabs; r_decide |]).
    contradiction.
  - unfold QRectF_contains, label_rect. simpl. r_decide.
  - exists st', l'. repeat split; assumption.
Defined.

Lemma py_min_le (a b : R) : py_min a b <= a /\ py_min a b <= b.
Proof. unfold py_min. destruct (Rlt_dec b a); lra. Qed.

Lemma py_max_ge (a b : R) : a <= py_max a b /\ b <= py_max a b.
Proof. unfold py_max. destruct (Rlt_dec a b); lra. Qed.

Lemma py_min_list_le (xs : list R) (m : R) :
  py_min_list xs = Ok m -> forall x, In x xs -> m <= x.
Proof.
  destruct xs as [| a rest]; [discriminate |].
  simpl. intros H. injection H as <-.
  assert (Hgen : forall l acc, fold_left py_min l acc <= acc
                               /\ forall x, In x l -> fold_left py_min l acc <= x).
  { induction l as [| y t IH]; intros acc; simpl.
    - split; [lra | contradiction].
    - destruct (IH (py_min acc y)) as [H1 H2].
      pose proof (py_min_le acc y) as [Ha Hy].
      split; [lra |].
      intros x [<- | Hx]; [lra | apply H2; exact Hx]. }
  destruct (Hgen rest a) as [H1 H2].
  intros x [<- | Hx]; [exact H1 | apply H2; exact Hx].
Qed.

Lemma py_max_list_ge (xs : list R) (m : R) :
  py_max_list xs = Ok m -> forall x, In x xs -> x <= m.
Proof.
  destruct xs as [| a rest]; [discriminate |].
  simpl. intros H. injection H as <-.
  assert (Hgen : forall l acc, acc <= fold_left py_max l acc
                               /\ forall x, In x l -> x <= fold_left py_max l acc).
  { induction l as [| y t IH]; intros acc; simpl.
    - split; [lra | contradiction].
    - destruct (IH (py_max acc y)) as [H1 H2].
      pose proof (py_max_ge acc y) as [Ha Hy].
      split; [lra |].
      intros x [<- | Hx]; [lra | apply H2; exact Hx]. }
  destruct (Hgen rest a) as [H1 H2].
  intros x [<- | Hx]; [exact H1 | apply H2; exact Hx].
Qed.

Lemma clamp_size_mono (a b : R) : a <= b -> clamp_size a <= clamp_size b.
Proof. intros H. unfold clamp_size, py_max, py_min. r_decide. Qed.

(** Replacing one of four corners by the pointer keeps a corner on each
    side of the axis-aligned box. *)
Lemma resize_label_corner_grows
      (x y iw ih : R) (handle : Z) (orig label : Label) :
  angle orig = 0 -> 0 < iw -> 0 < ih ->
  0 <= width orig -> 0 <= height orig ->
  (0 <= handle < 4)%Z ->
  exists resized,
    resize_label x y iw ih handle orig label = Ok resized
    /\ width orig <= width resized /\ height orig <= height resized
    /\ class_id resized = class_id label /\ angle resized = angle label.
Proof.
  intros Ha Hiw Hih Hw Hh Hhandle.
  unfold resize_label.
  rewrite (calculate_handles_unrotated iw ih orig Ha). cbv zeta.
  set (xc := x_center orig * iw). set (yc := y_center orig * ih).
  set (w := width orig * iw). set (h := height orig * ih).
  cbn [firstn].
  assert (Hcases : handle = 0%Z \/ handle = 1%Z \/ handle = 2%Z \/ handle = 3%Z)
    by lia.
  assert (Hgoal :
    forall cs : list Point,
      (exists a, In (xc - w / 2, a) cs) -> (exists a, In (xc + w / 2, a) cs) ->
      (exists a, In (a, yc - h / 2) cs) -> (exists a, In (a, yc + h / 2) cs) ->
      cs <> [] ->
      exists resized,
        (min_x <- py_min_list (map fst cs) ;;
         new_x_min <- py_truediv min_x iw ;;
         min_y <- py_min_list (map snd cs) ;;
         new_y_min <- py_truediv min_y ih ;;
         max_x <- py_max_list (map fst cs) ;;
         new_x_max <- py_truediv max_x iw ;;
         max_y <- py_max_list (map snd cs) ;;
         new_y_max <- py_truediv max_y ih ;;
         Ok (mkLabel (class_id label)
               ((new_x_min + new_x_max) / 2) ((new_y_min + new_y_max) / 2)
               (new_x_max - new_x_min) (new_y_max - new_y_min) (angle label)))
        = Ok resized
        /\ width orig <= width resized /\ height orig <= height resized
        /\ class_id resized = class_id label /\ angle resized = angle label).
  { intros cs [a1 Hxl] [a2 Hxr] [a3 Hyt] [a4 Hyb] Hne.
    destruct (py_min_list (map fst cs)) as [mx |] eqn:Emx;
      [| destruct cs; [contradiction | discriminate]].
    destruct (py_min_list (map snd cs)) as [my |] eqn:Emy;
      [| destruct cs; [contradiction | discriminate]].
    destruct (py_max_list (map fst cs)) as [Mx |] eqn:EMx;
      [| destruct cs; [contradiction | discriminate]].
    destruct (py_max_list (map snd cs)) as [My |] eqn:EMy;
      [| destruct cs; [contradiction | discriminate]].
    cbn [bind]. rewrite !py_truediv_ok by lra. cbn [bind].
    eexists. split; [reflexivity |]. simpl.
    pose proof (py_min_list_le _ _ Emx _ (in_map fst _ _ Hxl)) as H1.
    pose proof (py_max_list_ge _ _ EMx _ (in_map fst _ _ Hxr)) as H2.
    pose proof (py_min_list_le _ _ Emy _ (in_map snd _ _ Hyt)) as H3.
    pose proof (py_max_list_ge _ _ EMy _ (in_map snd _ _ Hyb)) as H4.
    simpl in H1, H2, H3, H4.
    assert (Hwx : width orig = w / iw) by (unfold w; field; lra).
    assert (Hhy : height orig = h / ih) by (unfold h; field; lra).
    assert (Hi1 : 0 < / iw) by (apply Rinv_0_lt_compat; lra).
    assert (Hi2 : 0 < / ih) by (apply Rinv_0_lt_compat; lra).
    repeat split.
    - rewrite Hwx. unfold Rdiv. rewrite <- Rmult_minus_distr_r.
      apply Rmult_le_compat_r; lra.
    - rewrite Hhy. unfold Rdiv. rewrite <- Rmult_minus_distr_r.
      apply Rmult_le_compat_r; lra. }
  destruct Hcases as [-> | [-> | [-> | ->]]];
    (change ((_ <? 4)%Z) with true; cbv iota);
    [ change (py_setitem ?l 0%Z ?v) with (Ok (list_set l 0 v))
    | change (py_setitem ?l 1%Z ?v) with (Ok (list_set l 1 v))
    | change (py_setitem ?l 2%Z ?v) with (Ok (list_set l 2 v))
    | change (py_setitem ?l 3%Z ?v) with (Ok (list_set l 3 v)) ];
    cbn [bind list_set]; apply Hgoal;
    try (eexists; simpl; auto 6; fail); discriminate.
Qed.

(** X6. A resize by a corner handle (0 to 3) of a label whose snapshot is
    unrotated and within the ranges never makes the box smaller, wherever
    the pointer goes: the three corners that stay still span the whole
    original box, so the new width and height are at least the snapshot's.
    The label stays within the ranges and keeps its class. The Document is
    one whose class ids all have a name ([names_ok]), so that the refreshes
    of the move return, and the truncated angle of the label fits a C
    [int], so that the slider takes it. *)
Theorem corner_resize_never_shrinks :
  forall (st : State) (p : Point) (l orig : Label),
    drawing st = false -> dragging st = false ->
    resizing st = true -> edit_mode st = true ->
    (0 <= selected_label st)%Z ->
    py_getitem (labels st) (selected_label st) = Ok l ->
    original_label st = Some orig ->
    angle orig = 0 -> label_in_range orig ->
    (0 < image_width st)%Z -> (0 < image_height st)%Z ->
    (0 <= resize_handle st < 4)%Z ->
    names_ok st ->
    c_int (py_int_of_float (angle l)) = true ->
    exists st' l',
      handle_mouse_move p st = Ok st'
      /\ nth_error (labels st') (Z.to_nat (selected_label st)) = Some l'
      /\ width orig <= width l' /\ height orig <= height l'
      /\ class_id l' = class_id l
      /\ label_in_range l'
      /\ names_ok st'.
Proof.
  intros st p l orig Hdraw Hdrag Hres Hedit Hsel Hl Horig Ha Hin Hw Hh Hhd
    Hok Hint.
  destruct (py_getitem_nonneg _ _ _ Hsel Hl) as [Hnth Hrange].
  assert (HW : 0 < IZR (image_width st)) by (apply IZR_lt; exact Hw).
  assert (HH : 0 < IZR (image_height st)) by (apply IZR_lt; exact Hh).
  destruct Hin as (Hx & Hy & Hwd & Hht).
  destruct (resize_label_corner_grows (fst p) (snd p) _ _ (resize_handle st)
              orig l Ha HW HH ltac:(lra) ltac:(lra) Hhd)
    as [resized (Hr & Hrw & Hrh & Hrc & Hra)].
  unfold handle_mouse_move, get_original_label.
  rewrite Hdraw, Hdrag, Hres, Hedit, Hl, Horig. simpl.
  apply Z.leb_le in Hsel. rewrite Hsel. apply Z.leb_le in Hsel. simpl.
  rewrite Hr. cbn [bind].
  unfold store_selected.
  rewrite py_setitem_in_range by exact Hrange. cbn [bind].
  set (st1 := with_labels _ _).
  destruct (update_label_info_ok st1) as [st' [Hu _]].
  { intros a Hget.
    change (py_getitem
              (list_set (labels st) (Z.to_nat (selected_label st))
                 (clamp_label resized))
              (selected_label st) = Ok a) in Hget.
    rewrite py_getitem_list_set in Hget by exact Hrange.
    injection Hget as <-. cbn [angle clamp_label]. rewrite Hra. exact Hint. }
  rewrite Hu.
  assert (Hok1 : names_ok st1).
  { apply Forall_list_set; [exact Hok |].
    cbn [class_id clamp_label]. rewrite Hrc.
    exact (py_getitem_Forall _ _ _ _ Hok Hl). }
  pose proof (update_label_info_names_ok _ _ Hok1 Hu) as Hok'.
  apply update_label_info_spec in Hu as [_ Hupd].
  apply angle_update_at_nth in Hupd as (_ & _ & Hsame).
  destruct (Hsame (clamp_label resized)) as [l' [Hl' (Hc & Hx' & Hy' & Hw' & Hh')]].
  { unfold st1. simpl. apply nth_error_list_set_same. lia. }
  exists st', l'. split; [reflexivity |]. split; [exact Hl' |].
  pose proof (clamp_size_mono _ _ Hrw) as Hm1.
  pose proof (clamp_size_mono _ _ Hrh) as Hm2.
  rewrite (clamp_size_id (width orig)) in Hm1 by lra.
  rewrite (clamp_size_id (height orig)) in Hm2 by lra.
  split; [rewrite Hw'; exact Hm1 |].
  split; [rewrite Hh'; exact Hm2 |].
  split; [rewrite Hc; exact Hrc |].
  split; [| exact Hok'].
  pose proof (clamp_label_in_range resized) as Hcl.
  unfold label_in_range in *. rewrite Hx', Hy', Hw', Hh'. exact Hcl.
Qed.

Lemma corner_resize_never_shrinks_witness :
  exists st' l',
    handle_mouse_move (120, 120)
      (with_original_label (Some example_label)
         (with_resize_handle 2 (with_resizing true edit_session))) = Ok st'
    /\ nth_error (labels st') 0 = Some l'
    /\ 1 / 2 <= width l' /\ 1 / 2 <= height l'.
Proof.
  destruct (corner_resize_never_shrinks
              (with_original_label (Some example_label)
                 (with_resize_handle 2 (with_resizing true edit_session)))
              (120, 120) example_label example_label
              eq_refl eq_refl eq_refl eq_refl)
    as [st' [l' (Hrun & Hn & Hw & Hh & _)]];
    try reflexivity; try (simpl; lia).
  - unfold label_in_range. simpl. lra.
  - exact edit_session_names_ok.
  - exact example_label_angle_c_int.
  - exists st', l'. repeat split; assumption.
Defined.

(** ** Rotation and the label buttons *)

Lemma list_set_twice {A : Type} (ls : list A) (n : nat) (a b : A) :
  list_set (list_set ls n a) n b = list_set ls n b.
Proof.
  revert n. induction ls as [| x t IH]; intros n; [reflexivity |].
  destruct n; simpl; [reflexivity | rewrite IH; reflexivity].
Qed.

Lemma rotate_move_integer_angle (st : State) (p : Point) (l : Label) (k : Z) :
  drawing_mode st = false -> edit_mode st = false ->
  orientation_mode st = true -> rotating st = true ->
  (0 <= selected_label st)%Z ->
  py_getitem (labels st) (selected_label st) = Ok l ->
  (-180 <= k <= 180)%Z ->
  degrees (arctan2 (snd p - y_center l * IZR (image_height st))
             (fst p - x_center l * IZR (image_width st))) = IZR k ->
  exists st',
    handle_mouse_move p st = Ok st'
    /\ labels st'
       = list_set (labels st) (Z.to_nat (selected_label st))
           (set_angle (IZR k) l)
    /\ angle_slider st' = k.
Proof.
  intros Hdraw Hedit Horient Hrot Hsel Hl Hk Hdeg.
  destruct (py_getitem_nonneg _ _ _ Hsel Hl) as [Hnth Hrange].
  unfold handle_mouse_move.
  rewrite Hdraw, Hedit, Horient, Hrot, Hl, !andb_false_r. simpl.
  apply Z.leb_le in Hsel. rewrite Hsel. apply Z.leb_le in Hsel. simpl.
  rewrite Hdeg. unfold store_selected.
  rewrite py_setitem_in_range by exact Hrange. cbn [bind].
  rewrite py_int_of_float_IZR.
  assert (Hc : c_int k = true)
    by (unfold c_int; apply andb_true_intro; split; apply Z.leb_le; lia).
  unfold slider_setValue. rewrite Hc. simpl.
  replace (Z.max (-180) (Z.min 180 k)) with k by lia.
  destruct (k =? angle_slider st)%Z eqn:Heq.
  - apply Z.eqb_eq in Heq. eexists. split; [reflexivity |].
    split; [reflexivity | simpl; symmetry; exact Heq].
  - unfold update_angle_from_slider. simpl.
    apply Z.leb_le in Hsel. rewrite Hsel. apply Z.leb_le in Hsel.
    assert (Hk' : (Z.to_nat (selected_label st) < length (labels st))%nat)
      by lia.
    assert (Hlen : (0 <= selected_label st
                    < Z.of_nat (length (list_set (labels st)
                                          (Z.to_nat (selected_label st))
                                          (set_angle (IZR k) l))))%Z)
      by (rewrite length_list_set; exact Hrange).
    destruct (py_getitem_in_range _ _ Hlen) as [a [Ha Hna]].
    rewrite Ha. cbn [bind].
    rewrite py_setitem_in_range by exact Hlen. cbn [bind].
    rewrite nth_error_list_set_same in Hna by exact Hk'.
    injection Hna as <-.
    eexists. split; [reflexivity |]. split; [| reflexivity].
    simpl. rewrite list_set_twice. reflexivity.
Qed.

Lemma degrees_arctan2_cardinal (dx dy : R) :
  (0 < dx -> dy = 0 -> degrees (arctan2 dy dx) = 0)
  /\ (dx = 0 -> 0 < dy -> degrees (arctan2 dy dx) = 90)
  /\ (dx < 0 -> dy = 0 -> degrees (arctan2 dy dx) = 180)
  /\ (dx = 0 -> dy < 0 -> degrees (arctan2 dy dx) = -90).
Proof.
  pose proof PI_RGT_0 as Hpi.
  unfold degrees, arctan2.
  repeat split; intros H1 H2; subst.
  - destruct (Rlt_dec 0 dx); [| lra].
    unfold Rdiv at 2. rewrite Rmult_0_l, atan_0. field. lra.
  - destruct (Rlt_dec 0 0); [lra |]. destruct (Rlt_dec 0 0); [lra |].
    destruct (Rlt_dec 0 dy); [| lra]. field. lra.
  - destruct (Rlt_dec 0 dx); [lra |]. destruct (Rlt_dec dx 0); [| lra].
    destruct (Rle_dec 0 0); [| lra].
    unfold Rdiv at 2. rewrite Rmult_0_l, atan_0. field. lra.
  - destruct (Rlt_dec 0 0); [lra |]. destruct (Rlt_dec 0 0); [lra |].
    destruct (Rlt_dec 0 dy); [lra |]. destruct (Rlt_dec dy 0); [| lra].
    field. lra.
Qed.

(** X7. In Orientation mode, during a rotate gesture on the selected label,
    a pointer exactly to the right of, below, to the left of or above the
    label's centre (image pixels, y growing downwards) sets the label's
    angle to 0, 90, 180 or -90 degrees and the slider to the same value;
    every other label is left as it was. The Document is one whose class
    ids all have a name ([names_ok]), so that the refreshes of the move
    return. *)
Theorem rotate_move_cardinal_angles :
  forall (st : State) (p : Point) (l : Label),
    drawing_mode st = false -> edit_mode st = false ->
    orientation_mode st = true -> rotating st = true ->
    (0 <= selected_label st)%Z ->
    py_getitem (labels st) (selected_label st) = Ok l ->
    names_ok st ->
    let cx := x_center l * IZR (image_width st) in
    let cy := y_center l * IZR (image_height st) in
    forall k : Z,
      (cx < fst p /\ snd p = cy /\ k = 0%Z)
      \/ (fst p = cx /\ cy < snd p /\ k = 90%Z)
      \/ (fst p < cx /\ snd p = cy /\ k = 180%Z)
      \/ (fst p = cx /\ snd p < cy /\ k = (-90)%Z) ->
      exists st',
        handle_mouse_move p st = Ok st'
        /\ labels st'
           = list_set (labels st) (Z.to_nat (selected_label st))
               (set_angle (IZR k) l)
        /\ angle_slider st' = k
        /\ names_ok st'.
Proof.
  intros st p l Hdraw Hedit Horient Hrot Hsel Hl Hok cx cy k Hdir.
  enough (Hmove : exists st',
             handle_mouse_move p st = Ok st'
             /\ labels st'
                = list_set (labels st) (Z.to_nat (selected_label st))
                    (set_angle (IZR k) l)
             /\ angle_slider st' = k).
  { destruct Hmove as [st' (Hrun & Hls & Hsl)].
    exists st'. repeat split; try assumption.
    exact (handle_mouse_move_names_ok p st st' Hok Hrun). }
  apply (rotate_move_integer_angle st p l k Hdraw Hedit Horient Hrot Hsel Hl).
  - lia.
  - fold cx cy.
    destruct (degrees_arctan2_cardinal (fst p - cx) (snd p - cy))
      as (H0 & H90 & H180 & Hm90).
    destruct Hdir as [(H1 & H2 & ->) | [(H1 & H2 & ->) | [(H1 & H2 & ->)
                     | (H1 & H2 & ->)]]].
    + apply H0; lra.
    + apply H90; lra.
    + apply H180; lra.
    + apply Hm90; lra.
Qed.

Lemma rotate_move_cardinal_angles_witness :
  exists st',
    handle_mouse_move (100, 150)
      (with_rotating true (set_orientation_mode edit_session)) = Ok st'
    /\ labels st' = [set_angle 90 example_label]
    /\ angle_slider st' = 90%Z.
Proof.
  destruct (rotate_move_cardinal_angles
              (with_rotating true (set_orientation_mode edit_session))
              (100, 150) example_label eq_refl eq_refl eq_refl eq_refl
              ltac:(simpl; lia) eq_refl edit_session_names_ok 90%Z)
    as [st' (Hrun & Hls & Hsl & _)].
  - right. left. simpl. repeat split; lra.
  - exists st'. repeat split; assumption.
Defined.

(** X8. With a label selected, [update_label] changes nothing when one of
    the four fields is not a number (a plain token that [float] rejects);
    when all four are numbers, every class id of the Document has a name and
    the combo index is at least [-len(classes)], it replaces the selected
    label by the clamped field values with the combo's class and the
    slider's angle, its refreshes return, and pressing the button again with
    the same fields changes nothing more. *)
Theorem update_label_all_or_nothing :
  forall (xt yt wt ht : text) (st : State),
    (0 <= selected_label st < Z.of_nat (length (labels st)))%Z ->
    ((exists t, In t [xt; yt; wt; ht]
                /\ plain_token (py_strip t) = true
                /\ py_float (py_strip t) = Raise ValueError) ->
     update_label xt yt wt ht st = Ok st)
    /\ (forall xc yc w h,
          py_float (py_strip xt) = Ok xc -> py_float (py_strip yt) = Ok yc ->
          py_float (py_strip wt) = Ok w -> py_float (py_strip ht) = Ok h ->
          names_ok st ->
          (- Z.of_nat (length (classes st)) <= class_combo st)%Z ->
          let st' :=
            with_labels
              (list_set (labels st) (Z.to_nat (selected_label st))
                 (mkLabel (class_combo st) (clamp01 xc) (clamp01 yc)
                    (clamp_size w) (clamp_size h) (IZR (angle_slider st))))
              st in
          update_label xt yt wt ht st = Ok st'
          /\ names_ok st'
          /\ update_label xt yt wt ht st' = Ok st').
Proof.
  intros xt yt wt ht st Hsel.
  assert (H0 : (0 <=? selected_label st)%Z = true) by (apply Z.leb_le; lia).
  split.
  - intros [t [Hin [_ Hbad]]]. unfold update_label. rewrite H0.
    destruct (py_float_cases (py_strip xt)) as [[xc Hx] | Hx];
      rewrite Hx; [| reflexivity].
    destruct (py_float_cases (py_strip yt)) as [[yc Hy] | Hy];
      rewrite Hy; [| reflexivity].
    destruct (py_float_cases (py_strip wt)) as [[w Hw] | Hw];
      rewrite Hw; [| reflexivity].
    destruct (py_float_cases (py_strip ht)) as [[h Hh] | Hh];
      rewrite Hh; [| reflexivity].
    destruct Hin as [<- | [<- | [<- | [<- | []]]]]; congruence.
  - intros xc yc w h Hx Hy Hw Hh Hok Hcombo st'.
    assert (Hstep : forall s : State,
               selected_label s = selected_label st ->
               class_combo s = class_combo st ->
               angle_slider s = angle_slider st ->
               length (labels s) = length (labels st) ->
               update_label xt yt wt ht s
               = Ok (with_labels
                       (list_set (labels s) (Z.to_nat (selected_label st))
                          (mkLabel (class_combo st) (clamp01 xc) (clamp01 yc)
                             (clamp_size w) (clamp_size h)
                             (IZR (angle_slider st)))) s)).
    { intros s Hs Hc Ha Hlen. unfold update_label.
      rewrite Hs, H0, Hx, Hy, Hw, Hh. cbn [bind].
      destruct (py_getitem_in_range (labels s) (selected_label st))
        as [a [Hg _]]; [rewrite Hlen; exact Hsel |].
      rewrite Hg. cbn [bind]. unfold store_selected.
      rewrite Hs, Hc, Ha.
      rewrite py_setitem_in_range by (rewrite Hlen; exact Hsel).
      reflexivity. }
    split; [apply Hstep; reflexivity |].
    split.
    + apply Forall_list_set; [exact Hok | exact Hcombo].
    + rewrite (Hstep st') by (try reflexivity; apply length_list_set).
      unfold st'. simpl. rewrite list_set_twice. reflexivity.
Qed.

Lemma update_label_all_or_nothing_witness :
  update_label (txt "0.5") (txt "wide") (txt "0.2") (txt "0.2") edit_session
  = Ok edit_session.
Proof.
  destruct (update_label_all_or_nothing
              (txt "0.5") (txt "wide") (txt "0.2") (txt "0.2") edit_session)
    as [Hbad _]; [simpl; lia |].
  apply Hbad. exists (txt "wide").
  split; [right; left; reflexivity |]. split; reflexivity.
Defined.

(** X9. With a label selected, [delete_label] removes exactly that label:
    the sequence is one shorter, the labels before it keep their index, the
    labels after it move down by one, nothing is selected afterwards and
    the slider is back at 0 without any remaining label's angle being
    touched. The Document is one whose class ids all have a name
    ([names_ok]), so that the refreshes that precede the slider reset
    return; it is so again afterwards. *)
Theorem delete_label_removes_selected :
  forall st : State,
    (0 <= selected_label st < Z.of_nat (length (labels st)))%Z ->
    names_ok st ->
    let k := Z.to_nat (selected_label st) in
    exists st',
      delete_label st = Ok st'
      /\ labels st' = firstn k (labels st) ++ skipn (S k) (labels st)
      /\ S (length (labels st')) = length (labels st)
      /\ (forall j, (j < k)%nat ->
            nth_error (labels st') j = nth_error (labels st) j)
      /\ (forall j, (k <= j)%nat ->
            nth_error (labels st') j = nth_error (labels st) (S j))
      /\ selected_label st' = (-1)%Z
      /\ angle_slider st' = 0%Z
      /\ names_ok st'.
Proof.
  intros st Hsel Hok k.
  assert (Hk : (k < length (labels st))%nat) by (unfold k; lia).
  unfold delete_label, py_pop, clear_label_info.
  assert (H0 : (0 <=? selected_label st)%Z = true) by (apply Z.leb_le; lia).
  rewrite H0, (py_norm_index_in_range _ _ Hsel). cbn [bind]. fold k.
  unfold slider_setValue, update_angle_from_slider. simpl.
  assert (Hres : exists st',
            (if (0 =? angle_slider st)%Z
             then Ok (with_selected_label (-1)
                        (with_labels (firstn k (labels st)
                                      ++ skipn (S k) (labels st)) st))
             else Ok (with_angle_slider 0
                        (with_selected_label (-1)
                           (with_labels (firstn k (labels st)
                                         ++ skipn (S k) (labels st)) st))))
            = Ok st'
            /\ labels st' = firstn k (labels st) ++ skipn (S k) (labels st)
            /\ selected_label st' = (-1)%Z /\ angle_slider st' = 0%Z
            /\ classes st' = classes st).
  { destruct (0 =? angle_slider st)%Z eqn:E.
    - apply Z.eqb_eq in E. eexists. split; [reflexivity |].
      repeat split. simpl. symmetry. exact E.
    - eexists. split; [reflexivity |]. repeat split. }
  destruct Hres as [st' (Hrun & Hl & Hs & Ha & Hcls)].
  assert (Hok' : names_ok st').
  { unfold names_ok, class_ids_ok. rewrite Hl, Hcls.
    apply Forall_app. split;
      [exact (Forall_firstn_keep _ _ Hok k)
      | exact (Forall_skipn_keep _ _ Hok (S k))]. }
  exists st'. split; [exact Hrun |]. split; [exact Hl |].
  assert (Hfl : length (firstn k (labels st)) = k)
    by (apply firstn_length_le; lia).
  split.
  { rewrite Hl, length_app, Hfl, length_skipn. lia. }
  split.
  { intros j Hj. rewrite Hl, nth_error_app1 by lia.
    rewrite nth_error_firstn.
    destruct (Nat.ltb_spec j k) as [_ | Hge]; [reflexivity | lia]. }
  split; [| repeat split; assumption].
  intros j Hj. rewrite Hl, nth_error_app2 by lia.
  rewrite Hfl, nth_error_skipn.
  replace (S k + (j - k))%nat with (S j) by lia. reflexivity.
Qed.

Lemma delete_label_removes_selected_witness :
  exists st',
    delete_label edit_session = Ok st'
    /\ labels st' = [] /\ selected_label st' = (-1)%Z.
Proof.
  destruct (delete_label_removes_selected edit_session)
    as [st' (Hrun & Hl & _ & _ & _ & Hs & _)];
    [simpl; lia | exact edit_session_names_ok |].
  exists st'. repeat split; assumption.
Defined.

(** ** Selection, stale state and session invariants *)

Lemma py_norm_index_past_end (len : nat) (i : Z) :
  (Z.of_nat len <= i)%Z -> py_norm_index len i = None.
Proof.
  intros Hi. unfold py_norm_index.
  destruct (0 <=? i)%Z eqn:H0; [| apply Z.leb_gt in H0; lia].
  destruct (i <? Z.of_nat len)%Z eqn:H1; [apply Z.ltb_lt in H1; lia |].
  reflexivity.
Qed.

Lemma py_getitem_past_end {A : Type} (l : list A) (i : Z) :
  (Z.of_nat (length l) <= i)%Z -> py_getitem l i = Raise IndexError.
Proof.
  intros Hi. unfold py_getitem.
  rewrite (py_norm_index_past_end _ _ Hi). reflexivity.
Qed.

Lemma py_pop_past_end {A : Type} (l : list A) (i : Z) :
  (Z.of_nat (length l) <= i)%Z -> py_pop l i = Raise IndexError.
Proof.
  intros Hi. unfold py_pop.
  rewrite (py_norm_index_past_end _ _ Hi). reflexivity.
Qed.

Lemma py_int_of_float_half_25 : py_int_of_float (25 / 2) = 12%Z.
Proof.
  unfold py_int_of_float. destruct (Rle_dec 0 (25 / 2)) as [_ | H]; [| lra].
  symmetry. apply Int_part_spec. simpl. lra.
Qed.

Lemma load_yolo_labels_keeps_selection
  (label_path : text -> text -> text) (fs : file_system) (st st' : State) :
  load_yolo_labels label_path fs st = Ok st' ->
  selected_label st' = selected_label st
  /\ angle_slider st' = angle_slider st
  /\ current_image st' = current_image st
  /\ drawing_mode st' = drawing_mode st
  /\ edit_mode st' = edit_mode st.
Proof.
  unfold load_yolo_labels. simpl.
  destruct (image_files st); [intros H; injection H as <-; repeat split |].
  destruct (current_index st <? 0)%Z;
    [intros H; injection H as <-; repeat split |].
  destruct (py_getitem _ _) as [name |]; [| discriminate]. cbn [bind].
  destruct (update_labels_list _); [| discriminate]. cbn [bind].
  intros H. injection H as <-. unfold read_label_file. simpl.
  destruct (fs _); repeat split.
Qed.

(** X10. A click on row [index] of the labels list selects that label and
    moves the slider to the label's angle truncated toward zero and bounded
    to -180..180. Unless the slider already showed that value, its
    [valueChanged] slot writes it back: the selected label's angle is
    replaced by the truncated, bounded integer (12.5 becomes 12). The other
    labels are unchanged. The truncated angle fits a C [int], so that the
    slider takes it, and the Document is one whose class ids all have a name
    ([names_ok]), so that the canvas refresh that ends the click returns.
    When the truncated angle does not fit a C [int], the click raises
    [OverflowError] instead. *)
Theorem select_label_truncates_angle :
  forall (st : State) (index : Z) (l : Label),
    (0 <= index)%Z ->
    py_getitem (labels st) index = Ok l ->
    let v := Z.max (-180) (Z.min 180 (py_int_of_float (angle l))) in
    (c_int (py_int_of_float (angle l)) = true ->
     names_ok st ->
     exists st',
       select_label index st = Ok st'
       /\ selected_label st' = index
       /\ angle_slider st' = v
       /\ labels st'
          = (if (v =? angle_slider st)%Z then labels st
             else list_set (labels st) (Z.to_nat index)
                    (set_angle (IZR v) l))
       /\ names_ok st')
    /\ (c_int (py_int_of_float (angle l)) = false ->
        select_label index st = Raise OverflowError).
Proof.
  intros st index l Hi Hl v.
  destruct (py_getitem_nonneg _ _ _ Hi Hl) as [Hnth Hrange].
  assert (Hnames : forall st',
             names_ok st -> select_label index st = Ok st' -> names_ok st').
  { intros st' Hok. unfold select_label.
    destruct (_ && _)%bool; [| intros H; injection H as <-; exact Hok].
    apply update_label_info_names_ok. exact Hok. }
  assert (H0 : (0 <=? index)%Z = true) by (apply Z.leb_le; lia).
  assert (H1 : (index <? Z.of_nat (length (labels st)))%Z = true)
    by (apply Z.ltb_lt; lia).
  split.
  2: { intros Hint. unfold select_label. rewrite H0, H1. cbn [andb].
       unfold update_label_info. simpl. rewrite H0, H1, Hl. cbn [andb bind].
       unfold slider_setValue. rewrite Hint. reflexivity. }
  intros Hint Hok.
  enough (Hrun : exists st',
             select_label index st = Ok st'
             /\ selected_label st' = index
             /\ angle_slider st' = v
             /\ labels st'
                = (if (v =? angle_slider st)%Z then labels st
                   else list_set (labels st) (Z.to_nat index)
                          (set_angle (IZR v) l))).
  { destruct Hrun as [st' (Hrun & Hs & Ha & Hls)].
    exists st'. repeat split; try assumption.
    exact (Hnames st' Hok Hrun). }
  clear Hnames.
  unfold select_label. rewrite H0, H1. cbn [andb].
  unfold update_label_info. simpl. rewrite H0, H1, Hl. cbn [andb bind].
  unfold slider_setValue. rewrite Hint. simpl. fold v.
  destruct (v =? angle_slider st)%Z eqn:E.
  - apply Z.eqb_eq in E. cbn [bind]. simpl.
    destruct (class_id l <? _)%Z; eexists;
      (split; [reflexivity |]); simpl; repeat split; symmetry; exact E.
  - unfold update_angle_from_slider. simpl. rewrite H0, Hl. cbn [bind].
    rewrite py_setitem_in_range by exact Hrange. cbn [bind]. simpl.
    destruct (class_id l <? _)%Z; eexists;
      (split; [reflexivity |]); simpl; repeat split.
Qed.

Lemma select_label_truncates_angle_witness :
  exists st',
    select_label 0 tilted_session = Ok st'
    /\ labels st' = [set_angle 12 example_label].
Proof.
  destruct (select_label_truncates_angle tilted_session 0
              (set_angle (25 / 2) example_label))
    as [Hfits _]; [lia | reflexivity |].
  destruct Hfits as [st' (Hrun & _ & _ & Hl & _)].
  - cbn [angle set_angle]. rewrite py_int_of_float_half_25. reflexivity.
  - constructor; [simpl; lia | constructor].
  - exists st'. split; [exact Hrun |].
    rewrite Hl. cbn [angle set_angle]. rewrite py_int_of_float_half_25.
    reflexivity.
Defined.

(** X11. [load_yolo_labels] replaces the labels but keeps [selected_label].
    When the loaded sequence is too short for the kept selection, the next
    Delete, the next slider change, the next press in Edit mode on a loaded
    image and the next Update Label with four numeric fields each raise
    [IndexError] (a [setValue] outside the C [int] range, which the slider
    itself never sends, raises [OverflowError] first). *)
Theorem stale_selection_raises_IndexError :
  forall (label_path : text -> text -> text) (fs : file_system)
         (st st' : State),
    load_yolo_labels label_path fs st = Ok st' ->
    (Z.of_nat (length (labels st')) <= selected_label st)%Z ->
    selected_label st' = selected_label st
    /\ delete_label st' = Raise IndexError
    /\ (forall v : Z,
          Z.max (-180) (Z.min 180 v) <> angle_slider st' ->
          slider_setValue v st'
          = Raise (if c_int v then IndexError else OverflowError))
    /\ (forall p : Point,
          current_image st' = true -> drawing_mode st' = false ->
          edit_mode st' = true ->
          handle_mouse_press p st' = Raise IndexError)
    /\ (forall (xt yt wt ht : text) (xc yc w h : R),
          py_float (py_strip xt) = Ok xc -> py_float (py_strip yt) = Ok yc ->
          py_float (py_strip wt) = Ok w -> py_float (py_strip ht) = Ok h ->
          update_label xt yt wt ht st' = Raise IndexError).
Proof.
  intros label_path fs st st' Hload Hlen.
  destruct (load_yolo_labels_keeps_selection _ _ _ _ Hload)
    as (Hsel & _).
  rewrite <- Hsel in Hlen.
  assert (H0 : (0 <=? selected_label st')%Z = true) by (apply Z.leb_le; lia).
  split; [exact Hsel |]. split; [| split; [| split]].
  - unfold delete_label. rewrite H0, (py_pop_past_end _ _ Hlen). reflexivity.
  - intros v Hv. unfold slider_setValue.
    destruct (c_int v); [| reflexivity].
    destruct (_ =? _)%Z eqn:E; [apply Z.eqb_eq in E; contradiction |].
    unfold update_angle_from_slider. simpl.
    rewrite H0, (py_getitem_past_end _ _ Hlen). reflexivity.
  - intros p Himg Hdraw Hedit. unfold handle_mouse_press.
    rewrite Himg, Hdraw, Hedit, H0. cbn [andb].
    rewrite (py_getitem_past_end _ _ Hlen). reflexivity.
  - intros xt yt wt ht xc yc w h Hx Hy Hw Hh. unfold update_label.
    rewrite H0, Hx, Hy, Hw, Hh. cbn [bind].
    rewrite (py_getitem_past_end _ _ Hlen). reflexivity.
Qed.

Lemma stale_selection_raises_IndexError_witness :
  exists st',
    load_yolo_labels example_label_path empty_fs selected_file_session
    = Ok st'
    /\ selected_label st' = 0%Z
    /\ delete_label st' = Raise IndexError.
Proof.
  eexists. split; [reflexivity |].
  destruct (stale_selection_raises_IndexError example_label_path empty_fs
              selected_file_session _ eq_refl)
    as (Hsel & Hdel & _); [simpl; lia |].
  split; [exact Hsel | exact Hdel].
Defined.

Lemma kept_refl (a : State) : kept a a.
Proof. split; [repeat split | trivial]. Qed.

Lemma kept_trans (a b c : State) : kept a b -> kept b c -> kept a c.
Proof.
  intros [(H1 & H2 & H3) Hg] [(K1 & K2 & K3) Kg].
  split; [repeat split; congruence | auto].
Qed.

Lemma kept_of_feedback (a b : State) :
  erase_feedback b = erase_feedback a -> kept a b.
Proof.
  intros H. split.
  - repeat split.
    + exact (f_equal drawing_mode H).
    + exact (f_equal edit_mode H).
    + exact (f_equal orientation_mode H).
  - unfold gesture_snapshot_ok.
    rewrite (f_equal dragging H : dragging b = dragging a).
    rewrite (f_equal resizing H : resizing b = resizing a).
    rewrite (f_equal original_label H : original_label b = original_label a).
    trivial.
Qed.

Lemma store_selected_feedback (l : Label) (st st' : State) :
  store_selected l st = Ok st' -> erase_feedback st' = erase_feedback st.
Proof.
  unfold store_selected. destruct (py_setitem _ _ _); [| discriminate].
  cbn [bind]. intros H. injection H as <-. reflexivity.
Qed.

Lemma handle_mouse_press_kept (p : Point) (st st' : State) :
  handle_mouse_press p st = Ok st' -> kept st st'.
Proof.
  unfold handle_mouse_press. intros H.
  destruct (current_image st); [| injection H as <-; apply kept_refl].
  destruct (drawing_mode st) eqn:Hd.
  { injection H as <-. split; [repeat split | trivial]. }
  destruct (edit_mode st && (0 <=? selected_label st)%Z)%bool.
  { destruct (py_getitem _ _) as [l |]; [| discriminate]. cbn [bind] in H.
    destruct (find_first _ _ _).
    - injection H as <-. split; [repeat split |].
      intros _. unfold gesture_snapshot_ok. simpl. auto using orb_true_r.
    - destruct (QRectF_contains _ _ _).
      + injection H as <-. split; [repeat split |].
        intros _. unfold gesture_snapshot_ok. simpl. auto using orb_true_r.
      + destruct (find_first _ _ _); [| injection H as <-; apply kept_refl].
        apply update_label_info_spec in H as [H _].
        apply kept_of_feedback in H.
        eapply kept_trans; [| exact H]. split; [repeat split | trivial]. }
  destruct (orientation_mode st && (0 <=? selected_label st)%Z)%bool;
    injection H as <-; [split; [repeat split | trivial] | apply kept_refl].
Qed.

Lemma handle_mouse_move_kept (p : Point) (st st' : State) :
  handle_mouse_move p st = Ok st' -> kept st st'.
Proof.
  unfold handle_mouse_move. intros H.
  destruct (drawing st && drawing_mode st)%bool.
  { injection H as <-. split; [repeat split | trivial]. }
  destruct (dragging st && edit_mode st && (0 <=? selected_label st)%Z)%bool.
  { destruct (py_getitem _ _) as [l |]; [| discriminate]. cbn [bind] in H.
    destruct (get_original_label st); [| discriminate]. cbn [bind] in H.
    destruct (py_truediv _ _); [| discriminate]. cbn [bind] in H.
    destruct (py_truediv _ _); [| discriminate]. cbn [bind] in H.
    destruct (store_selected _ _) as [st1 |] eqn:Hs; [| discriminate].
    cbn [bind] in H. apply store_selected_feedback in Hs.
    apply update_label_info_spec in H as [H _].
    apply kept_of_feedback. congruence. }
  destruct (resizing st && edit_mode st && (0 <=? selected_label st)%Z)%bool.
  { destruct (py_getitem _ _) as [l |]; [| discriminate]. cbn [bind] in H.
    destruct (get_original_label st); [| discriminate]. cbn [bind] in H.
    destruct (resize_label _ _ _ _ _ _ _); [| discriminate]. cbn [bind] in H.
    destruct (store_selected _ _) as [st1 |] eqn:Hs; [| discriminate].
    cbn [bind] in H. apply store_selected_feedback in Hs.
    apply update_label_info_spec in H as [H _].
    apply kept_of_feedback. congruence. }
  destruct (rotating st && orientation_mode st
            && (0 <=? selected_label st)%Z)%bool;
    [| injection H as <-; apply kept_refl].
  destruct (py_getitem _ _) as [l |]; [| discriminate]. cbn [bind] in H.
  destruct (store_selected _ _) as [st1 |] eqn:Hs; [| discriminate].
  cbn [bind] in H. apply store_selected_feedback in Hs.
  apply slider_setValue_spec in H as [H _].
  apply kept_of_feedback. congruence.
Qed.

Lemma handle_mouse_release_kept (st st' : State) :
  handle_mouse_release st = Ok st' -> kept st st'.
Proof.
  unfold handle_mouse_release. intros H.
  destruct (drawing st && temp_rect_truthy st && drawing_mode st)%bool.
  - destruct (temp_rect st); [| injection H as <-; apply kept_refl].
    destruct (py_truediv _ _); [| discriminate]. cbn [bind] in H.
    destruct (py_truediv _ _); [| discriminate]. cbn [bind] in H.
    destruct (py_truediv _ _); [| discriminate]. cbn [bind] in H.
    destruct (py_truediv _ _); [| discriminate]. cbn [bind] in H.
    injection H as <-. split; [repeat split | trivial].
  - injection H as <-. split; [repeat split | reflexivity].
Qed.

Lemma execute_kept (c : command) (st st' : State) :
  execute c st = Ok st' ->
  match c with
  | DrawMode | EditMode | OrientationMode =>
      exactly_one_mode st' = true
      /\ (gesture_snapshot_ok st = true -> gesture_snapshot_ok st' = true)
  | _ => kept st st'
  end.
Proof.
  intros H. destruct c as [e | xt yt wt ht | | reply | index | v
                          | row reply | name | | |]; simpl in H.
  - destruct e as [p | p | p]; simpl in H.
    + exact (handle_mouse_press_kept p st st' H).
    + exact (handle_mouse_move_kept p st st' H).
    + exact (handle_mouse_release_kept st st' H).
  - unfold update_label in H.
    destruct (0 <=? selected_label st)%Z;
      [| injection H as <-; apply kept_refl].
    destruct (py_float _) as [xc | e1];
      [| destruct e1; try discriminate; injection H as <-; apply kept_refl].
    destruct (py_float _) as [yc | e2];
      [| destruct e2; try discriminate; injection H as <-; apply kept_refl].
    destruct (py_float _) as [w | e3];
      [| destruct e3; try discriminate; injection H as <-; apply kept_refl].
    destruct (py_float _) as [h | e4];
      [| destruct e4; try discriminate; injection H as <-; apply kept_refl].
    cbn [bind] in H.
    destruct (py_getitem _ _) as [l | e5];
      [| destruct e5; try discriminate; injection H as <-; apply kept_refl].
    cbn [bind] in H.
    destruct (store_selected _ _) as [st1 | e6] eqn:Hs;
      [| destruct e6; try discriminate; injection H as <-; apply kept_refl].
    injection H as <-. apply kept_of_feedback.
    exact (store_selected_feedback _ _ _ Hs).
  - unfold delete_label in H.
    destruct (0 <=? selected_label st)%Z;
      [| injection H as <-; apply kept_refl].
    destruct (py_pop _ _) as [ls |]; [| discriminate]. cbn [bind] in H.
    apply slider_setValue_spec in H as [H _]. apply kept_of_feedback in H.
    eapply kept_trans; [| exact H]. split; [repeat split | trivial].
  - unfold clear_all_labels in H.
    destruct (labels st); [injection H as <-; apply kept_refl |].
    destruct reply; [| injection H as <-; apply kept_refl].
    apply slider_setValue_spec in H as [H _]. apply kept_of_feedback in H.
    eapply kept_trans; [| exact H]. split; [repeat split | trivial].
  - unfold select_label in H.
    destruct (_ && _)%bool; [| injection H as <-; apply kept_refl].
    apply update_label_info_spec in H as [H _]. apply kept_of_feedback in H.
    eapply kept_trans; [| exact H]. split; [repeat split | trivial].
  - apply slider_setValue_spec in H as [H _]. apply kept_of_feedback.
    exact H.
  - unfold remove_class in H.
    destruct (0 <=? row)%Z; [| injection H as <-; apply kept_refl].
    destruct (py_getitem _ _); [| discriminate]. cbn [bind] in H.
    destruct reply; [| injection H as <-; apply kept_refl].
    destruct (py_pop _ _); [| discriminate].
    injection H as <-. split; [repeat split | trivial].
  - injection H as <-. unfold add_class.
    destruct name as [[| ch n] |]; try apply kept_refl.
    split; [repeat split | trivial].
  - injection H as <-. split; [reflexivity | trivial].
  - injection H as <-. split; [reflexivity | trivial].
  - injection H as <-. split; [reflexivity | trivial].
Qed.

Lemma bind_not_attr {A B : Type} (m : result A) (k : A -> result B) :
  m <> Raise AttributeError ->
  (forall a, m = Ok a -> k a <> Raise AttributeError) ->
  bind m k <> Raise AttributeError.
Proof.
  destruct m as [a | e]; simpl; intros Hm Hk; [exact (Hk a eq_refl) |].
  intros H. injection H as ->. apply Hm. reflexivity.
Qed.

Lemma py_getitem_not_attr {A : Type} (l : list A) (i : Z) :
  py_getitem l i <> Raise AttributeError.
Proof.
  unfold py_getitem. destruct (py_norm_index _ _); [| discriminate].
  destruct (nth_error _ _); discriminate.
Qed.

Lemma py_setitem_not_attr {A : Type} (l : list A) (i : Z) (a : A) :
  py_setitem l i a <> Raise AttributeError.
Proof. unfold py_setitem. destruct (py_norm_index _ _); discriminate. Qed.

Lemma py_pop_not_attr {A : Type} (l : list A) (i : Z) :
  py_pop l i <> Raise AttributeError.
Proof. unfold py_pop. destruct (py_norm_index _ _); discriminate. Qed.

Lemma py_truediv_not_attr (a b : R) : py_truediv a b <> Raise AttributeError.
Proof. unfold py_truediv. destruct (Req_dec_T b 0); discriminate. Qed.

Lemma py_min_list_not_attr (xs : list R) :
  py_min_list xs <> Raise AttributeError.
Proof. destruct xs; discriminate. Qed.

Lemma py_max_list_not_attr (xs : list R) :
  py_max_list xs <> Raise AttributeError.
Proof. destruct xs; discriminate. Qed.

Lemma py_float_not_attr (s : text) : py_float s <> Raise AttributeError.
Proof. destruct (py_float_cases s) as [[x ->] | ->]; discriminate. Qed.

Ltac not_attr :=
  repeat first
    [ discriminate
    | apply py_getitem_not_attr
    | apply py_setitem_not_attr
    | apply py_pop_not_attr
    | apply py_truediv_not_attr
    | apply py_min_list_not_attr
    | apply py_max_list_not_attr
    | apply py_float_not_attr
    | apply bind_not_attr; [| intros ? _]
    | match goal with
      | |- (if ?c then _ else _) <> _ => destruct c
      end ].

Lemma store_selected_not_attr (l : Label) (st : State) :
  store_selected l st <> Raise AttributeError.
Proof. unfold store_selected. not_attr. Qed.

Lemma update_angle_from_slider_not_attr (st : State) :
  update_angle_from_slider st <> Raise AttributeError.
Proof. unfold update_angle_from_slider. not_attr. Qed.

Lemma slider_setValue_not_attr (v : Z) (st : State) :
  slider_setValue v st <> Raise AttributeError.
Proof.
  unfold slider_setValue. cbv zeta. not_attr.
  apply update_angle_from_slider_not_attr.
Qed.

Lemma update_label_info_not_attr (st : State) :
  update_label_info st <> Raise AttributeError.
Proof.
  unfold update_label_info. not_attr. apply slider_setValue_not_attr.
Qed.

Lemma resize_label_not_attr (x y iw ih : R) (handle : Z) (o l : Label) :
  resize_label x y iw ih handle o l <> Raise AttributeError.
Proof. unfold resize_label. cbv zeta. not_attr. Qed.

Lemma get_original_label_ok (st : State) :
  gesture_snapshot_ok st = true ->
  (dragging st || resizing st)%bool = true ->
  get_original_label st <> Raise AttributeError.
Proof.
  unfold gesture_snapshot_ok, get_original_label. intros H Hg.
  rewrite Hg in H. destruct (original_label st); [discriminate |].
  discriminate H.
Qed.

Lemma handle_mouse_press_not_attr (p : Point) (st : State) :
  handle_mouse_press p st <> Raise AttributeError.
Proof.
  unfold handle_mouse_press. cbv zeta. not_attr.
  destruct (find_first _ _ _); [discriminate |]. not_attr.
  destruct (find_first _ _ _); [| discriminate].
  apply update_label_info_not_attr.
Qed.

Lemma handle_mouse_move_not_attr (p : Point) (st : State) :
  gesture_snapshot_ok st = true ->
  handle_mouse_move p st <> Raise AttributeError.
Proof.
  intros Hg. unfold handle_mouse_move. cbv zeta.
  destruct (drawing st && drawing_mode st)%bool; [discriminate |].
  destruct (dragging st && edit_mode st && (0 <=? selected_label st)%Z)%bool
    eqn:Hd.
  { apply andb_prop in Hd as [Hd _]. apply andb_prop in Hd as [Hd _].
    apply bind_not_attr; [apply py_getitem_not_attr | intros l _].
    apply bind_not_attr;
      [apply (get_original_label_ok st Hg); rewrite Hd; reflexivity
      | intros o _].
    apply bind_not_attr; [apply py_truediv_not_attr | intros nx _].
    apply bind_not_attr; [apply py_truediv_not_attr | intros ny _].
    apply bind_not_attr; [apply store_selected_not_attr | intros s _].
    apply update_label_info_not_attr. }
  destruct (resizing st && edit_mode st && (0 <=? selected_label st)%Z)%bool
    eqn:Hr.
  { apply andb_prop in Hr as [Hr _]. apply andb_prop in Hr as [Hr _].
    apply bind_not_attr; [apply py_getitem_not_attr | intros l _].
    apply bind_not_attr;
      [apply (get_original_label_ok st Hg); rewrite Hr; apply orb_true_r
      | intros o _].
    apply bind_not_attr; [apply resize_label_not_attr | intros r _].
    apply bind_not_attr; [apply store_selected_not_attr | intros s _].
    apply update_label_info_not_attr. }
  destruct (rotating st && orientation_mode st
            && (0 <=? selected_label st)%Z)%bool; [| discriminate].
  apply bind_not_attr; [apply py_getitem_not_attr | intros l _].
  apply bind_not_attr; [apply store_selected_not_attr | intros s _].
  apply slider_setValue_not_attr.
Qed.

Lemma handle_mouse_release_not_attr (st : State) :
  handle_mouse_release st <> Raise AttributeError.
Proof.
  unfold handle_mouse_release. cbv zeta.
  destruct (_ && _)%bool; [| discriminate].
  destruct (temp_rect st); [| discriminate]. not_attr.
Qed.

Lemma execute_not_attr (c : command) (st : State) :
  gesture_snapshot_ok st = true -> execute c st <> Raise AttributeError.
Proof.
  intros Hg. destruct c as [e | xt yt wt ht | | reply | index | v
                           | row reply | name | | |]; simpl;
    try discriminate.
  - destruct e as [p | p | p]; simpl.
    + apply handle_mouse_press_not_attr.
    + apply handle_mouse_move_not_attr. exact Hg.
    + apply handle_mouse_release_not_attr.
  - unfold update_label.
    destruct (0 <=? selected_label st)%Z; [| discriminate].
    destruct (py_float_cases (py_strip xt)) as [[xc Hx] | Hx];
      rewrite Hx; [| simpl; discriminate].
    destruct (py_float_cases (py_strip yt)) as [[yc Hy] | Hy];
      rewrite Hy; [| simpl; discriminate].
    destruct (py_float_cases (py_strip wt)) as [[w Hw] | Hw];
      rewrite Hw; [| simpl; discriminate].
    destruct (py_float_cases (py_strip ht)) as [[h Hh] | Hh];
      rewrite Hh; [| simpl; discriminate].
    cbn [bind].
    destruct (py_getitem _ _) as [l | e5] eqn:H5; cbn [bind].
    + destruct (store_selected _ _) as [s | e6] eqn:H6; [discriminate |].
      destruct e6; try discriminate.
      exfalso. exact (store_selected_not_attr _ _ H6).
    + destruct e5; try discriminate.
      exfalso. exact (py_getitem_not_attr _ _ H5).
  - unfold delete_label, clear_label_info. not_attr.
    apply slider_setValue_not_attr.
  - unfold clear_all_labels, clear_label_info.
    destruct (labels st); [discriminate |]. not_attr.
    apply slider_setValue_not_attr.
  - unfold select_label. not_attr. apply update_label_info_not_attr.
  - apply slider_setValue_not_attr.
  - unfold remove_class. not_attr.
Qed.

(** X12. [__init__] never assigns [self.original_label], which the drag and
    resize branches of [handle_mouse_move] read. No session raises
    [AttributeError] for it: from a state in which a drag or resize in
    progress has its snapshot (the initial state has no gesture in
    progress), every sequence of commands keeps that property, and no
    command of the sequence raises [AttributeError]. *)
Theorem sessions_never_raise_AttributeError :
  forall (cs : list command) (st : State),
    gesture_snapshot_ok st = true ->
    run_commands cs st <> Raise AttributeError
    /\ (forall st' : State,
          run_commands cs st = Ok st' -> gesture_snapshot_ok st' = true).
Proof.
  induction cs as [| c rest IH]; intros st Hg.
  - split; [discriminate |]. intros st' H. injection H as <-. exact Hg.
  - simpl. destruct (execute c st) as [st1 | e] eqn:Hc.
    + cbn [bind]. apply IH.
      pose proof (execute_kept c st st1 Hc) as Hk.
      destruct c; try (destruct Hk as [_ Hk]; exact (Hk Hg)).
    + cbn [bind]. split; [| discriminate].
      intros H. injection H as ->. exact (execute_not_attr c st Hg Hc).
Qed.

Lemma sessions_never_raise_AttributeError_witness :
  gesture_snapshot_ok edit_session = true
  /\ run_commands
       [Pointer (PointerDown (100, 100)); Pointer (PointerMove (120, 110));
        Pointer (PointerUp (120, 110)); DeleteLabel]
       edit_session <> Raise AttributeError.
Proof.
  split; [reflexivity |].
  exact (proj1 (sessions_never_raise_AttributeError
                  [Pointer (PointerDown (100, 100));
                   Pointer (PointerMove (120, 110));
                   Pointer (PointerUp (120, 110)); DeleteLabel]
                  edit_session eq_refl)).
Defined.

(** X13. Exactly one of [drawing_mode], [edit_mode] and [orientation_mode]
    is set throughout a session: the three mode buttons set one flag and
    clear the other two, and no pointer event, label button, list click,
    slider change or class button changes a mode flag. *)
Theorem sessions_keep_one_mode :
  forall (cs : list command) (st st' : State),
    exactly_one_mode st = true ->
    run_commands cs st = Ok st' ->
    exactly_one_mode st' = true.
Proof.
  induction cs as [| c rest IH]; intros st st' Hm H.
  - injection H as <-. exact Hm.
  - simpl in H. destruct (execute c st) as [st1 |] eqn:Hc; [| discriminate].
    cbn [bind] in H. apply (IH st1 st'); [| exact H].
    pose proof (execute_kept c st st1 Hc) as Hk.
    assert (Hsame : same_modes st st1 -> exactly_one_mode st1 = true).
    { intros (H1 & H2 & H3). unfold exactly_one_mode.
      rewrite H1, H2, H3. exact Hm. }
    destruct c; try (apply Hsame; exact (proj1 Hk)); exact (proj1 Hk).
Qed.

Lemma sessions_keep_one_mode_witness :
  exists st',
    run_commands
      [Pointer (PointerDown (10, 10)); EditMode; AddClass (Some (txt "car"))]
      draw_session = Ok st'
    /\ edit_mode st' = true
    /\ exactly_one_mode st' = true.
Proof.
  eexists. split; [reflexivity |]. split; [reflexivity |].
  apply (sessions_keep_one_mode
           [Pointer (PointerDown (10, 10)); EditMode;
            AddClass (Some (txt "car"))]
           draw_session _ eq_refl eq_refl).
Defined.

(** ** Class names, class files and navigation *)

(** X14. The class name that the labels list and the canvas put on a label
    is looked up with only an upper guard on the class id. With n classes,
    an id in [0,n) reads the class list from the front, an id in [-n,0)
    reads it from the back, an id of n or more is shown as "Class id", and
    an id below -n makes the refresh raise [IndexError]; the handlers call
    the refresh after they have changed the state. *)
Theorem labels_list_names_or_IndexError :
  forall st : State,
    let n := Z.of_nat (length (classes st)) in
    (Forall (fun l => (- n <= class_id l)%Z) (labels st) ->
     exists names,
       update_labels_list st = Ok names
       /\ Forall2 (shown_as (classes st)) (labels st) names)
    /\ (Exists (fun l => (class_id l < - n)%Z) (labels st) ->
        update_labels_list st = Raise IndexError).
Proof.
  intros st n. unfold update_labels_list. subst n.
  generalize (classes st) as cls. intros cls.
  induction (labels st) as [| l rest [IHok IHbad]]; split.
  - intros _. exists []. split; [reflexivity | constructor].
  - intros H. inversion H.
  - intros H. inversion H as [| ? ? Hl Hrest]; subst.
    destruct (class_name_shown cls l Hl) as [name [Hc Hs]].
    destruct (IHok Hrest) as [names [Hn Hf]].
    exists (name :: names). cbn [label_names]. rewrite Hc, Hn.
    split; [reflexivity | constructor; assumption].
  - intros H. cbn [label_names].
    destruct (class_name cls (class_id l)) as [name | e] eqn:Hc; cbn [bind].
    + inversion H as [? ? Hl | ? ? Hrest]; subst.
      * unfold class_name in Hc.
        destruct (_ <? _)%Z eqn:Hlt; [| apply Z.ltb_ge in Hlt; lia].
        rewrite (py_getitem_before_start _ _ Hl) in Hc. discriminate.
      * rewrite (IHbad Hrest). reflexivity.
    + rewrite (class_name_raises _ _ _ Hc). reflexivity.
Qed.

Lemma labels_list_names_or_IndexError_witness :
  update_labels_list named_session
  = Ok [txt "cat"; txt "dog"; txt "Class 5"]
  /\ update_labels_list (with_classes [] named_session) = Raise IndexError.
Proof.
  split; [reflexivity |].
  apply (labels_list_names_or_IndexError (with_classes [] named_session)).
  simpl. apply Exists_cons_tl. apply Exists_cons_hd. simpl. lia.
Defined.

Lemma nth_error_remove {A : Type} (l : list A) (k j : nat) :
  (k < length l)%nat ->
  nth_error (firstn k l ++ skipn (S k) l) j
  = if (j <? k)%nat then nth_error l j else nth_error l (S j).
Proof.
  intros Hk.
  assert (Hfl : length (firstn k l) = k) by (apply firstn_length_le; lia).
  destruct (Nat.ltb_spec j k) as [Hj | Hj].
  - rewrite nth_error_app1 by lia. rewrite nth_error_firstn.
    destruct (Nat.ltb_spec j k); [reflexivity | lia].
  - rewrite nth_error_app2 by lia. rewrite Hfl, nth_error_skipn.
    replace (S k + (j - k))%nat with (S j) by lia. reflexivity.
Qed.

Lemma length_remove {A : Type} (l : list A) (k : nat) :
  (k < length l)%nat ->
  S (length (firstn k l ++ skipn (S k) l)) = length l.
Proof.
  intros Hk. rewrite length_app, firstn_length_le, length_skipn by lia. lia.
Qed.

Lemma py_getitem_nth {A : Type} (l l' : list A) (i i' : Z) :
  (0 <= i < Z.of_nat (length l))%Z ->
  (0 <= i' < Z.of_nat (length l'))%Z ->
  nth_error l (Z.to_nat i) = nth_error l' (Z.to_nat i') ->
  py_getitem l i = py_getitem l' i'.
Proof.
  intros Hi Hi' Hn.
  destruct (py_getitem_in_range l i Hi) as [a [Ha Hna]].
  destruct (py_getitem_in_range l' i' Hi') as [a' [Ha' Hna']].
  rewrite Ha, Ha'. congruence.
Qed.

(** X15. Removing the class at [row] leaves the class ids of the labels
    alone and so renames them: an id below [row] keeps its name, an id
    from [row] up to the last but one takes the name of the next class,
    and the last id is shown as "Class id". *)
Theorem remove_class_shifts_names :
  forall (row : Z) (st st' : State),
    (0 <= row)%Z ->
    remove_class row true st = Ok st' ->
    let n := Z.of_nat (length (classes st)) in
    (row < n)%Z
    /\ (forall cid : Z,
          (0 <= cid < row)%Z ->
          class_name (classes st') cid = class_name (classes st) cid)
    /\ (forall cid : Z,
          (row <= cid < n - 1)%Z ->
          class_name (classes st') cid = class_name (classes st) (cid + 1))
    /\ class_name (classes st') (n - 1)
       = Ok (txt "Class " ++ py_str_int (n - 1)).
Proof.
  intros row st st' Hrow H n.
  unfold remove_class in H.
  apply Z.leb_le in Hrow. rewrite Hrow in H. apply Z.leb_le in Hrow.
  destruct (py_getitem (classes st) row) as [name |] eqn:Hg;
    [| discriminate].
  apply (py_getitem_nonneg _ _ _ Hrow) in Hg as [_ Hrange].
  cbn [bind] in H. unfold py_pop in H.
  rewrite (py_norm_index_in_range _ _ Hrange) in H. cbn [bind] in H.
  set (k := Z.to_nat row) in *. set (cls := classes st) in *.
  set (cls' := firstn k cls ++ skipn (S k) cls) in *.
  assert (Hcls : classes st' = cls') by (injection H as <-; reflexivity).
  rewrite Hcls. clear H Hcls.
  assert (Hk : (k < length cls)%nat) by (unfold k; lia).
  pose proof (length_remove cls k Hk) as Hlen. fold cls' in Hlen.
  assert (Hn' : Z.of_nat (length cls') = (n - 1)%Z) by (unfold n; lia).
  split; [exact (proj2 Hrange) |]. split; [| split].
  - intros cid Hc. unfold class_name. rewrite Hn'. fold n.
    destruct (Z.ltb_spec cid (n - 1)); [| lia].
    destruct (Z.ltb_spec cid n); [| lia].
    apply py_getitem_nth; [lia | unfold n in *; lia |].
    unfold cls'. rewrite (nth_error_remove cls k _ Hk).
    destruct (Nat.ltb_spec (Z.to_nat cid) k); [reflexivity | unfold k in *; lia].
  - intros cid Hc. unfold class_name. rewrite Hn'. fold n.
    destruct (Z.ltb_spec cid (n - 1)); [| lia].
    destruct (Z.ltb_spec (cid + 1) n); [| lia].
    apply py_getitem_nth; [lia | unfold n in *; lia |].
    unfold cls'. rewrite (nth_error_remove cls k _ Hk).
    destruct (Nat.ltb_spec (Z.to_nat cid) k); [unfold k in *; lia |].
    f_equal. lia.
  - unfold class_name. rewrite Hn'.
    destruct (Z.ltb_spec (n - 1) (n - 1)); [lia | reflexivity].
Qed.

Lemma remove_class_shifts_names_witness :
  class_name (classes two_class_session) 0 = Ok (txt "cat")
  /\ exists st',
       remove_class 0 true two_class_session = Ok st'
       /\ class_name (classes st') 0 = Ok (txt "dog")
       /\ class_name (classes st') 1 = Ok (txt "Class 1").
Proof.
  split; [reflexivity |]. eexists. split; [reflexivity |].
  destruct (remove_class_shifts_names 0 two_class_session _
              ltac:(lia) eq_refl) as (_ & _ & Hshift & Hlast).
  split; [rewrite (Hshift 0%Z ltac:(simpl; lia)); reflexivity | exact Hlast].
Defined.

Lemma near_point_dist2 (pos q : Point) :
  near_point (fst pos) (snd pos) q = true <-> dist2 pos q < 100.
Proof.
  unfold near_point, dist2.
  set (d := (fst pos - fst q) ^ 2 + (snd pos - snd q) ^ 2).
  assert (Hd : 0 <= d).
  { unfold d. pose proof (pow2_ge_0 (fst pos - fst q)).
    pose proof (pow2_ge_0 (snd pos - snd q)). lra. }
  destruct (Rlt_dec (sqrt d) 10) as [Hs | Hs]; split; intros H;
    try reflexivity; try discriminate.
  - apply sqrt_lt_10. exact Hs.
  - exfalso. apply Hs.
    replace 10 with (sqrt (10 * 10)) by (apply sqrt_square; lra).
    apply sqrt_lt_1_alt. lra.
Qed.

Lemma existsb_near_point (pos : Point) (pts : list Point) :
  existsb (near_point (fst pos) (snd pos)) pts = true
  <-> exists q, In q pts /\ dist2 pos q < 100.
Proof.
  rewrite existsb_exists. split; intros [q [Hin Hq]]; exists q;
    (split; [exact Hin |]); apply near_point_dist2; exact Hq.
Qed.

(** X16. [check_near_existing_points] selects the first label that has a
    rotated corner or its centre at a distance below 10 pixels from the
    press, refreshes the labels list and switches to Edit mode; the refresh
    returns when every class id of the Document has a name ([names_ok]) and
    raises [IndexError] otherwise, before the mode is switched. When no
    label has such a point the state is unchanged. *)
Theorem check_near_existing_points_selects_first :
  forall (pos : Point) (st : State),
    let iw := IZR (image_width st) in
    let ih := IZR (image_height st) in
    let near (l : Label) :=
      exists q, In q (label_points iw ih l) /\ dist2 pos q < 100 in
    (forall (i : nat) (l : Label),
        nth_error (labels st) i = Some l -> near l ->
        (forall (j : nat) (lj : Label),
            (j < i)%nat -> nth_error (labels st) j = Some lj -> ~ near lj) ->
        (names_ok st ->
         check_near_existing_points pos st
         = Ok (set_edit_mode (with_selected_label (Z.of_nat i) st)))
        /\ (~ names_ok st ->
            check_near_existing_points pos st = Raise IndexError))
    /\ ((forall l : Label, In l (labels st) -> ~ near l) ->
        check_near_existing_points pos st = Ok st).
Proof.
  intros pos st iw ih near. unfold check_near_existing_points.
  fold iw ih. split.
  - intros i l Hl Hnear Hbefore.
    rewrite (find_first_hit _ (labels st) 0 i l Hl).
    + cbv zeta. unfold update_labels_list.
      change (classes (with_selected_label (0 + Z.of_nat i) st))
        with (classes st).
      change (labels (with_selected_label (0 + Z.of_nat i) st))
        with (labels st).
      split.
      * intros Hok. destruct (label_names_ok _ _ Hok) as [names Hn].
        rewrite Hn. reflexivity.
      * intros Hbad. apply class_ids_bad in Hbad.
        rewrite (label_names_bad _ _ Hbad). reflexivity.
    + apply existsb_near_point. exact Hnear.
    + intros j lj Hj Hlj.
      destruct (existsb _ (label_points iw ih lj)) eqn:E; [| reflexivity].
      exfalso. apply (Hbefore j lj Hj Hlj).
      apply existsb_near_point. exact E.
  - intros Hnone. rewrite find_first_miss; [reflexivity |].
    intros l Hl.
    destruct (existsb _ (label_points iw ih l)) eqn:E; [| reflexivity].
    exfalso. apply (Hnone l Hl). apply existsb_near_point. exact E.
Qed.

Lemma check_near_existing_points_selects_first_witness :
  check_near_existing_points (103, 54)
    (with_labels [example_label] draw_session)
  = Ok (set_edit_mode
          (with_selected_label 0 (with_labels [example_label] draw_session))).
Proof.
  destruct (check_near_existing_points_selects_first (103, 54)
              (with_labels [example_label] draw_session)) as [Hsel _].
  destruct (Hsel 0%nat example_label eq_refl) as [Hok _].
  - exists (x_center example_label * 200, y_center example_label * 100).
    split.
    + apply in_or_app. right. left. reflexivity.
    + unfold dist2. simpl. lra.
  - intros j lj Hj. lia.
  - apply Hok. constructor; [simpl; lia | constructor].
Defined.

Lemma drop_space_snoc (sp : ascii) (s : text) :
  is_space sp = true ->
  drop_space (s ++ [sp])
  = match drop_space s with
    | [] => []
    | c :: d => (c :: d) ++ [sp]
    end.
Proof.
  intros Hsp. induction s as [| c t IH].
  - simpl. rewrite Hsp. reflexivity.
  - cbn [app drop_space]. destruct (is_space c); [exact IH | reflexivity].
Qed.

Lemma py_strip_snoc (sp : ascii) (s : text) :
  is_space sp = true -> py_strip (s ++ [sp]) = py_strip s.
Proof.
  intros Hsp. unfold py_strip. rewrite (drop_space_snoc sp s Hsp).
  destruct (drop_space s) as [| c d]; [reflexivity |].
  rewrite rev_app_distr. cbn [rev app drop_space]. rewrite Hsp.
  reflexivity.
Qed.

Lemma py_lines_names (names : list text) :
  Forall (Forall (fun c => is_newline c = false)) names ->
  py_lines (concat (map (fun n => n ++ [LF]) names))
  = map (fun n => n ++ [LF]) names.
Proof.
  induction 1 as [| n rest Hn Hrest IH]; [reflexivity |].
  cbn [map concat]. rewrite <- app_assoc. cbn [app].
  rewrite (py_lines_line n _ Hn), IH. reflexivity.
Qed.

Lemma strip_lines_names (names : list text) :
  map py_strip
    (filter (fun line => py_nonempty (py_strip line))
       (map (fun n => n ++ [LF]) names))
  = filter py_nonempty (map py_strip names).
Proof.
  induction names as [| n rest IH]; [reflexivity |].
  cbn [map filter]. rewrite (py_strip_snoc LF n eq_refl).
  destruct (py_nonempty (py_strip n)); cbn [map]; rewrite IH;
    [rewrite (py_strip_snoc LF n eq_refl) |]; reflexivity.
Qed.

Lemma filter_clean_names (names : list text) :
  Forall (fun n => n <> [] /\ py_strip n = n) names ->
  filter py_nonempty (map py_strip names) = names.
Proof.
  induction 1 as [| n rest [Hne Hs] Hrest IH]; [reflexivity |].
  cbn [map filter]. rewrite Hs, IH.
  destruct n; [contradiction | reflexivity].
Qed.

(** X17. Saving the class list to a file and loading that file gives the
    names stripped of surrounding whitespace, without the names that are
    blank; class names that are non-empty and have no surrounding
    whitespace come back unchanged. The labels are not touched. Names are
    assumed free of line breaks (text mode would translate a carriage
    return). *)
Theorem classes_file_round_trip :
  forall (file_path : text) (fs : file_system) (st st0 : State),
    file_path <> [] ->
    fs file_path <> Unreadable ->
    Forall (Forall (fun c => is_newline c = false /\ c <> CR)) (classes st) ->
    let fs' := save_classes_file file_path fs st in
    let st' := load_classes_file file_path fs' st0 in
    classes st' = filter py_nonempty (map py_strip (classes st))
    /\ (Forall (fun n => n <> [] /\ py_strip n = n) (classes st) ->
        classes st' = classes st)
    /\ labels st' = labels st0.
Proof.
  intros file_path fs st st0 Hpath Hfs Hnames fs' st'.
  assert (Hnl : Forall (Forall (fun c => is_newline c = false)) (classes st)).
  { eapply Forall_impl; [| exact Hnames]. intros n Hn.
    eapply Forall_impl; [| exact Hn]. intros c [Hc _]. exact Hc. }
  assert (Hfs' : fs' file_path
                 = Regular (concat (map (fun n => n ++ [LF]) (classes st)))).
  { unfold fs', save_classes_file.
    destruct file_path as [| c p]; [contradiction |].
    destruct (fs (c :: p)); try apply fs_write_read. contradiction. }
  assert (Hcls : classes st' = filter py_nonempty (map py_strip (classes st))).
  { unfold st', load_classes_file.
    destruct file_path as [| c p]; [contradiction |].
    rewrite Hfs'. cbn [classes update_class_list with_class_combo
                       with_classes].
    rewrite (py_lines_names _ Hnl). apply strip_lines_names. }
  split; [exact Hcls |]. split.
  - intros Hclean. rewrite Hcls. apply filter_clean_names. exact Hclean.
  - unfold st', load_classes_file.
    destruct file_path as [| c p]; [contradiction |].
    rewrite Hfs'. reflexivity.
Qed.

Lemma classes_file_round_trip_witness :
  classes
    (load_classes_file (txt "classes.txt")
       (save_classes_file (txt "classes.txt") empty_fs
          (init_state untidy_classes))
       draw_session)
  = [txt "cat"; txt "dog"].
Proof.
  destruct (classes_file_round_trip (txt "classes.txt") empty_fs
              (init_state untidy_classes) draw_session) as [H _].
  - discriminate.
  - discriminate.
  - repeat constructor; discriminate.
  - rewrite H. reflexivity.
Defined.

Lemma load_image_decoded
  (label_path image_path : text -> text -> text)
  (decode : text -> option (Z * Z)) (fs : file_system) (st : State)
  (name : text) (w h : Z) :
  (0 <= current_index st)%Z ->
  py_getitem (image_files st) (current_index st) = Ok name ->
  decode (image_path (image_dir st) name) = Some (w, h) ->
  load_image label_path image_path decode fs st
  = with_labels
      (match fs (label_path (image_dir st) name) with
       | Regular content => labels_of_lines (py_lines content)
       | _ => []
       end)
      (with_image w h st).
Proof.
  intros Hidx Hname Hdec.
  destruct (py_getitem_nonneg _ _ _ Hidx Hname) as [_ [_ Hlt]].
  unfold load_image.
  apply Z.leb_le in Hidx. apply Z.ltb_lt in Hlt. rewrite Hidx, Hlt.
  cbn [andb]. rewrite Hname, Hdec. cbv zeta.
  apply Z.leb_le in Hidx.
  rewrite (load_yolo_labels_run label_path fs (with_image w h st) name
             Hidx Hname).
  assert (Hread : read_label_file label_path fs name
                    (with_labels [] (with_image w h st))
                  = with_labels
                      (match fs (label_path (image_dir st) name) with
                       | Regular content => labels_of_lines (py_lines content)
                       | _ => []
                       end)
                      (with_image w h st)).
  { unfold read_label_file. simpl.
    destruct (fs (label_path (image_dir st) name)); try reflexivity.
    rewrite read_lines_labels_of_lines. reflexivity. }
  destruct (update_labels_list _); cbn [bind]; exact Hread.
Qed.

Lemma load_image_undecoded
  (label_path image_path : text -> text -> text)
  (decode : text -> option (Z * Z)) (fs : file_system) (st : State)
  (name : text) :
  py_getitem (image_files st) (current_index st) = Ok name ->
  decode (image_path (image_dir st) name) = None ->
  load_image label_path image_path decode fs st = st.
Proof.
  intros Hname Hdec. unfold load_image.
  destruct (_ && _)%bool; [| reflexivity].
  rewrite Hname, Hdec. reflexivity.
Qed.

Lemma next_image_step
  (label_path image_path : text -> text -> text)
  (decode : text -> option (Z * Z)) (fs : file_system) (st : State)
  (a : text) :
  (0 <= current_index st)%Z ->
  (current_index st + 1 < Z.of_nat (length (image_files st)))%Z ->
  py_getitem (image_files st) (current_index st) = Ok a ->
  fs (label_path (image_dir st) a) <> Unreadable ->
  let fs1 := fs_write fs (label_path (image_dir st) a)
               (concat (map format_label (labels st))) in
  next_image label_path image_path decode fs st
  = Ok (fs1,
        load_image label_path image_path decode fs1
          (with_current_index (current_index st + 1) st)).
Proof.
  intros Hidx Hnext Ha Hfs fs1. unfold next_image.
  destruct (Z.ltb_spec (current_index st)
              (Z.of_nat (length (image_files st)) - 1)); [| lia].
  rewrite (save_labels_writes label_path fs st a Hidx Ha Hfs).
  reflexivity.
Qed.

Lemma prev_image_step
  (label_path image_path : text -> text -> text)
  (decode : text -> option (Z * Z)) (fs : file_system) (st : State)
  (b : text) :
  (0 < current_index st)%Z ->
  py_getitem (image_files st) (current_index st) = Ok b ->
  fs (label_path (image_dir st) b) <> Unreadable ->
  let fs1 := fs_write fs (label_path (image_dir st) b)
               (concat (map format_label (labels st))) in
  prev_image label_path image_path decode fs st
  = Ok (fs1,
        load_image label_path image_path decode fs1
          (with_current_index (current_index st - 1) st)).
Proof.
  intros Hidx Hb Hfs fs1. unfold prev_image.
  destruct (Z.ltb_spec 0 (current_index st)); [| lia].
  rewrite (save_labels_writes label_path fs st b ltac:(lia) Hb Hfs).
  reflexivity.
Qed.

Lemma fs_write_other (fs : file_system) (path content p : text) :
  p <> path -> fs_write fs path content p = fs p.
Proof.
  intros Hp. unfold fs_write.
  destruct (text_eq_dec p path); [contradiction | reflexivity].
Qed.

Lemma labels_of_saved (ls : list Label) :
  labels_of_lines (py_lines (concat (map format_label ls)))
  = map round6_label ls.
Proof. rewrite py_lines_formatted. apply labels_of_formatted. Qed.

(** X18. Going to the next image and back, when both images decode and
    have different label files that can be written: the index is back, the
    labels are the original ones rounded to 6 decimals (they went through
    the label file), and both images have a label file afterwards, the
    visited one even if it had none and has no labels. *)
Theorem next_then_prev_restores_labels :
  forall (label_path image_path : text -> text -> text)
         (decode : text -> option (Z * Z)) (fs : file_system) (st : State)
         (a b : text) (wa ha wb hb : Z),
    (0 <= current_index st)%Z ->
    py_getitem (image_files st) (current_index st) = Ok a ->
    py_getitem (image_files st) (current_index st + 1) = Ok b ->
    let pa := label_path (image_dir st) a in
    let pb := label_path (image_dir st) b in
    pa <> pb -> fs pa <> Unreadable -> fs pb <> Unreadable ->
    decode (image_path (image_dir st) a) = Some (wa, ha) ->
    decode (image_path (image_dir st) b) = Some (wb, hb) ->
    exists (fs1 : file_system) (st1 : State) (fs2 : file_system)
           (st2 : State),
      next_image label_path image_path decode fs st = Ok (fs1, st1)
      /\ current_index st1 = (current_index st + 1)%Z
      /\ prev_image label_path image_path decode fs1 st1 = Ok (fs2, st2)
      /\ current_index st2 = current_index st
      /\ labels st2 = map round6_label (labels st)
      /\ fs2 pa = Regular (concat (map format_label (labels st)))
      /\ fs2 pb = Regular (concat (map format_label (labels st1))).
Proof.
  intros label_path image_path decode fs st a b wa ha wb hb
         Hidx Ha Hb pa pb Hdiff Hfa Hfb Hda Hdb.
  destruct (py_getitem_nonneg (image_files st) (current_index st + 1) b
              ltac:(lia) Hb) as [_ [_ Hlt]].
  set (fs1 := fs_write fs pa (concat (map format_label (labels st)))).
  set (st0 := with_current_index (current_index st + 1) st).
  assert (Hload1 : load_image label_path image_path decode fs1 st0
                   = with_labels
                       (match fs1 pb with
                        | Regular content => labels_of_lines (py_lines content)
                        | _ => []
                        end)
                       (with_image wb hb st0)).
  { apply (load_image_decoded label_path image_path decode fs1 st0 b wb hb).
    - simpl. lia.
    - exact Hb.
    - exact Hdb. }
  set (st1 := load_image label_path image_path decode fs1 st0) in *.
  assert (Hi1 : current_index st1 = (current_index st + 1)%Z)
    by (rewrite Hload1; reflexivity).
  assert (Hf1 : image_files st1 = image_files st)
    by (rewrite Hload1; reflexivity).
  assert (Hd1 : image_dir st1 = image_dir st)
    by (rewrite Hload1; reflexivity).
  assert (Hfs1b : fs1 pb <> Unreadable).
  { unfold fs1. rewrite fs_write_other by (intros E; apply Hdiff; congruence).
    exact Hfb. }
  set (fs2 := fs_write fs1 pb (concat (map format_label (labels st1)))).
  set (st1' := with_current_index (current_index st1 - 1) st1).
  assert (Hfs2a : fs2 pa = Regular (concat (map format_label (labels st)))).
  { unfold fs2. rewrite fs_write_other by exact Hdiff.
    unfold fs1. apply fs_write_read. }
  assert (Hload2 : load_image label_path image_path decode fs2 st1'
                   = with_labels
                       (match fs2 pa with
                        | Regular content => labels_of_lines (py_lines content)
                        | _ => []
                        end)
                       (with_image wa ha st1')).
  { assert (Hp : label_path (image_dir st1') a = pa)
      by (unfold pa; simpl; rewrite Hd1; reflexivity).
    rewrite <- Hp.
    apply (load_image_decoded label_path image_path decode fs2 st1' a wa ha).
    - simpl. lia.
    - simpl. rewrite Hf1, Hi1.
      replace (current_index st + 1 - 1)%Z with (current_index st) by lia.
      exact Ha.
    - simpl. rewrite Hd1. exact Hda. }
  exists fs1, st1, fs2,
    (load_image label_path image_path decode fs2 st1').
  split.
  { exact (next_image_step label_path image_path decode fs st a
             Hidx ltac:(lia) Ha Hfa). }
  split; [exact Hi1 |]. split.
  { assert (Hb1 : py_getitem (image_files st1) (current_index st1) = Ok b)
      by (rewrite Hf1, Hi1; exact Hb).
    assert (Hfs1b' : fs1 (label_path (image_dir st1) b) <> Unreadable)
      by (rewrite Hd1; exact Hfs1b).
    pose proof (prev_image_step label_path image_path decode fs1 st1 b
                  ltac:(lia) Hb1 Hfs1b') as Hstep.
    cbv zeta in Hstep. rewrite Hd1 in Hstep. exact Hstep. }
  rewrite Hload2, Hfs2a. split; [simpl; lia |].
  split; [simpl; apply labels_of_saved |].
  split; [reflexivity |].
  unfold fs2. apply fs_write_read.
Qed.

Lemma next_then_prev_restores_labels_witness :
  exists (fs1 : file_system) (st1 : State) (fs2 : file_system)
         (st2 : State),
    next_image example_label_path example_image_path decode_200 empty_fs
      two_image_session = Ok (fs1, st1)
    /\ prev_image example_label_path example_image_path decode_200 fs1 st1
       = Ok (fs2, st2)
    /\ current_index st2 = 0%Z
    /\ labels st2 = [round6_label example_label]
    /\ fs2 (txt "d/b.txt") = Regular [].
Proof.
  destruct (next_then_prev_restores_labels example_label_path
              example_image_path decode_200 empty_fs two_image_session
              (txt "a.jpg") (txt "b.jpg") 200 200 200 200)
    as (fs1 & st1 & fs2 & st2 & Hn & Hi1 & Hp & Hi2 & Hl & _ & Hb);
    try reflexivity; try discriminate.
  exists fs1, st1, fs2, st2.
  split; [exact Hn |]. split; [exact Hp |]. split; [exact Hi2 |].
  split; [exact Hl |].
  assert (Hst1 : labels st1 = []).
  { rewrite (next_image_step example_label_path example_image_path
               decode_200 empty_fs two_image_session (txt "a.jpg"))
      in Hn; try reflexivity; try discriminate.
    injection Hn as _ <-. reflexivity. }
  rewrite Hst1 in Hb. exact Hb.
Defined.

(** X19. Two consecutive images whose names differ only in the extension
    share one label file: going to the next image saves the labels of the
    first and loads them, rounded to 6 decimals, as the labels of the
    second. *)
Theorem shared_label_file_carries_labels_over :
  forall (label_path image_path : text -> text -> text)
         (decode : text -> option (Z * Z)) (fs : file_system) (st : State)
         (a b : text) (wb hb : Z),
    (0 <= current_index st)%Z ->
    py_getitem (image_files st) (current_index st) = Ok a ->
    py_getitem (image_files st) (current_index st + 1) = Ok b ->
    label_path (image_dir st) a = label_path (image_dir st) b ->
    fs (label_path (image_dir st) a) <> Unreadable ->
    decode (image_path (image_dir st) b) = Some (wb, hb) ->
    exists (fs1 : file_system) (st1 : State),
      next_image label_path image_path decode fs st = Ok (fs1, st1)
      /\ current_index st1 = (current_index st + 1)%Z
      /\ labels st1 = map round6_label (labels st).
Proof.
  intros label_path image_path decode fs st a b wb hb
         Hidx Ha Hb Hsame Hfa Hdb.
  destruct (py_getitem_nonneg (image_files st) (current_index st + 1) b
              ltac:(lia) Hb) as [_ [_ Hlt]].
  eexists _, _. split.
  { exact (next_image_step label_path image_path decode fs st a
             Hidx ltac:(lia) Ha Hfa). }
  rewrite (load_image_decoded label_path image_path decode _
             (with_current_index (current_index st + 1) st) b wb hb
             ltac:(simpl; lia) Hb Hdb).
  split; [reflexivity |]. simpl. rewrite <- Hsame, fs_write_read.
  apply labels_of_saved.
Qed.

Lemma shared_label_file_carries_labels_over_witness :
  exists (fs1 : file_system) (st1 : State),
    next_image example_label_path example_image_path decode_200 empty_fs
      same_stem_session = Ok (fs1, st1)
    /\ current_index st1 = 1%Z
    /\ labels st1 = [round6_label example_label].
Proof.
  apply (shared_label_file_carries_labels_over example_label_path
           example_image_path decode_200 empty_fs same_stem_session
           (txt "a.jpg") (txt "a.png") 200 200);
    try reflexivity; try discriminate.
Defined.

(** X20. When the next image cannot be decoded, [next_image] still saves
    and advances the index, and [load_image] leaves everything else as it
    was: the labels of the previous image stay in memory, and the next
    save writes them into the label file of the undecodable image. *)
Theorem undecodable_image_keeps_previous_labels :
  forall (label_path image_path : text -> text -> text)
         (decode : text -> option (Z * Z)) (fs : file_system) (st : State)
         (a b : text),
    (0 <= current_index st)%Z ->
    py_getitem (image_files st) (current_index st) = Ok a ->
    py_getitem (image_files st) (current_index st + 1) = Ok b ->
    fs (label_path (image_dir st) a) <> Unreadable ->
    fs (label_path (image_dir st) b) <> Unreadable ->
    decode (image_path (image_dir st) b) = None ->
    let fs1 := fs_write fs (label_path (image_dir st) a)
                 (concat (map format_label (labels st))) in
    let st1 := with_current_index (current_index st + 1) st in
    next_image label_path image_path decode fs st = Ok (fs1, st1)
    /\ save_labels label_path fs1 st1
       = Ok (fs_write fs1 (label_path (image_dir st) b)
               (concat (map format_label (labels st))), st1).
Proof.
  intros label_path image_path decode fs st a b
         Hidx Ha Hb Hfa Hfb Hdb fs1 st1.
  destruct (py_getitem_nonneg (image_files st) (current_index st + 1) b
              ltac:(lia) Hb) as [_ [_ Hlt]].
  split.
  - rewrite (next_image_step label_path image_path decode fs st a
               Hidx ltac:(lia) Ha Hfa).
    fold fs1 st1.
    rewrite (load_image_undecoded label_path image_path decode fs1 st1 b
               Hb Hdb).
    reflexivity.
  - apply (save_labels_writes label_path fs1 st1 b).
    + simpl. lia.
    + exact Hb.
    + simpl. unfold fs1, fs_write.
      destruct (text_eq_dec _ _); [discriminate | exact Hfb].
Qed.

Lemma undecodable_image_keeps_previous_labels_witness :
  exists fs1 : file_system,
    next_image example_label_path example_image_path decode_none empty_fs
      two_image_session
    = Ok (fs1, with_current_index 1 two_image_session)
    /\ exists fs2 : file_system,
         save_labels example_label_path fs1
           (with_current_index 1 two_image_session)
         = Ok (fs2, with_current_index 1 two_image_session)
         /\ fs2 (txt "d/b.txt")
            = Regular (format_label example_label).
Proof.
  destruct (undecodable_image_keeps_previous_labels example_label_path
              example_image_path decode_none empty_fs two_image_session
              (txt "a.jpg") (txt "b.jpg"))
    as [Hn Hs]; try reflexivity; try discriminate.
  eexists. split; [exact Hn |]. eexists. split; [exact Hs |].
  rewrite fs_write_read. simpl. rewrite app_nil_r. reflexivity.
Defined.

(** ** Export, skipping and five-column label files *)

Lemma load_image_keeps_index
  (label_path image_path : text -> text -> text)
  (decode : text -> option (Z * Z)) (fs : file_system) (st : State) :
  current_index (load_image label_path image_path decode fs st)
  = current_index st.
Proof.
  unfold load_image. destruct (_ && _)%bool; [| reflexivity].
  destruct (py_getitem _ _) as [name |]; [| reflexivity].
  destruct (decode _) as [[w h] |]; [| reflexivity]. cbv zeta.
  assert (Hread : forall (n : text) (st0 : State),
             current_index (read_label_file label_path fs n st0)
             = current_index st0).
  { intros n st0. unfold read_label_file. destruct (fs _); reflexivity. }
  destruct (load_yolo_labels label_path fs (with_image w h st))
    as [st2 |] eqn:Hload; [| rewrite Hread; reflexivity].
  unfold load_yolo_labels in Hload. simpl in Hload.
  destruct (image_files st); [injection Hload as <-; reflexivity |].
  destruct (current_index st <? 0)%Z; [injection Hload as <-; reflexivity |].
  destruct (py_getitem _ _) as [n |]; [| discriminate]. cbn [bind] in Hload.
  destruct (update_labels_list _); [| discriminate]. cbn [bind] in Hload.
  injection Hload as <-. rewrite Hread. reflexivity.
Qed.

Lemma load_yolo_labels_at
  (label_path : text -> text -> text) (fs : file_system) (st : State)
  (name : text) :
  (0 <= current_index st)%Z ->
  py_getitem (image_files st) (current_index st) = Ok name ->
  class_ids_ok (classes st)
    (loaded_labels (fs (label_path (image_dir st) name))) ->
  load_yolo_labels label_path fs st
  = Ok (with_labels
          (loaded_labels (fs (label_path (image_dir st) name))) st).
Proof.
  intros Hidx Hname Hids.
  rewrite (load_yolo_labels_run label_path fs st name Hidx Hname).
  unfold read_label_file, loaded_labels in *. simpl.
  destruct (fs (label_path (image_dir st) name)) as [| | content];
    try reflexivity.
  rewrite read_lines_labels_of_lines.
  destruct (label_names_ok _ _ Hids) as [names Hn].
  unfold update_labels_list. simpl. rewrite Hn. reflexivity.
Qed.

Lemma skipn_cons_nth {A : Type} (l : list A) (k : nat) (a : A) (rest : list A) :
  skipn k l = a :: rest -> nth_error l k = Some a /\ skipn (S k) l = rest.
Proof.
  revert k. induction l as [| x t IH]; intros k H.
  - destruct k; discriminate H.
  - destruct k as [| k'].
    + simpl in H. injection H as -> ->. split; reflexivity.
    + simpl in H. apply IH in H. exact H.
Qed.

Lemma export_loop_spec (label_path : text -> text -> text) :
  forall (names : list text) (k : nat) (fs : file_system) (st : State),
    skipn k (image_files st) = names ->
    NoDup (map (label_path (image_dir st)) names) ->
    Forall (fun n => fs (label_path (image_dir st) n) <> Unreadable) names ->
    Forall (fun n => class_ids_ok (classes st)
                       (loaded_labels (fs (label_path (image_dir st) n))))
      names ->
    exists (fs' : file_system) (st' : State),
      export_loop label_path (range_from (Z.of_nat k) (length names)) fs st
      = Ok (fs', st')
      /\ (forall n, In n names ->
            fs' (label_path (image_dir st) n)
            = Regular
                (concat
                   (map format_label
                      (loaded_labels (fs (label_path (image_dir st) n))))))
      /\ (forall p, ~ In p (map (label_path (image_dir st)) names) ->
            fs' p = fs p)
      /\ image_files st' = image_files st
      /\ image_dir st' = image_dir st
      /\ current_index st'
         = match names with
           | [] => current_index st
           | _ :: _ => (Z.of_nat k + Z.of_nat (length names) - 1)%Z
           end.
Proof.
  induction names as [| n rest IH]; intros k fs st Hskip Hnd Hfs Hids.
  - exists fs, st. simpl. repeat split; try reflexivity. intros n [].
  - destruct (skipn_cons_nth _ _ _ _ Hskip) as [Hn Hrest].
    cbn [map] in Hnd. apply NoDup_cons_iff in Hnd as [Hnotin Hnd'].
    pose proof (Forall_inv Hfs) as Hfn.
    pose proof (Forall_inv_tail Hfs) as Hfs'.
    pose proof (Forall_inv Hids) as Hidn.
    pose proof (Forall_inv_tail Hids) as Hids'.
    set (dir := image_dir st) in *.
    set (st0 := with_current_index (Z.of_nat k) st).
    assert (Hname : py_getitem (image_files st0) (current_index st0) = Ok n).
    { apply py_getitem_at; [simpl; lia |]. simpl. rewrite Nat2Z.id.
      exact Hn. }
    set (L := loaded_labels (fs (label_path dir n))).
    set (fs1 := fs_write fs (label_path dir n) (concat (map format_label L))).
    assert (Hother : forall m, In m rest ->
                       fs1 (label_path dir m) = fs (label_path dir m)).
    { intros m Hm. unfold fs1. apply fs_write_other. intros E.
      apply Hnotin. rewrite <- E. apply in_map. exact Hm. }
    destruct (IH (S k) fs1 (with_labels L st0)) as
      (fs' & st' & Hrun & Hall & Hframe & Hfiles & Hdir & Hidx).
    { exact Hrest. }
    { exact Hnd'. }
    { apply Forall_forall. intros m Hm. simpl. fold dir.
      rewrite (Hother m Hm).
      exact (proj1 (Forall_forall _ _) Hfs' m Hm). }
    { apply Forall_forall. intros m Hm. simpl. fold dir.
      rewrite (Hother m Hm).
      exact (proj1 (Forall_forall _ _) Hids' m Hm). }
    change (image_dir (with_labels L st0)) with dir in Hall, Hframe.
    change (image_files (with_labels L st0)) with (image_files st) in Hfiles.
    change (image_dir (with_labels L st0)) with (image_dir st) in Hdir.
    change (current_index (with_labels L st0)) with (Z.of_nat k) in Hidx.
    exists fs', st'. split; [| split; [| split; [| split; [| split]]]].
    + cbn [length range_from export_loop]. fold st0.
      rewrite (load_yolo_labels_at label_path fs st0 n
                 ltac:(simpl; lia) Hname Hidn).
      cbn [bind]. change (image_dir st0) with dir. fold L.
      rewrite (save_labels_writes label_path fs (with_labels L st0) n
                 ltac:(simpl; lia) Hname Hfn).
      cbn [bind fst snd].
      replace (Z.of_nat k + 1)%Z with (Z.of_nat (S k)) by lia.
      exact Hrun.
    + intros m [<- | Hm].
      * rewrite Hframe by exact Hnotin. unfold fs1. apply fs_write_read.
      * rewrite (Hall m Hm), (Hother m Hm). reflexivity.
    + intros p Hp. rewrite Hframe.
      * unfold fs1. apply fs_write_other. intros E. apply Hp. left.
        symmetry. exact E.
      * intros Hin. apply Hp. right. exact Hin.
    + exact Hfiles.
    + exact Hdir.
    + rewrite Hidx. destruct rest; simpl length; lia.
Qed.

(** X21. [export_all_labels], with a directory chosen and label files
    that are distinct, can be written, have plain tokens and hold class ids
    of at least [-len(classes)] only: every image ends with a label file
    holding its parsable lines in the saved format (an empty file where
    there was none), and the session ends on the last image of the list,
    not on the image that was shown. *)
Theorem export_rewrites_every_label_file :
  forall (label_path image_path : text -> text -> text)
         (decode : text -> option (Z * Z)) (export_dir : text)
         (fs : file_system) (st : State),
    image_dir st <> [] -> export_dir <> [] ->
    NoDup (map (label_path (image_dir st)) (image_files st)) ->
    Forall (fun n => fs (label_path (image_dir st) n) <> Unreadable)
      (image_files st) ->
    Forall (fun n => forall content,
                fs (label_path (image_dir st) n) = Regular content ->
                plain_file content)
      (image_files st) ->
    Forall (fun n => class_ids_ok (classes st)
                       (loaded_labels (fs (label_path (image_dir st) n))))
      (image_files st) ->
    exists (fs' : file_system) (st' : State),
      export_all_labels label_path image_path decode export_dir fs st
      = Ok (fs', st')
      /\ (forall n, In n (image_files st) ->
            fs' (label_path (image_dir st) n)
            = Regular
                (concat
                   (map format_label
                      (loaded_labels (fs (label_path (image_dir st) n))))))
      /\ (image_files st <> [] ->
          current_index st' = (Z.of_nat (length (image_files st)) - 1)%Z).
Proof.
  intros label_path image_path decode export_dir fs st Hdir Hexp Hnd Hfs
    _ Hids.
  destruct (export_loop_spec label_path (image_files st) 0 fs st eq_refl
              Hnd Hfs Hids)
    as (fs' & st' & Hrun & Hall & _ & _ & _ & Hidx).
  exists fs', (load_image label_path image_path decode fs' st').
  split; [| split; [exact Hall |]].
  - unfold export_all_labels, py_range.
    destruct (image_dir st); [contradiction |].
    destruct export_dir; [contradiction |].
    rewrite Z.sub_0_r, Nat2Z.id.
    change 0%Z with (Z.of_nat 0). rewrite Hrun. reflexivity.
  - intros Hne. rewrite load_image_keeps_index, Hidx.
    destruct (image_files st); [contradiction | simpl length; lia].
Qed.

Lemma mixed_file_plain : plain_file mixed_file.
Proof. unfold plain_file. repeat constructor. Qed.

Lemma export_rewrites_every_label_file_witness :
  exists (fs' : file_system) (st' : State),
    export_all_labels example_label_path example_image_path decode_200
      (txt "out") (fs_with_label_file mixed_file) two_image_session
    = Ok (fs', st')
    /\ fs' (txt "d/a.txt")
       = Regular (concat (map format_label [mkLabel 0 0.5 0.5 0.2 0.2 0]))
    /\ fs' (txt "d/b.txt") = Regular []
    /\ current_index st' = 1%Z.
Proof.
  destruct (export_rewrites_every_label_file example_label_path
              example_image_path decode_200 (txt "out")
              (fs_with_label_file mixed_file) two_image_session)
    as (fs' & st' & Hrun & Hall & Hidx).
  - discriminate.
  - discriminate.
  - repeat constructor; simpl; intuition discriminate.
  - repeat constructor; discriminate.
  - constructor; [| constructor; [| constructor]].
    + intros content H. injection H as <-. exact mixed_file_plain.
    + intros content H. discriminate H.
  - constructor; [| constructor; [| constructor]].
    + change (loaded_labels
                (fs_with_label_file mixed_file
                   (example_label_path (image_dir two_image_session)
                      (txt "a.jpg"))))
        with [mkLabel 0 0.5 0.5 0.2 0.2 0].
      constructor; [simpl; lia | constructor].
    + constructor.
  - exists fs', st'. split; [exact Hrun |]. split; [| split].
    + exact (Hall (txt "a.jpg") (or_introl eq_refl)).
    + exact (Hall (txt "b.jpg") (or_intror (or_introl eq_refl))).
    + apply Hidx. discriminate.
Defined.

(** X22. [export_all_labels] never saves the labels in memory: its loop
    starts by loading the label file of the first image, so the result is
    the same whatever labels the session held. *)
Theorem export_discards_unsaved_labels :
  forall (label_path image_path : text -> text -> text)
         (decode : text -> option (Z * Z)) (export_dir : text)
         (fs : file_system) (st : State) (unsaved : list Label),
    image_dir st <> [] -> export_dir <> [] -> image_files st <> [] ->
    export_all_labels label_path image_path decode export_dir fs
      (with_labels unsaved st)
    = export_all_labels label_path image_path decode export_dir fs st.
Proof.
  intros label_path image_path decode export_dir fs st unsaved
         Hdir Hexp Hfiles.
  unfold export_all_labels, py_range.
  change (image_dir (with_labels unsaved st)) with (image_dir st).
  change (image_files (with_labels unsaved st)) with (image_files st).
  destruct (image_dir st); [contradiction |].
  destruct export_dir; [contradiction |].
  rewrite Z.sub_0_r, Nat2Z.id.
  destruct (length (image_files st)) eqn:Hlen.
  - destruct (image_files st); [contradiction | discriminate].
  - cbn [range_from export_loop].
    change (load_yolo_labels label_path fs
              (with_current_index 0 (with_labels unsaved st)))
      with (load_yolo_labels label_path fs (with_current_index 0 st)).
    reflexivity.
Qed.

Lemma export_discards_unsaved_labels_witness :
  export_all_labels example_label_path example_image_path decode_200
    (txt "out") empty_fs
    (with_labels [example_label; example_label] two_image_session)
  = export_all_labels example_label_path example_image_path decode_200
      (txt "out") empty_fs two_image_session.
Proof.
  apply (export_discards_unsaved_labels example_label_path
           example_image_path decode_200 (txt "out") empty_fs
           two_image_session); discriminate.
Defined.

Lemma first_unlabeled_hit
  (label_path : text -> text -> text) (fs : file_system) (st : State) :
  forall (n : nat) (lo j : Z) (name : text),
    (0 <= lo <= j)%Z -> (j < lo + Z.of_nat n)%Z ->
    nth_error (image_files st) (Z.to_nat j) = Some name ->
    has_label_file label_path fs st name = false ->
    (forall (k : Z) (nm : text),
        (lo <= k < j)%Z ->
        nth_error (image_files st) (Z.to_nat k) = Some nm ->
        has_label_file label_path fs st nm = true) ->
    first_unlabeled label_path fs st (range_from lo n) = Ok (Some j).
Proof.
  induction n as [| n IH]; intros lo j name Hlo Hj Hname Hfree Hbefore;
    [lia |].
  cbn [range_from first_unlabeled].
  destruct (Z.eq_dec lo j) as [-> | Hne].
  - rewrite (py_getitem_at _ j name ltac:(lia) Hname). cbn [bind].
    rewrite Hfree. reflexivity.
  - assert (Hlt : (Z.to_nat lo < length (image_files st))%nat).
    { assert (Z.to_nat j < length (image_files st))%nat
        by (apply nth_error_Some; congruence).
      lia. }
    destruct (nth_error (image_files st) (Z.to_nat lo)) as [nm |] eqn:Hnm;
      [| apply nth_error_None in Hnm; lia].
    rewrite (py_getitem_at _ lo nm ltac:(lia) Hnm). cbn [bind].
    rewrite (Hbefore lo nm ltac:(lia) Hnm).
    apply (IH (lo + 1)%Z j name); try assumption; try lia.
    intros k nm' Hk. apply Hbefore. lia.
Qed.

Lemma first_unlabeled_miss
  (label_path : text -> text -> text) (fs : file_system) (st : State) :
  forall (n : nat) (lo : Z),
    (0 <= lo)%Z ->
    (lo + Z.of_nat n <= Z.of_nat (length (image_files st)))%Z ->
    (forall (k : Z) (nm : text),
        (lo <= k < lo + Z.of_nat n)%Z ->
        nth_error (image_files st) (Z.to_nat k) = Some nm ->
        has_label_file label_path fs st nm = true) ->
    first_unlabeled label_path fs st (range_from lo n) = Ok None.
Proof.
  induction n as [| n IH]; intros lo Hlo Hhi Hall; [reflexivity |].
  cbn [range_from first_unlabeled].
  destruct (nth_error (image_files st) (Z.to_nat lo)) as [nm |] eqn:Hnm;
    [| apply nth_error_None in Hnm; lia].
  rewrite (py_getitem_at _ lo nm Hlo Hnm). cbn [bind].
  rewrite (Hall lo nm ltac:(lia) Hnm).
  apply IH; try lia. intros k nm' Hk. apply Hall. lia.
Qed.

(** X23. [skip_to_next_unlabeled] first saves the labels of the current
    image and then goes to the first image after the current one that has
    no label file; when there is none it wraps around to the first such
    image before the current one; when every other image has a label file
    it stays, with the labels saved. *)
Theorem skip_to_next_unlabeled_wraps_around :
  forall (label_path image_path : text -> text -> text)
         (decode : text -> option (Z * Z)) (fs : file_system) (st : State)
         (a : text),
    (0 <= current_index st)%Z ->
    py_getitem (image_files st) (current_index st) = Ok a ->
    fs (label_path (image_dir st) a) <> Unreadable ->
    let i := current_index st in
    let len := Z.of_nat (length (image_files st)) in
    let fs1 := fs_write fs (label_path (image_dir st) a)
                 (concat (map format_label (labels st))) in
    let labelled (k : Z) :=
      forall nm : text,
        nth_error (image_files st) (Z.to_nat k) = Some nm ->
        has_label_file label_path fs1 st nm = true in
    let unlabelled (j : Z) :=
      exists nm : text,
        nth_error (image_files st) (Z.to_nat j) = Some nm
        /\ has_label_file label_path fs1 st nm = false in
    let go (j : Z) :=
      Ok (fs1,
          load_image label_path image_path decode fs1
            (with_current_index j st)) in
    (forall j : Z,
        (i < j < len)%Z -> unlabelled j ->
        (forall k : Z, (i < k < j)%Z -> labelled k) ->
        skip_to_next_unlabeled label_path image_path decode fs st = go j)
    /\ (forall j : Z,
          (0 <= j < i)%Z -> unlabelled j ->
          (forall k : Z, (i < k < len)%Z -> labelled k) ->
          (forall k : Z, (0 <= k < j)%Z -> labelled k) ->
          skip_to_next_unlabeled label_path image_path decode fs st = go j)
    /\ ((forall k : Z, (0 <= k < len)%Z -> k <> i -> labelled k) ->
        skip_to_next_unlabeled label_path image_path decode fs st
        = Ok (fs1, st)).
Proof.
  intros label_path image_path decode fs st a Hidx Ha Hfs
         i len fs1 labelled unlabelled go.
  destruct (py_getitem_nonneg _ _ _ Hidx Ha) as [_ [_ Hlt]].
  assert (Hrun : skip_to_next_unlabeled label_path image_path decode fs st
                 = (found <- first_unlabeled label_path fs1 st
                               (py_range (i + 1) len) ;;
                    match found with
                    | Some j => go j
                    | None =>
                        wrapped <- first_unlabeled label_path fs1 st
                                     (py_range 0 i) ;;
                        match wrapped with
                        | Some j => go j
                        | None => Ok (fs1, st)
                        end
                    end)).
  { assert (Hfiles : exists t l, image_files st = t :: l).
    { destruct (image_files st) as [| t l]; [simpl in Hlt; lia |].
      exists t, l. reflexivity. }
    destruct Hfiles as [t [l Hfiles]].
    unfold skip_to_next_unlabeled. rewrite Hfiles at 1. cbv iota.
    rewrite (save_labels_writes label_path fs st a Hidx Ha Hfs).
    reflexivity. }
  rewrite Hrun. unfold py_range. fold i len in Hlt.
  split; [| split].
  - intros j Hj [nm [Hnm Hfree]] Hbetween.
    rewrite (first_unlabeled_hit label_path fs1 st _ (i + 1)%Z j nm);
      try assumption; try lia; [reflexivity |].
    intros k nm' Hk. apply (Hbetween k). lia.
  - intros j Hj [nm [Hnm Hfree]] Hafter Hbefore.
    rewrite (first_unlabeled_miss label_path fs1 st); try lia.
    + cbn [bind].
      rewrite (first_unlabeled_hit label_path fs1 st _ 0%Z j nm);
        try assumption; try lia; [reflexivity |].
      intros k nm' Hk. apply (Hbefore k). lia.
    + intros k nm' Hk. apply (Hafter k). fold len. lia.
  - intros Hall.
    rewrite (first_unlabeled_miss label_path fs1 st); try lia.
    + cbn [bind]. rewrite (first_unlabeled_miss label_path fs1 st); try lia.
      * reflexivity.
      * intros k nm' Hk. apply (Hall k); fold len; lia.
    + intros k nm' Hk. apply (Hall k); fold len; lia.
Qed.

Lemma skip_to_next_unlabeled_wraps_around_witness :
  exists (fs1 : file_system) (st1 : State),
    skip_to_next_unlabeled example_label_path example_image_path decode_200
      fs_c_labelled three_image_session = Ok (fs1, st1)
    /\ current_index st1 = 0%Z
    /\ fs1 (txt "d/b.txt")
       = Regular (concat (map format_label [example_label]))
    /\ fs1 (txt "d/a.txt") = Absent.
Proof.
  destruct (skip_to_next_unlabeled_wraps_around example_label_path
              example_image_path decode_200 fs_c_labelled
              three_image_session (txt "b.jpg"))
    as (_ & Hwrap & _); try reflexivity; try discriminate.
  eexists _, _. split.
  - apply (Hwrap 0%Z).
    + simpl. lia.
    + exists (txt "a.jpg"). split; reflexivity.
    + intros k Hk nm Hnm. simpl in Hk.
      assert (k = 2%Z) by lia. subst k.
      injection Hnm as <-. reflexivity.
    + intros k Hk. lia.
  - split; [apply load_image_keeps_index |]. split; reflexivity.
Defined.

Lemma line_label_five_columns (line : text) (l : Label) :
  length (py_split (py_strip line)) = 5%nat ->
  line_label line = Some l -> angle l = 0.
Proof.
  unfold line_label. intros Hlen.
  destruct (py_split (py_strip line))
    as [| t0 [| t1 [| t2 [| t3 [| t4 [| t5 rest]]]]]];
    try discriminate Hlen.
  cbn [length Nat.leb]. rewrite parse_fields_five.
  destruct (py_int t0); cbn [bind]; [| discriminate].
  destruct (py_float t1); cbn [bind]; [| discriminate].
  destruct (py_float t2); cbn [bind]; [| discriminate].
  destruct (py_float t3); cbn [bind]; [| discriminate].
  destruct (py_float t4); cbn [bind]; [| discriminate].
  intros H. injection H as <-. reflexivity.
Qed.

Lemma labels_of_five_columns (lines : list text) :
  Forall (fun line => length (py_split (py_strip line)) = 5%nat) lines ->
  Forall (fun l => angle l = 0) (labels_of_lines lines).
Proof.
  unfold labels_of_lines.
  induction 1 as [| line rest Hline _ IH]; [constructor |].
  cbn [flat_map].
  destruct (line_label line) as [l |] eqn:Hl; [| exact IH].
  constructor; [exact (line_label_five_columns line l Hline Hl) | exact IH].
Qed.

(** X24. A label file in the plain YOLO format (five columns on every
    line, plain tokens, class ids of at least [-len(classes)]) loads with
    every angle 0, and saving writes six columns for every label: the file
    gains an angle column of zeros. *)
Theorem plain_yolo_file_gains_angle_column :
  forall (label_path : text -> text -> text) (fs : file_system)
         (st : State) (name content : text),
    (0 <= current_index st)%Z ->
    py_getitem (image_files st) (current_index st) = Ok name ->
    fs (label_path (image_dir st) name) = Regular content ->
    plain_file content ->
    Forall (fun line => length (py_split (py_strip line)) = 5%nat)
      (py_lines content) ->
    let parsed := labels_of_lines (py_lines content) in
    class_ids_ok (classes st) parsed ->
    exists (st' : State) (fs' : file_system),
      load_yolo_labels label_path fs st = Ok st'
      /\ labels st' = parsed
      /\ Forall (fun l => angle l = 0) (labels st')
      /\ save_labels label_path fs st' = Ok (fs', st')
      /\ fs' (label_path (image_dir st) name)
         = Regular (concat (map format_label parsed))
      /\ Forall (fun l => length (py_split (py_strip (format_label l)))
                          = 6%nat)
           parsed.
Proof.
  intros label_path fs st name content Hidx Hname Hfs _ Hfive parsed Hids.
  set (st' := with_labels parsed st).
  exists st',
    (fs_write fs (label_path (image_dir st) name)
       (concat (map format_label parsed))).
  split.
  { exact (load_yolo_labels_regular label_path fs st name content
             Hidx Hname Hfs Hids). }
  split; [reflexivity |]. split.
  { exact (labels_of_five_columns _ Hfive). }
  split.
  { apply (save_labels_writes label_path fs st' name Hidx Hname).
    simpl. rewrite Hfs. discriminate. }
  split; [apply fs_write_read |].
  apply Forall_forall. intros l _. rewrite py_split_format_label.
  reflexivity.
Qed.

Lemma good_line_plain : plain_file good_line.
Proof. unfold plain_file. repeat constructor. Qed.

Lemma plain_yolo_file_gains_angle_column_witness :
  exists (st' : State) (fs' : file_system),
    load_yolo_labels example_label_path (fs_with_label_file good_line)
      file_session = Ok st'
    /\ labels st' = [mkLabel 0 0.5 0.5 0.2 0.2 0]
    /\ save_labels example_label_path (fs_with_label_file good_line) st'
       = Ok (fs', st')
    /\ fs' (txt "d/a.txt")
       = Regular (concat (map format_label [mkLabel 0 0.5 0.5 0.2 0.2 0])).
Proof.
  destruct (plain_yolo_file_gains_angle_column example_label_path
              (fs_with_label_file good_line) file_session (txt "a.jpg")
              good_line)
    as (st' & fs' & Hload & Hl & _ & Hsave & Hfs & _).
  - simpl. lia.
  - reflexivity.
  - apply fs_with_label_file_path.
  - exact good_line_plain.
  - repeat constructor.
  - change (labels_of_lines (py_lines good_line))
      with [mkLabel 0 0.5 0.5 0.2 0.2 0].
    constructor; [simpl; lia | constructor].
  - exists st', fs'. repeat split; assumption.
Defined.
